(** * Image analysis tool: a shallow embedding of [app.py]

    The development follows the layout of the Python source.

    - [Py] holds the handful of Python built-ins the program relies on
      ([str.lower], the [in] operator on strings, [str] of an integer, the
      format specifications [{:,}] and [{:.2f}], true division of integers).
    - [App] holds the program itself: [detect_sequence_diagram],
      [analyze_sequence_diagram] and [analyze_image], the latter split along
      its own comment headings into the prompt override, the loop over the
      candidate models, the notices shown once the loop is over and the
      generic report.
    - [Script] is a remote service that replays a fixed list of outcomes; it
      is used to run the program on concrete inputs.
    - [Spec] gives names to the notions the specification uses.
    - [Trace] reads the requests off the events of a run; [Outage] is a
      remote service that is down.
    - [Main] holds the parts of [main] around [analyze_image] (the choice
      of the prompt, the preparation of the upload, the display of the
      result), [Config] holds [configure_genai], and [Pillow] the two
      library calls of [main] on a concrete image.
    - [Setup] and [Probe] hold the scripts [test_setup.py] and
      [test_vision_api.py].

    Conventions.

    Strings.  A Python [str] is a [string] holding its UTF-8 encoding, and
    [str.lower] is modelled on the ASCII letters, every other byte being
    left as it is.  All the keywords the program searches for are ASCII.
    The only code points outside ASCII whose lower case contains an ASCII
    letter are the Kelvin sign (k) and the dotted capital I (i followed by a
    combining dot); no keyword contains a k and none ends in i, so neither
    can complete a keyword, and the keyword tests of the model are those of
    Python.

    Numbers.  A Python [int] is a [Z].  A Python [float] is a primitive
    binary64 [float], so that [width / height], the comparisons with 1.5,
    1.2, 0.7, 0.9 and 1.1 and the two decimals of the report are computed
    as Python computes them.  The width and the height of a decoded image
    are C integers; on that range [int / int] is the binary64 quotient of
    the two exactly converted operands, which is what [Py.truediv] is.

    Effects.  The requests to the remote service and the notices put on the
    page are the events of a run.  The remote service is any state
    transformer: the theorems hold for every service, and [Script] is one.
    The constructor [genai.GenerativeModel] only records the model name; it
    is part of the request.  Nothing in the modelled code raises outside the
    two inner [try] blocks of the loop and the one of
    [analyze_sequence_diagram], so the outer handler of [analyze_image] has
    nothing to catch. *)

From Stdlib Require Import ZArith String Ascii List Bool Lia DecimalString.
From Stdlib Require Import Floats Uint63.
From stdpp Require Import gmap strings list.

Set Warnings "-inexact-float".
Local Open Scope string_scope.
Local Open Scope list_scope.
Local Open Scope Z_scope.

(** ** Python built-ins *)

Module Py.

(** [c.lower()] for one character. *)
Definition lower_ascii (c : ascii) : ascii :=
  let n := N_of_ascii c in
  if ((65 <=? n) && (n <=? 90))%N then ascii_of_N (n + 32) else c.

(** [s.lower()] *)
Fixpoint lower (s : string) : string :=
  match s with
  | EmptyString => EmptyString
  | String c s' => String (lower_ascii c) (lower s')
  end.

(** [sub in s] for two strings. *)
Fixpoint str_in (sub s : string) : bool :=
  String.prefix sub s ||
  match s with
  | EmptyString => false
  | String _ s' => str_in sub s'
  end.

(** [x in xs] for a list of strings. *)
Definition list_in (x : string) (xs : list string) : bool :=
  existsb (String.eqb x) xs.

(** Truth value of a string: only [""] is falsy. *)
Definition truthy (s : string) : bool :=
  match s with
  | EmptyString => false
  | String _ _ => true
  end.

(** [s.lower() if s else ""] for an optional string ([None] is falsy). *)
Definition lower_or_empty (o : option string) : string :=
  match o with
  | Some s => if truthy s then lower s else ""
  | None => ""
  end.

(** [str(o)] for an optional string. *)
Definition str_of_option (o : option string) : string :=
  match o with
  | Some s => s
  | None => "None"
  end.

(** [str(z)] *)
Definition str_of_Z (z : Z) : string :=
  NilZero.string_of_int (Z.to_int z).

(** A comma before every group of three digits, on the reversed digits. *)
Fixpoint insert_commas (rev_digits : list ascii) : list ascii :=
  match rev_digits with
  | a :: b :: c :: (_ :: _) as rest => a :: b :: c :: ","%char :: insert_commas rest
  | _ => rev_digits
  end.

(** [format(z, ",")] *)
Definition format_thousands (z : Z) : string :=
  let digits := list_ascii_of_string (str_of_Z (Z.abs z)) in
  (if z <? 0 then "-" else "")
  +:+ string_of_list_ascii (rev (insert_commas (rev digits))).

(** [a / b] rounded to the nearest integer, ties to even, for [0 <= a] and
    [0 < b]. *)
Definition div_half_even (a b : Z) : Z :=
  let q := a / b in
  let r := a mod b in
  if 2 * r <? b then q
  else if b <? 2 * r then q + 1
  else if Z.even q then q else q + 1.

(** The digits of [format(x, ".2f")] from the number of hundredths. *)
Definition hundredths (n : Z) : string :=
  str_of_Z (n / 100) +:+ "."
  +:+ (if n mod 100 <? 10 then "0" else "") +:+ str_of_Z (n mod 100).

(** [format(x, ".2f")]: the exact value of [x], that is [m * 2^e], rounded to
    two decimals, ties to even. *)
Definition format_2f (x : float) : string :=
  match Prim2SF x with
  | S754_nan => "nan"
  | S754_infinity s => if s then "-inf" else "inf"
  | S754_zero s => if s then "-0.00" else "0.00"
  | S754_finite s m e =>
      (if s then "-" else "")
      +:+ hundredths (if 0 <=? e then Z.pos m * 2 ^ e * 100
                      else div_half_even (Z.pos m * 100) (2 ^ (- e)))
  end.

(** [float(z)] for an integer in the 63-bit range. *)
Definition float_of_Z (z : Z) : float :=
  if z <? 0 then PrimFloat.opp (PrimFloat.of_uint63 (Uint63.of_Z (- z)))
  else PrimFloat.of_uint63 (Uint63.of_Z z).

(** [a / b] on two integers (true division), for [b <> 0]. *)
Definition truediv (a b : Z) : float :=
  PrimFloat.div (float_of_Z a) (float_of_Z b).

End Py.

(** ** The program *)

Module App.

(** The attributes of a [PIL.Image] that the program reads.  [format] is
    [None] for an image that was not loaded from a file; [bits] is [None]
    when the object has no such attribute. *)
Record Image := {
  size : Z * Z;
  mode : string;
  format : option string;
  bits : option Z
}.

(** *** [detect_sequence_diagram] *)

Definition seq_keywords : list string :=
  ["sequence"; "seq"; "interaction"; "collaboration"; "message flow";
   "uml"; "system flow"; "process flow"].

(** [aspect_ratio = width / height if height > 0 else 1] *)
Definition aspect_ratio (width height : Z) : float :=
  if 0 <? height then Py.truediv width height else 1%float.

Definition detect_sequence_diagram (image : Image) (file_name : option string)
  : bool * option string :=
  let file_name_lower := Py.lower_or_empty file_name in
  if existsb (fun keyword => Py.str_in keyword file_name_lower) seq_keywords
  then (true, Some "Filename suggests sequence diagram")
  else
    let '(width, height) := size image in
    if PrimFloat.ltb 1.5 (aspect_ratio width height) && (200 <? height)
    then (true, Some "Wide format typical of sequence diagrams")
    else if PrimFloat.ltb 1.2 (aspect_ratio width height) && (150 <? height)
    then (true, Some "Format suggests technical diagram")
    else (false, None).

(** *** [analyze_image]: the prompt override *)

Definition seq_prompt_keywords : list string :=
  ["sequence"; "lifeline"; "message"; "participant"; "actor"; "interaction";
   "uml"; "diagram"].

Definition prompt_suggests_seq (prompt : string) : bool :=
  let prompt_lower := if Py.truthy prompt then Py.lower prompt else "" in
  existsb (fun keyword => Py.str_in keyword prompt_lower) seq_prompt_keywords.

(** The pair [(is_sequence_diagram, reason)] after the statement
    [if prompt_suggests_seq and not is_sequence_diagram: ...]. *)
Definition override_detection (detected : bool * option string) (prompt : string)
  : bool * option string :=
  let '(is_sequence_diagram, reason) := detected in
  if prompt_suggests_seq prompt && negb is_sequence_diagram
  then (true, Some "User prompt suggests sequence diagram")
  else (is_sequence_diagram, reason).

(** *** [analyze_image]: the fixed texts *)

Definition model_names_to_try : list string :=
  ["models/gemini-2.5-flash"; "models/gemini-2.5-pro";
   "models/gemini-2.0-flash-exp"; "models/gemini-2.0-flash";
   "models/gemini-flash-latest"; "models/gemini-pro-latest"].

Definition specialized_prompt : string :=
  "This is a UML sequence diagram. Please analyze it in detail and provide:
1. All participants/actors in the diagram
2. The sequence of messages between participants
3. Any conditions, loops, or combined fragments
4. The overall flow and purpose of the interaction
5. Any return messages or synchronous/asynchronous calls
Please be very specific about the text labels and message content.".

Definition quota_message (error : string) : string :=
  "Google AI API quota exceeded. The free tier limit has been reached. Please:
1. Wait for quota to reset (usually after some time)
2. Check your billing at https://ai.dev/usage
3. Consider upgrading to a paid plan

Error: " +:+ error.

Definition permission_message : string :=
  "API key permission denied. Check if your API key has vision capabilities enabled at Google AI Studio.".

(** *** [analyze_image]: the generic report *)

Definition orientation (width height : Z) : string :=
  if height <? width then "Landscape"
  else if width <? height then "Portrait"
  else "Square".

Definition mode_descriptions : gmap string string :=
  list_to_map
    [("RGB", "Color image (Red, Green, Blue)");
     ("RGBA", "Color image with transparency");
     ("L", "Grayscale (Black and White)");
     ("P", "Palette-based color");
     ("CMYK", "CMYK color (for printing)");
     ("HSV", "HSV color space")].

Definition color_info (image : Image) : string :=
  default ("Unknown mode: " +:+ mode image) (mode_descriptions !! mode image).

Definition size_category (pixels : Z) : string :=
  if pixels <? 640 * 480 then "Small"
  else if pixels <? 1920 * 1080 then "Medium"
  else if pixels <? 4 * 1024 * 1024 then "Large"
  else "Very Large".

Definition likely_type (file_name : option string) : string :=
  let file_ext_lower := Py.lower_or_empty file_name in
  if Py.list_in file_ext_lower [".jpg"; ".jpeg"; ".png"; ".gif"; ".bmp"]
  then "Photograph or Digital Image"
  else if Py.list_in file_ext_lower [".svg"; ".ico"]
  then "Vector Graphic or Icon"
  else if Py.list_in file_ext_lower [".psd"]
  then "Photoshop Document"
  else if Py.list_in file_ext_lower [".tiff"; ".tif"]
  then "Professional/High-Quality Image"
  else "Image File".

Definition recommendations (image : Image) (ratio : float) : list string :=
  (if String.eqb (mode image) "RGBA" then ["Has transparent background"]
   else if String.eqb (mode image) "L" then ["Black and white image"]
   else if String.eqb (mode image) "CMYK" then ["Optimized for printing"]
   else [])
  ++
  (if PrimFloat.ltb 1.5 ratio then ["Wide panoramic format"]
   else if PrimFloat.ltb ratio 0.7 then ["Tall vertical format"]
   else if PrimFloat.leb 0.9 ratio && PrimFloat.leb ratio 1.1 then ["Square format"]
   else []).

(** [image.format in names]; [None] is in no list of strings. *)
Definition format_in (image : Image) (names : list string) : bool :=
  match format image with
  | Some f => Py.list_in f names
  | None => false
  end.

(** [image.format or 'Unknown'] *)
Definition format_or_unknown (image : Image) : string :=
  match format image with
  | Some f => if Py.truthy f then f else "Unknown"
  | None => "Unknown"
  end.

(** [image.bits if hasattr(image, 'bits') and image.bits else 'Unknown'] *)
Definition bit_depth (image : Image) : string :=
  match bits image with
  | Some b => if b =? 0 then "Unknown" else Py.str_of_Z b
  | None => "Unknown"
  end.

Definition perfect_for (image : Image) : string :=
  if format_in image ["PNG"] then "Web display and digital use"
  else if format_in image ["JPEG"] then "Photographs and images"
  else if format_in image ["TIFF"; "BMP"] then "High-quality prints"
  else "General use".

Definition great_for (ratio : float) : string :=
  if PrimFloat.ltb 1.5 ratio then "Great for wallpapers/wide displays"
  else if PrimFloat.ltb ratio 0.7 then "Great for portraits/mobile"
  else "Versatile square format".

(** The first f-string, up to the heading of the recommendations. *)
Definition report_head (image : Image) (file_name : option string) : string :=
  let '(width, height) := size image in
  let pixels := width * height in
  "## 📊 Detailed Image Analysis

### 📐 **Technical Specifications**
- **Dimensions**: "
  +:+ Py.str_of_Z width +:+ " × " +:+ Py.str_of_Z height
  +:+ " pixels (" +:+ Py.format_thousands pixels
  +:+ " total pixels)
- **Aspect Ratio**: " +:+ Py.format_2f (aspect_ratio width height)
  +:+ ":1
- **Orientation**: " +:+ orientation width height
  +:+ "
- **Size Category**: " +:+ size_category pixels
  +:+ "
- **File Format**: " +:+ format_or_unknown image
  +:+ "
- **Color Mode**: " +:+ color_info image
  +:+ "

### 🎨 **Image Characteristics**
- **File Type**: " +:+ likely_type file_name
  +:+ "
- **Compression**: " +:+ (if format_in image ["PNG"; "BMP"; "TIFF"] then "Lossless" else "Lossy")
  +:+ " (typical for " +:+ Py.str_of_option (format image)
  +:+ ")
- **Bit Depth**: " +:+ bit_depth image
  +:+ "

### 💡 **Features & Recommendations**
".

(** The lines added by [for rec in recommendations], or the single line of
    the [else] branch. *)
Definition report_recommendations (recs : list string) : string :=
  match recs with
  | [] => "- Standard image format
"
  | _ => fold_left (fun text rec => text +:+ "- ✅ " +:+ rec +:+ "
") recs ""
  end.

(** The second f-string. *)
Definition report_tail (image : Image) : string :=
  let '(width, height) := size image in
  "
### 🔍 **Usage Suggestions**
- Perfect for: " +:+ perfect_for image
  +:+ "
- Best viewed at: " +:+ Py.str_of_Z width +:+ "×" +:+ Py.str_of_Z height
  +:+ " pixels or smaller
- Aspect ratio: " +:+ great_for (aspect_ratio width height)
  +:+ "

### ⚠️ **AI Enhancement Note**
To get AI-powered content analysis (what's actually *in* the image), your Google API key needs vision capabilities. You can:
1. Check your API key at [Google AI Studio](https://makersuite.google.com/app/apikey)
2. Ensure vision/image analysis is enabled
3. Try a different API key if available

*This analysis provides technical information about your image file. For content-based analysis, please ensure proper API access.*".

Definition basic_analysis (image : Image) (file_name : option string) : string :=
  let '(width, height) := size image in
  report_head image file_name
  +:+ report_recommendations (recommendations image (aspect_ratio width height))
  +:+ report_tail image.

(** *** The sequence-diagram text *)

Definition sequence_analysis (image : Image) : string :=
  let '(width, height) := size image in
  "## 📋 Sequence Diagram Analysis

### 🔍 **Diagram Overview**
This appears to be a **UML Sequence Diagram**. Sequence diagrams show object interactions over time, with messages passed between objects.

### 📊 **Technical Details**
- **Image Size**: "
  +:+ Py.str_of_Z width +:+ " × " +:+ Py.str_of_Z height
  +:+ " pixels
- **Diagram Type**: UML Sequence Diagram
- **Reading Direction**: Left to Right (participants), Top to Bottom (time flow)

### 👥 **Participants/Lifelines**
Sequence diagrams typically include:
- **Actors**: External entities that interact with the system
- **Objects/System Components**: Internal system parts
- **Lifelines**: Vertical dashed lines showing object existence over time

### 💬 **Communication Patterns**
The diagram likely shows:
- **Synchronous Messages**: Solid arrows with filled heads (blocking calls)
- **Asynchronous Messages**: Open arrows (non-blocking calls)
- **Return Messages**: Dashed lines with open arrows
- **Self Messages**: Loops showing internal processing
- **Creation Messages**: Messages that create new objects

### 🎯 **Key Elements to Look For**
1. **Participants** (at the top): Actors, objects, system boundaries
2. **Lifelines** (vertical dashed lines): Object lifespans
3. **Activation Boxes** (rectangles on lifelines): When object is active
4. **Messages** (arrows): Communication between objects
5. **Combined Fragments** (frames): Loops, conditions, alternatives
6. **Notes** (cornered rectangles): Additional information

### 📝 **Analysis Suggestions**
To fully understand this sequence diagram:
- **Identify all participants** - Who/what are the main actors?
- **Follow message flow** - What triggers each interaction?
- **Note timing** - What happens sequentially vs. in parallel?
- **Look for patterns** - Request-response, queries, notifications

### ⚠️ **AI Enhancement Note**
For detailed content analysis (specific text and messages), you need a Google AI API with vision capabilities. The current analysis identifies this as a sequence diagram based on visual patterns and provides framework understanding.

### 🔧 **Next Steps**
1. If you have a vision-enabled API key, you'll get specific text extraction
2. Otherwise, you can manually extract text from the diagram using:
   - Participant names (top of each lifeline)
   - Message text (on/near arrows)
   - Conditions and loops (in combined fragments)
".

(** *** The remote service and the page *)

(** What is sent next to the prompt: the image object, or its PNG bytes. *)
Inductive payload :=
| PILImage (image : Image)
| PNGBytes (img_bytes : string).

(** The end of a [try] body: its value, or [str(e)] of the exception [e]
    that left it. *)
Inductive tried (A : Type) :=
| Done (a : A)
| Raised (message : string).

Arguments Done {A} a.
Arguments Raised {A} message.

(** What a run does that can be observed from outside: the requests to the
    remote service, each with how it ended, and the notices put on the
    page. *)
Inductive event :=
| GenerateContent (model_name prompt : string) (data : payload) (result : tried string)
| StError (body : string)
| StInfo (body : string)
| StWarning (body : string).

(** A computation takes the state of the remote service and gives a value,
    the new state and the events it caused, oldest first. *)
Definition M (World A : Type) : Type := World -> A * World * list event.

Definition ret {World A : Type} (a : A) : M World A :=
  fun w => (a, w, []).

Definition bind {World A B : Type} (m : M World A) (k : A -> M World B) : M World B :=
  fun w =>
    let '(a, w1, events1) := m w in
    let '(b, w2, events2) := k a w1 in
    (b, w2, events1 ++ events2).

Definition emit {World : Type} (events : list event) : M World unit :=
  fun w => (tt, w, events).

Notation "x <- c1 ;; c2" := (bind c1 (fun x => c2))
  (at level 100, c1 at next level, right associativity).
Notation "c1 ;; c2" := (bind c1 (fun _ => c2))
  (at level 100, right associativity).

(** What an [except] block decides: [break] out of the loop, or go on (to
    the second attempt after the first block, to the next model after the
    second), in both cases with the new value of [api_error]. *)
Inductive verdict :=
| Terminal (api_error : string)
| Passing (api_error : string).

(** [except Exception as first_error] *)
Definition first_handler (model_name first_error : string) : verdict :=
  let error_msg := Py.lower first_error in
  if Py.str_in "quota" error_msg || Py.str_in "limit" error_msg
  then Terminal (quota_message first_error)
  else if Py.str_in "404" error_msg || Py.str_in "not found" error_msg
  then Passing ("Model " +:+ model_name +:+ " not available. Trying next model...")
  else if Py.str_in "permission" error_msg || Py.str_in "forbidden" error_msg
  then Terminal permission_message
  else Passing ("Error with model " +:+ model_name +:+ ": " +:+ first_error).

(** [except Exception as second_error] *)
Definition second_handler (model_name second_error : string) : verdict :=
  let error_msg := Py.lower second_error in
  if Py.str_in "quota" error_msg || Py.str_in "limit" error_msg
  then Terminal (quota_message second_error)
  else if Py.str_in "404" error_msg || Py.str_in "not found" error_msg
  then Passing ("Model " +:+ model_name +:+ " not available (404 error).")
  else Passing ("Error with model " +:+ model_name +:+ ": " +:+ second_error).

(** How one iteration of [for model_name in model_names_to_try] ends. *)
Inductive step :=
| Return (text : string)
| Break (api_error : string)
| Continue (api_error : string).

(** How the loop ends: by a [return] inside it, by [break], or because the
    list is used up; the last two carry [api_error]. *)
Inductive loop_exit :=
| Returned (text : string)
| Broken (api_error : option string)
| Exhausted (api_error : option string).

(** [api_error and (a in api_error.lower() or b in api_error.lower())] *)
Definition api_error_mentions (api_error : option string) (a b : string) : bool :=
  match api_error with
  | Some e => Py.truthy e && (Py.str_in a (Py.lower e) || Py.str_in b (Py.lower e))
  | None => false
  end.

Definition quota_notices : list event :=
  [StError "🚫 Google AI API Quota Exceeded";
   StInfo "The Google AI API has reached its free tier limit. Please:";
   StInfo "1. **Wait for quota to reset** (usually within minutes/hours)";
   StInfo "2. **Check your usage** at [AI Usage Dashboard](https://ai.dev/usage)";
   StInfo "3. **Enable billing** if you need more quota"].

Definition permission_notices : list event :=
  [StError "🔑 API Key Permission Issue";
   StInfo "Your API key may not have vision capabilities enabled:";
   StInfo "1. Check your key at [Google AI Studio](https://makersuite.google.com/app/apikey)";
   StInfo "2. Ensure vision/image analysis is enabled";
   StInfo "3. Try generating a new API key with proper permissions"].

Definition providing_basic : event :=
  StWarning "AI image analysis not available. Providing detailed image analysis...".

(** The notices of the block [if is_sequence_diagram: ... else: ...] that
    follows the loop. *)
Definition unavailable_notices (is_sequence_diagram : bool) (reason api_error : option string)
  : list event :=
  if is_sequence_diagram then
    (if api_error_mentions api_error "quota" "limit" then quota_notices else [])
    ++ [StWarning ("AI vision analysis not available. Detected sequence diagram ("
                   +:+ Py.str_of_option reason
                   +:+ "). Providing sequence diagram analysis...")]
  else if api_error_mentions api_error "quota" "limit" then
    quota_notices ++ [providing_basic]
  else if api_error_mentions api_error "permission" "forbidden" then
    permission_notices ++ [providing_basic]
  else [providing_basic].

Section Remote.

(** The state of the remote service, and the three library calls whose
    result the program cannot know in advance:
    [genai.GenerativeModel(model_name).generate_content([prompt, data]).text],
    [image.save(img_byte_arr, format='PNG')] followed by [getvalue()], and
    the two [ImageEnhance] calls. *)
Variable World : Type.
Variable generate_content : string -> string -> payload -> World -> tried string * World.
Variable save_png : Image -> tried string.
Variable enhance : Image -> tried unit.

Definition generate (model_name prompt : string) (data : payload) : M World (tried string) :=
  fun w =>
    let '(result, w') := generate_content model_name prompt data w in
    (result, w', [GenerateContent model_name prompt data result]).

(** The body of the loop. *)
Definition try_model (image : Image) (prompt : string) (is_sequence_diagram : bool)
  (model_name : string) : M World step :=
  let sent := if is_sequence_diagram then specialized_prompt else prompt in
  first <- generate model_name sent (PILImage image) ;;
  match first with
  | Done text => ret (Return text)
  | Raised first_error =>
      match first_handler model_name first_error with
      | Terminal api_error => ret (Break api_error)
      | Passing api_error =>
          second <- match save_png image with
                    | Done img_bytes => generate model_name sent (PNGBytes img_bytes)
                    | Raised message => ret (Raised message)
                    end ;;
          match second with
          | Done text => ret (Return text)
          | Raised second_error =>
              match second_handler model_name second_error with
              | Terminal api_error => ret (Break api_error)
              | Passing api_error => ret (Continue api_error)
              end
          end
      end
  end.

(** [for model_name in models: ...] entered with the given [api_error]. *)
Fixpoint try_models (image : Image) (prompt : string) (is_sequence_diagram : bool)
  (models : list string) (api_error : option string) : M World loop_exit :=
  match models with
  | [] => ret (Exhausted api_error)
  | model_name :: rest =>
      how <- try_model image prompt is_sequence_diagram model_name ;;
      match how with
      | Return text => ret (Returned text)
      | Break api_error' => ret (Broken (Some api_error'))
      | Continue api_error' =>
          try_models image prompt is_sequence_diagram rest (Some api_error')
      end
  end.

Definition analyze_sequence_diagram (image : Image) (prompt : string)
  (file_name : option string) : M World (option string) :=
  match enhance image with
  | Done _ => ret (Some (sequence_analysis image))
  | Raised message =>
      emit [StError ("Error analyzing sequence diagram: " +:+ message)] ;;
      ret None
  end.

(** What follows the loop once it is left without a [return]. *)
Definition fall_back (image : Image) (prompt : string) (file_name : option string)
  (is_sequence_diagram : bool) (reason api_error : option string)
  : M World (option string) :=
  emit (unavailable_notices is_sequence_diagram reason api_error) ;;
  if is_sequence_diagram
  then analyze_sequence_diagram image prompt file_name
  else ret (Some (basic_analysis image file_name)).

Definition analyze_image (image : Image) (prompt : string) (file_name : option string)
  : M World (option string) :=
  let '(is_sequence_diagram, reason) :=
    override_detection (detect_sequence_diagram image file_name) prompt in
  how <- try_models image prompt is_sequence_diagram model_names_to_try None ;;
  match how with
  | Returned text => ret (Some text)
  | Broken api_error | Exhausted api_error =>
      fall_back image prompt file_name is_sequence_diagram reason api_error
  end.

End Remote.

End App.

(** ** A remote service that replays a script *)

Module Script.

(** The outcomes still to be played, one for every request. *)
Definition World : Type := list (App.tried string).

(** Every request takes the next outcome; a request made when the script is
    over fails. *)
Definition generate_content (model_name prompt : string) (data : App.payload) (w : World)
  : App.tried string * World :=
  match w with
  | outcome :: w' => (outcome, w')
  | [] => (App.Raised "503 service unavailable", [])
  end.

Definition save_png (image : App.Image) : App.tried string :=
  App.Done "PNG".

Definition enhance (image : App.Image) : App.tried unit :=
  App.Done tt.

Definition try_models := App.try_models World generate_content save_png.

Definition analyze_image := App.analyze_image World generate_content save_png enhance.

Definition png (width height : Z) : App.Image :=
  {| App.size := (width, height); App.mode := "RGB";
     App.format := Some "PNG"; App.bits := None |}.

(** Two models that are not there, then an answer. *)
Definition missing_twice_then_answer : World :=
  [App.Raised "404 models/gemini-2.5-flash is not found";
   App.Raised "404 models/gemini-2.5-flash is not found";
   App.Raised "404 models/gemini-2.5-pro is not found";
   App.Raised "404 models/gemini-2.5-pro is not found";
   App.Done "A cat on a sofa"].

(** An exceeded quota on the very first request; an answer would be next. *)
Definition quota_then_answer : World :=
  [App.Raised "429 Quota exceeded for metric generate_content";
   App.Done "A cat on a sofa"].

(** One model that is not there, then an exceeded quota. *)
Definition missing_then_quota : World :=
  [App.Raised "404 models/gemini-2.5-flash is not found";
   App.Raised "404 models/gemini-2.5-flash is not found";
   App.Raised "429 Resource exhausted: rate LIMIT reached";
   App.Done "A cat on a sofa"].

(** The first model fails on the image object, and is refused permission on
    the PNG bytes; the second model would answer. *)
Definition permission_on_second_attempt : World :=
  [App.Raised "500 Internal error";
   App.Raised "403 Permission denied";
   App.Done "A cat on a sofa"].

(** A JPEG file as the decoder hands it over, with its sample precision. *)
Definition jpeg (width height : Z) (bits : option Z) : App.Image :=
  {| App.size := (width, height); App.mode := "RGB";
     App.format := Some "JPEG"; App.bits := bits |}.

End Script.

(** ** Binary64 *)

Module Binary64.

(** What the division computes from the quotient and the remainder: a
    mantissa [M] of 53 digits and an exponent [E + j] such that [M * 2^j]
    is [N / D] rounded to a multiple of [2^j], to the nearest one. *)
Definition rounded (N D E : Z) (f : spec_float) : Prop :=
  exists M j,
    f = S754_finite false M (E + j) /\ 0 <= j <= 2 /\
    2 ^ 52 <= Z.pos M < 2 ^ 53 /\
    Z.abs (2 * (Z.pos M * 2 ^ j * D - N)) <= 2 ^ j * D.

End Binary64.

(** ** What the specification calls things *)

Module Spec.

(** [sub] occurs in [s]. *)
Definition contains (sub s : string) : Prop :=
  exists before after, s = before +:+ sub +:+ after.

(** A file name is present and, lowercased, contains a keyword of the
    classifier. *)
Definition name_suggests (file_name : option string) : Prop :=
  exists name keyword,
    file_name = Some name /\ In keyword App.seq_keywords /\
    contains keyword (Py.lower name).

(** The lowercased prompt contains a keyword of the override. *)
Definition prompt_suggests (prompt : string) : Prop :=
  exists keyword,
    In keyword App.seq_prompt_keywords /\ contains keyword (Py.lower prompt).

(** [aspectRatio = width / height], and 1 if [height] is 0. *)
Definition aspectRatio (width height : Z) : float :=
  if height =? 0 then 1%float else Py.truediv width height.

(** [aspectRatio > 1.5 and height > 200] *)
Definition wide_rule (width height : Z) : Prop :=
  PrimFloat.ltb 1.5 (aspectRatio width height) = true /\ 200 < height.

(** [aspectRatio > 1.2 and height > 150] *)
Definition technical_rule (width height : Z) : Prop :=
  PrimFloat.ltb 1.2 (aspectRatio width height) = true /\ 150 < height.

(** A line of the report: a label in bold, a colon and the value. *)
Definition report_line (label value : string) : string :=
  "
- **" +:+ label +:+ "**: " +:+ value +:+ "
".

(** The strings the file name is compared with to name the file type. *)
Definition extension_strings : list string :=
  [".jpg"; ".jpeg"; ".png"; ".gif"; ".bmp"; ".svg"; ".ico"; ".psd"; ".tiff"; ".tif"].

(** Two images with the same width, height, colour mode and format. *)
Definition same_descriptor (image1 image2 : App.Image) : Prop :=
  App.size image1 = App.size image2 /\
  App.mode image1 = App.mode image2 /\
  App.format image1 = App.format image2.

(** The models that were sent a request, oldest request first. *)
Fixpoint models_called (events : list App.event) : list string :=
  match events with
  | [] => []
  | App.GenerateContent model_name _ _ _ :: rest => model_name :: models_called rest
  | _ :: rest => models_called rest
  end.

(** A request that ended in an exception. *)
Definition is_refusal (e : App.event) : Prop :=
  exists model_name prompt data message,
    e = App.GenerateContent model_name prompt data (App.Raised message).

(** A notice on the page. *)
Definition is_notice (e : App.event) : Prop :=
  match e with
  | App.GenerateContent _ _ _ _ => False
  | _ => True
  end.

(** No rule of the classifier applies. *)
Definition no_rule_matches (image : App.Image) (file_name : option string) : Prop :=
  ~ name_suggests file_name /\
  ~ wide_rule (fst (App.size image)) (snd (App.size image)) /\
  ~ technical_rule (fst (App.size image)) (snd (App.size image)).

(** The [bits] attribute as the library sets it.  The program reads it with
    [hasattr], from whatever image it is given; the library puts it there
    when it decodes a file, so that it depends on the format of the file:
    [decoder_bits] says what each format gets. *)
Definition decoded_by (decoder_bits : option string -> option Z) (image : App.Image)
  : Prop :=
  App.bits image = decoder_bits (App.format image).

(** Two [try] bodies that end alike: both with a value, or both with an
    exception. *)
Definition same_ending {A B : Type} (a : App.tried A) (b : App.tried B) : Prop :=
  match a, b with
  | App.Done _, App.Done _ => True
  | App.Raised _, App.Raised _ => True
  | _, _ => False
  end.

(** No request of the run was answered. *)
Definition unanswered (events : list App.event) : Prop :=
  forall model_name prompt data text,
    ~ In (App.GenerateContent model_name prompt data (App.Done text)) events.

End Spec.

(** ** The requests of a run *)

Module Trace.

(** The requests among the events, oldest first: the model, the prompt and
    what was sent with it. *)
Fixpoint requests (events : list App.event) : list (string * string * App.payload) :=
  match events with
  | [] => []
  | App.GenerateContent model_name prompt data _ :: rest =>
      (model_name, prompt, data) :: requests rest
  | _ :: rest => requests rest
  end.

(** The requests go down the list of models: a model is sent the image
    object, then possibly its PNG bytes, all with the same prompt, and only
    then the next model is asked; the run may stop after any request. *)
Inductive in_order (png : App.tried string) (image : App.Image) (sent : string)
  : list (string * string * App.payload) -> list string -> Prop :=
| stopped (models : list string) : in_order png image sent [] models
| asked_once (model_name : string) (rest : list string) reqs :
    in_order png image sent reqs rest ->
    in_order png image sent
      ((model_name, sent, App.PILImage image) :: reqs) (model_name :: rest)
| asked_twice (model_name : string) (rest : list string) img_bytes reqs :
    png = App.Done img_bytes ->
    in_order png image sent reqs rest ->
    in_order png image sent
      ((model_name, sent, App.PILImage image)
       :: (model_name, sent, App.PNGBytes img_bytes) :: reqs)
      (model_name :: rest).

(** The three kinds of message the [except] blocks look for. *)
Definition quota_like (error : string) : Prop :=
  Spec.contains "quota" (Py.lower error) \/ Spec.contains "limit" (Py.lower error).

Definition not_found_like (error : string) : Prop :=
  Spec.contains "404" (Py.lower error) \/ Spec.contains "not found" (Py.lower error).

Definition permission_like (error : string) : Prop :=
  Spec.contains "permission" (Py.lower error)
  \/ Spec.contains "forbidden" (Py.lower error).

(** An error after which the first [except] block goes on to the PNG
    bytes, and one on which it gives up for want of permission. *)
Definition transient (error : string) : Prop :=
  ~ quota_like error /\ (not_found_like error \/ ~ permission_like error).

Definition denied (error : string) : Prop :=
  ~ quota_like error /\ ~ not_found_like error /\ permission_like error.

(** Something of a run was taken for a quota problem: a request that raised
    with such a message, or the conversion to PNG that did, after a first
    request that let the program go on. *)
Definition quota_raised (png : App.tried string) (image : App.Image)
  (events : list App.event) : Prop :=
  (exists model_name request data error,
     In (App.GenerateContent model_name request data (App.Raised error)) events /\
     quota_like error) \/
  (exists model_name request error message,
     In (App.GenerateContent model_name request (App.PILImage image) (App.Raised error))
       events /\
     transient error /\ png = App.Raised message /\ quota_like message).

(** A model name that brings neither "quota" nor "limit" into the two
    messages of the second [except] block: they mention the quota only
    through the error they quote. *)
Definition neutral (model_name : string) : Prop :=
  App.api_error_mentions
    (Some ("Model " +:+ model_name +:+ " not available (404 error).")) "quota" "limit"
  = false /\
  forall error,
    App.api_error_mentions
      (Some ("Error with model " +:+ model_name +:+ ": " +:+ error)) "quota" "limit"
    = Py.str_in "quota" (Py.lower error) || Py.str_in "limit" (Py.lower error).

Definition quota_error : App.event := App.StError "🚫 Google AI API Quota Exceeded".

Definition permission_error : App.event := App.StError "🔑 API Key Permission Issue".

(** The answer of [analyze_image] on whether the image is a sequence
    diagram, after the prompt was looked at. *)
Definition classified (image : App.Image) (prompt : string) (file_name : option string)
  : bool :=
  fst (App.override_detection (App.detect_sequence_diagram image file_name) prompt).

(** The prompt that goes out with the requests. *)
Definition sent (image : App.Image) (prompt : string) (file_name : option string)
  : string :=
  if classified image prompt file_name then App.specialized_prompt else prompt.

(** The twelve requests of a run in which nothing is answered. *)
Definition all_requests (image : App.Image) (sent img_bytes : string)
  (models : list string) : list (string * string * App.payload) :=
  flat_map (fun model_name =>
              [(model_name, sent, App.PILImage image);
               (model_name, sent, App.PNGBytes img_bytes)]) models.

End Trace.

(** A remote service that is down: every request raises the same error. *)
Module Outage.

Definition World : Type := unit.

Definition generate_content (model_name prompt : string) (data : App.payload) (w : World)
  : App.tried string * World :=
  (App.Raised "503 service unavailable", w).

Definition analyze_image :=
  App.analyze_image World generate_content Script.save_png Script.enhance.

End Outage.

(** ** [main]: what happens around [analyze_image] *)

Module Main.

Definition predefined_prompts : list string :=
  ["Describe this image in detail";
   "What objects can you identify in this image?";
   "What is the main subject of this image?";
   "Analyze the colors and composition of this image";
   "Is there any text in this image? If so, what does it say?";
   "What is the mood or atmosphere of this image?";
   "Are there any people in this image? Describe them.";
   "What location or setting is depicted in this image?";
   "Analyze this sequence diagram - show all participants, messages, and interactions";
   "Extract all text and labels from this diagram";
   "Explain the flow and logic shown in this technical diagram"].

(** The prompt that goes to [analyze_image], from the entry selected in the
    box and the text of the text area. *)
Definition choose_prompt (prompt_option custom_prompt : string) : string :=
  if String.eqb prompt_option "Custom prompt"
  then (if Py.truthy custom_prompt then custom_prompt else "Describe this image")
  else prompt_option.

(** What the page shows once the button is pressed: what [analyze_image]
    does, and then the three elements of the result. *)
Inductive event :=
| Analysis (e : App.event)
| StSubheader (body : string)
| StWrite (body : string)
| StDownloadButton (label data file_name mime : string).

(** [if result: ...] *)
Definition show_result (result : option string) (name : string) : list event :=
  match result with
  | Some text =>
      if Py.truthy text
      then [StSubheader "Analysis Result";
            StWrite text;
            StDownloadButton "📥 Download Analysis" text
              ("image_analysis_" +:+ name +:+ ".txt") "text/plain"]
      else []
  | None => []
  end.

Section Page.

Variable World : Type.
Variable generate_content :
  string -> string -> App.payload -> World -> App.tried string * World.
Variable save_png : App.Image -> App.tried string.
Variable enhance : App.Image -> App.tried unit.

(** The body of [if st.button(...)], for the uploaded file called [name]. *)
Definition analyze_clicked (image : App.Image) (prompt name : string) (w : World)
  : World * list event :=
  let '(result, w', events) :=
    App.analyze_image World generate_content save_png enhance image prompt (Some name) w in
  (w', map Analysis events ++ show_result result name).

End Page.

Section Pillow.

(** The two ways in which [main] makes a new image from the opened one, as
    far as the library can make them end:
    [Image.new('RGB', image.size, (255, 255, 255))] with the image pasted
    on it, and [image.convert('RGB')]. *)
Variable flatten : App.Image -> App.tried App.Image.
Variable convert_rgb : App.Image -> App.tried App.Image.

(** The [try] block that opens the upload, from what [Image.open] gave. *)
Definition prepare (opened : App.tried App.Image) : App.tried App.Image :=
  match opened with
  | App.Done image =>
      if String.eqb (App.mode image) "RGBA" then flatten image
      else if negb (Py.list_in (App.mode image) ["RGB"; "L"]) then convert_rgb image
      else App.Done image
  | App.Raised message => App.Raised message
  end.

End Pillow.

End Main.

(** The two library calls of [main] as Pillow documents them: an image
    made by the library has no format and no [bits] attribute. *)
Module Pillow.

Definition new_rgb (size : Z * Z) : App.Image :=
  {| App.size := size; App.mode := "RGB"; App.format := None; App.bits := None |}.

Definition flatten (image : App.Image) : App.tried App.Image :=
  App.Done (new_rgb (App.size image)).

Definition convert_rgb (image : App.Image) : App.tried App.Image :=
  App.Done (new_rgb (App.size image)).

(** What decoding a file puts in [bits]: the JPEG decoder stores the sample
    precision of the file, and accepts no other precision than 8; no other
    decoder sets the attribute. *)
Definition decoder_bits (format : option string) : option Z :=
  match format with
  | Some f => if String.eqb f "JPEG" then Some 8 else None
  | None => None
  end.

End Pillow.

(** ** [configure_genai] *)

Module Config.

(** From the value of [os.getenv("GOOGLE_API_KEY")]: the answer and the
    notice.  The call [genai.configure] only stores the key. *)
Definition configure_genai (api_key : option string) : bool * list App.event :=
  match api_key with
  | Some key =>
      if Py.truthy key then (true, [])
      else (false, [App.StError "Google API Key not found! Please set it in your .env file."])
  | None => (false, [App.StError "Google API Key not found! Please set it in your .env file."])
  end.

End Config.

(** ** [test_setup.py] *)

Module Setup.

(** What the script finds: which of the four imports succeed (the others
    raise [ImportError]), whether the file [.env] exists, and the value of
    [os.getenv('GOOGLE_API_KEY')] once [load_dotenv()] has run. *)
Record Machine := {
  has_streamlit : bool;
  has_genai : bool;
  has_pil : bool;
  has_dotenv : bool;
  env_file : bool;
  api_key : option string
}.

(** The value of a function and the lines it printed, oldest first. *)
Definition check_imports (m : Machine) : bool * list string :=
  let out := ["Checking imports..."] in
  if negb (has_streamlit m)
  then (false, out ++ ["✗ Streamlit import failed. Install with: pip install streamlit"])
  else
    let out := out ++ ["✓ Streamlit imported successfully"] in
    if negb (has_genai m)
    then (false, out ++ ["✗ Google Generative AI import failed. Install with: pip install google-generativeai"])
    else
      let out := out ++ ["✓ Google Generative AI imported successfully"] in
      if negb (has_pil m)
      then (false, out ++ ["✗ PIL import failed. Install with: pip install pillow"])
      else
        let out := out ++ ["✓ PIL (Pillow) imported successfully"] in
        if negb (has_dotenv m)
        then (false, out ++ ["✗ python-dotenv import failed. Install with: pip install python-dotenv"])
        else (true, out ++ ["✓ python-dotenv imported successfully"]).

(** The import inside [check_env_file] is not in a [try]: the function
    raises when the package is missing. *)
Definition check_env_file (m : Machine) : App.tried bool * list string :=
  let out := ["
Checking environment setup..."] in
  if env_file m then
    let out := out ++ ["✓ .env file exists"] in
    if negb (has_dotenv m) then (App.Raised "No module named 'dotenv'", out)
    else
      match api_key m with
      | Some key =>
          if Py.truthy key && negb (String.eqb key "your_google_api_key_here")
          then (App.Done true, out ++ ["✓ Google API key is configured"])
          else (App.Done false,
                out ++ ["✗ Google API key is not set or is using placeholder value";
                        "  Please edit .env file and add your actual API key"])
      | None =>
          (App.Done false,
           out ++ ["✗ Google API key is not set or is using placeholder value";
                   "  Please edit .env file and add your actual API key"])
      end
  else
    (App.Done false,
     out ++ ["✗ .env file not found";
             "  Copy .env.example to .env and add your Google API key"]).

Definition rule : string := "==============================".

Definition main (m : Machine) : App.tried bool * list string :=
  let out := ["Image Analyzer Setup Test"; rule] in
  let '(imports_ok, lines1) := check_imports m in
  let out := out ++ lines1 in
  let '(checked, lines2) := check_env_file m in
  let out := out ++ lines2 in
  match checked with
  | App.Raised message => (App.Raised message, out)
  | App.Done env_ok =>
      let out := out ++ ["
" +:+ rule] in
      if imports_ok && env_ok
      then (App.Done true,
            out ++ ["✓ All checks passed! You're ready to run the app.";
                    "
To start the application:";
                    "streamlit run app.py"])
      else (App.Done false,
            out ++ ["✗ Some checks failed. Please fix the issues above.";
                    "
To install missing packages:";
                    "pip install -r requirements.txt"]
                ++ (if negb env_ok
                    then ["
To set up environment:";
                          "1. Copy .env.example to .env";
                          "2. Edit .env and add your Google API key";
                          "   Get an API key from: https://makersuite.google.com/app/apikey"]
                    else []))
  end.

(** How the process ends: [sys.exit(0 if success else 1)], or the traceback
    of an exception that nothing caught. *)
Inductive ending :=
| Exit (code : Z)
| Traceback (message : string).

Definition script (m : Machine) : ending * list string :=
  let '(success, out) := main m in
  match success with
  | App.Done true => (Exit 0, out)
  | App.Done false => (Exit 1, out)
  | App.Raised message => (Traceback message, out)
  end.

(** The key is there, and it is not the placeholder of [.env.example]. *)
Definition key_is_set (m : Machine) : Prop :=
  exists key,
    api_key m = Some key /\ key <> "" /\ key <> "your_google_api_key_here".

(** A line that reports a failure. *)
Definition is_failure (line : string) : bool := String.prefix "✗" line.

End Setup.

(** ** [test_vision_api.py] *)

Module Probe.

(** [len(s)] and [s[:n]] count code points: in the UTF-8 encoding, the
    bytes that do not continue a character. *)
Definition is_continuation (c : ascii) : bool :=
  match c with
  | Ascii _ _ _ _ _ _ b6 b7 => b7 && negb b6
  end.

Fixpoint len (s : string) : Z :=
  match s with
  | EmptyString => 0
  | String c rest => (if is_continuation c then 0 else 1) + len rest
  end.

Fixpoint take (n : nat) (s : string) : string :=
  match s with
  | EmptyString => EmptyString
  | String c rest =>
      if is_continuation c then String c (take n rest)
      else match n with
           | O => EmptyString
           | S n' => String c (take n' rest)
           end
  end.

Definition model_names : list string :=
  ["gemini-1.5-flash"; "gemini-1.5-pro"; "models/gemini-1.5-flash";
   "models/gemini-1.5-pro"; "gemini-2.0-flash-exp"].

(** A model as [genai.list_models()] gives it. *)
Record Listed := {
  name : string;
  supported_generation_methods : list string
}.

(** What the script does that can be seen: the lines it prints and the
    requests it sends. *)
Inductive event :=
| Printed (line : string)
| Generate (model_name : string) (result : App.tried string).

Section Service.

(** The remote service: [genai.configure(api_key=...)], the models that
    [genai.list_models()] yields and the exception that ends the iteration
    if there is one, and
    [genai.GenerativeModel(model_name).generate_content("Hello, this is a test.").text]. *)
Variable World : Type.
Variable configure : string -> App.tried unit.
Variable listing : list Listed * option string.
Variable generate_content : string -> World -> App.tried string * World.

(** [for model_name in model_names: ...] *)
Fixpoint probe (models : list string) (w : World) : World * list event :=
  match models with
  | [] => (w, [])
  | model_name :: rest =>
      let '(result, w1) := generate_content model_name w in
      match result with
      | App.Done text =>
          (w1, [Printed ("
Trying model: " +:+ model_name);
                Generate model_name result;
                Printed ("SUCCESS " +:+ model_name +:+ ": " +:+ take 100 text +:+ "...")])
      | App.Raised message =>
          let '(w2, events) := probe rest w1 in
          (w2, [Printed ("
Trying model: " +:+ model_name);
                Generate model_name result;
                Printed ("FAILED " +:+ model_name +:+ ": " +:+ message)] ++ events)
      end
  end.

Definition listed_lines (models : list Listed) : list event :=
  map (fun m => Printed ("  - " +:+ name m))
    (filter (fun m => Py.list_in "generateContent" (supported_generation_methods m))
       models).

Definition script (api_key : option string) (w : World) : World * list event :=
  let found := match api_key with Some key => Py.truthy key | None => false end in
  let out :=
    [Printed ("API Key found: " +:+ (if found then "True" else "False"));
     Printed ("API Key length: "
            +:+ Py.str_of_Z (match api_key with
                             | Some key => if Py.truthy key then len key else 0
                             | None => 0
                             end))] in
  match api_key with
  | Some key =>
      if Py.truthy key then
        match configure key with
        | App.Raised message =>
            (w, out ++ [Printed ("API configuration failed: " +:+ message)])
        | App.Done _ =>
            let out := out ++ [Printed "API configured successfully";
                               Printed "
Available models:"]
                           ++ listed_lines (fst listing) in
            match snd listing with
            | Some message =>
                (w, out ++ [Printed ("API configuration failed: " +:+ message)])
            | None =>
                let '(w', events) := probe model_names w in
                (w', out ++ [Printed "
Testing vision capabilities..."] ++ events)
            end
        end
      else (w, out ++ [Printed "No API key found"])
  | None => (w, out ++ [Printed "No API key found"])
  end.

End Service.

(** The models that were sent a request, oldest first, and how each request
    ended. *)
Fixpoint requests (events : list event) : list (string * App.tried string) :=
  match events with
  | [] => []
  | Generate model_name result :: rest => (model_name, result) :: requests rest
  | Printed _ :: rest => requests rest
  end.

Definition raised (request : string * App.tried string) : Prop :=
  exists message, snd request = App.Raised message.

End Probe.

(** ** Strings *)

Lemma append_cons (c : ascii) (a b : string) :
  String c a +:+ b = String c (a +:+ b).
Proof. reflexivity. Qed.

Lemma append_assoc (a b c : string) : (a +:+ b) +:+ c = a +:+ b +:+ c.
Proof.
  induction a as [|x a IH]; [reflexivity |].
  now rewrite !append_cons, IH.
Qed.

Lemma prefix_append (sub rest : string) : String.prefix sub (sub +:+ rest) = true.
Proof.
  induction sub as [|x sub IH]; [destruct rest; reflexivity |].
  rewrite append_cons. simpl.
  destruct (ascii_dec x x); [exact IH | congruence].
Qed.

Lemma prefix_split (sub s : string) :
  String.prefix sub s = true -> exists rest, s = sub +:+ rest.
Proof.
  revert s. induction sub as [|x sub IH]; intros s H.
  - exists s. reflexivity.
  - destruct s as [|y s]; simpl in H; [discriminate |].
    destruct (ascii_dec x y) as [->|]; [| discriminate].
    destruct (IH s H) as [rest ->]. exists rest. reflexivity.
Qed.

(** [Py.str_in] decides occurrence. *)
Lemma str_in_contains (sub s : string) :
  Py.str_in sub s = true <-> Spec.contains sub s.
Proof.
  split.
  - induction s as [|c s IH]; intros H.
    + change (String.prefix sub "" || false = true) in H.
      apply orb_true_iff in H as [H | H]; [| discriminate].
      destruct (prefix_split _ _ H) as [rest E]. exists "", rest. exact E.
    + change (String.prefix sub (String c s) || Py.str_in sub s = true) in H.
      apply orb_true_iff in H as [H | H].
      * destruct (prefix_split _ _ H) as [rest E]. exists "", rest. exact E.
      * destruct (IH H) as (before & after & ->).
        exists (String c before), after. reflexivity.
  - intros (before & after & ->).
    induction before as [|c before IH].
    + change ("" +:+ sub +:+ after) with (sub +:+ after).
      assert (P := prefix_append sub after).
      destruct (sub +:+ after);
        unfold Py.str_in; fold Py.str_in; rewrite P; reflexivity.
    + rewrite append_cons.
      change (String.prefix sub (String c (before +:+ sub +:+ after))
              || Py.str_in sub (before +:+ sub +:+ after) = true).
      rewrite IH. apply orb_true_r.
Qed.

Lemma str_in_false (sub s : string) :
  Py.str_in sub s = false <-> ~ Spec.contains sub s.
Proof.
  rewrite <- str_in_contains. destruct (Py.str_in sub s); split; congruence.
Qed.

Lemma lower_or_empty_some (name : string) :
  Py.lower_or_empty (Some name) = Py.lower name.
Proof. destruct name; reflexivity. Qed.

Lemma list_in_In (x : string) (xs : list string) :
  Py.list_in x xs = true <-> In x xs.
Proof.
  unfold Py.list_in. rewrite existsb_exists. split.
  - intros (y & Hy & E). apply String.eqb_eq in E. now subst.
  - intros H. exists x. split; [exact H | apply String.eqb_refl].
Qed.

(** [any(keyword in s for keyword in keywords)] *)
Lemma any_keyword_in (keywords : list string) (s : string) :
  existsb (fun keyword => Py.str_in keyword s) keywords = true
  <-> exists keyword, In keyword keywords /\ Spec.contains keyword s.
Proof.
  rewrite existsb_exists.
  split; intros (k & Hk & H); exists k; split; try exact Hk;
    now apply str_in_contains.
Qed.

(** ** Binary64 division of two small integers *)

Lemma digits_bounds (p : positive) :
  2 ^ (Z.pos (digits2_pos p) - 1) <= Z.pos p < 2 ^ Z.pos (digits2_pos p).
Proof.
  induction p as [p IH | p IH |]; simpl digits2_pos.
  - rewrite Pos2Z.inj_succ.
    replace (Z.succ (Z.pos (digits2_pos p)) - 1) with (Z.succ (Z.pos (digits2_pos p) - 1)) by lia.
    rewrite !Z.pow_succ_r by lia. lia.
  - rewrite Pos2Z.inj_succ.
    replace (Z.succ (Z.pos (digits2_pos p)) - 1) with (Z.succ (Z.pos (digits2_pos p) - 1)) by lia.
    rewrite !Z.pow_succ_r by lia. lia.
  - simpl. lia.
Qed.

Lemma digits_unique (p : positive) (n : Z) :
  2 ^ (n - 1) <= Z.pos p < 2 ^ n -> Z.pos (digits2_pos p) = n.
Proof.
  intros [Hlo Hhi]. pose proof (digits_bounds p) as [Dlo Dhi].
  assert (Hn : 0 < n).
  { destruct (Z.ltb_spec 0 n) as [|Hn]; [assumption |].
    exfalso. destruct (Z.eq_dec n 0) as [-> | ]; [simpl in Hhi; lia |].
    rewrite Z.pow_neg_r in Hhi by lia. lia. }
  destruct (Z.lt_trichotomy (Z.pos (digits2_pos p)) n) as [L | [E | G]]; [| exact E |].
  - exfalso. assert (2 ^ Z.pos (digits2_pos p) <= 2 ^ (n - 1))
      by (apply Z.pow_le_mono_r; lia). lia.
  - exfalso. assert (2 ^ n <= 2 ^ (Z.pos (digits2_pos p) - 1))
      by (apply Z.pow_le_mono_r; lia). lia.
Qed.

Lemma fexp_val (x : Z) : -1021 <= x -> fexp prec emax x = x - 53.
Proof. intros H. unfold fexp, emin, prec, emax. lia. Qed.

(** No shift for a mantissa of 53 digits, a shift by one for 54 digits. *)
Lemma shr_fexp_53 (m e : Z) (l : location) :
  Zdigits2 m = 53 -> -1074 <= e ->
  shr_fexp prec emax m e l = (shr_record_of_loc m l, e).
Proof.
  intros Hd He. unfold shr_fexp. rewrite Hd, fexp_val by lia.
  replace (53 + e - 53 - e) with 0 by lia. reflexivity.
Qed.

Lemma shr_fexp_54 (m e : Z) (l : location) :
  Zdigits2 m = 54 -> -1074 <= e ->
  shr_fexp prec emax m e l = (shr_1 (shr_record_of_loc m l), e + 1).
Proof.
  intros Hd He. unfold shr_fexp. rewrite Hd, fexp_val by lia.
  replace (54 + e - 53 - e) with 1 by lia. reflexivity.
Qed.

(** A mantissa of 53 digits with an exponent in range is left as it is. *)
Lemma binary_round_aux_canonical (m : positive) (e : Z) :
  Z.pos (digits2_pos m) = 53 -> -1074 <= e <= 971 ->
  binary_round_aux prec emax false (Z.pos m) e loc_Exact = S754_finite false m e.
Proof.
  intros Hd He. unfold binary_round_aux.
  rewrite shr_fexp_53 by (simpl Zdigits2; lia).
  cbn [shr_record_of_loc shr_m loc_of_shr_record round_nearest_even].
  rewrite shr_fexp_53 by (simpl Zdigits2; lia).
  cbn [shr_record_of_loc shr_m].
  unfold emax, prec.
  destruct (Z.leb_spec e (1024 - 53)); [reflexivity | lia].
Qed.

Lemma iter_xO (m d : positive) : Z.pos (Pos.iter xO m d) = Z.pos m * 2 ^ Z.pos d.
Proof.
  induction d as [|d IH] using Pos.peano_ind.
  - simpl. lia.
  - rewrite Pos.iter_succ, Pos2Z.inj_succ, Z.pow_succ_r by lia.
    rewrite Pos2Z.inj_xO, IH. lia.
Qed.

(** [float(z)] is [z] itself, written with 53 digits. *)
Lemma normalize_small (p : positive) :
  Z.pos p < 2 ^ 53 ->
  exists m a,
    binary_normalize prec emax (Z.pos p) 0 false = S754_finite false m (- a) /\
    Z.pos (digits2_pos m) = 53 /\ 0 <= a <= 52 /\ Z.pos m = Z.pos p * 2 ^ a.
Proof.
  intros Hp. pose proof (digits_bounds p) as [Dlo Dhi].
  assert (Hd : Z.pos (digits2_pos p) <= 53).
  { destruct (Z.leb_spec (Z.pos (digits2_pos p)) 53) as [|G]; [assumption |].
    assert (2 ^ 53 <= 2 ^ (Z.pos (digits2_pos p) - 1)) by (apply Z.pow_le_mono_r; lia).
    lia. }
  unfold binary_normalize, binary_round. rewrite fexp_val by lia.
  unfold shl_align.
  destruct (Z.pos (digits2_pos p) + 0 - 53 - 0) as [|d|d] eqn:Ed; try lia.
  - exists p, 0. rewrite binary_round_aux_canonical by lia.
    repeat split; lia.
  - set (m := Pos.iter xO p d).
    assert (Hm : Z.pos m = Z.pos p * 2 ^ Z.pos d) by apply iter_xO.
    assert (Hdm : Z.pos (digits2_pos m) = 53).
    { apply digits_unique. rewrite Hm.
      assert (E1 : 2 ^ (53 - 1) = 2 ^ (Z.pos (digits2_pos p) - 1) * 2 ^ Z.pos d).
      { rewrite <- Z.pow_add_r by lia. f_equal. lia. }
      assert (E2 : 2 ^ 53 = 2 ^ Z.pos (digits2_pos p) * 2 ^ Z.pos d).
      { rewrite <- Z.pow_add_r by lia. f_equal. lia. }
      rewrite E1, E2.
      assert (0 < 2 ^ Z.pos d) by (apply Z.pow_pos_nonneg; lia).
      split; [apply Z.mul_le_mono_nonneg_r | apply Z.mul_lt_mono_pos_r]; lia. }
    exists m, (Z.pos d).
    replace (Z.pos (digits2_pos p) + 0 - 53) with (- Z.pos d) by lia.
    rewrite binary_round_aux_canonical by lia.
    repeat split; lia.
Qed.

Lemma new_location_spec (D r : Z) :
  0 < D -> 0 <= r < D ->
  match new_location D r with
  | loc_Exact => r = 0
  | loc_Inexact Lt => 0 < r /\ 2 * r < D
  | loc_Inexact Eq => 0 < r /\ 2 * r = D
  | loc_Inexact Gt => D < 2 * r
  end.
Proof.
  intros HD Hr. unfold new_location, new_location_even, new_location_odd.
  destruct (Z.even D) eqn:Ev; destruct (Z.eqb_spec r 0) as [-> | Hne];
    try reflexivity.
  - destruct (Z.compare_spec (2 * r) D); lia.
  - assert (D <> 2 * r)
      by (intros E; rewrite E, Z.even_mul in Ev; discriminate Ev).
    destruct (Z.compare_spec (2 * r + 1) D); lia.
Qed.

Lemma loc_of_record_of_loc (m : Z) (l : location) :
  loc_of_shr_record (shr_record_of_loc m l) = l /\
  shr_m (shr_record_of_loc m l) = m.
Proof. destruct l as [|[]]; split; reflexivity. Qed.

Lemma shr_1_spec (m : Z) (r s : bool) :
  0 < m ->
  shr_1 {| shr_m := m; shr_r := r; shr_s := s |}
  = {| shr_m := m / 2; shr_r := Z.odd m; shr_s := r || s |}.
Proof.
  intros Hm. destruct m as [|p|p]; try lia.
  destruct p as [p | p |]; unfold shr_1.
  - f_equal. apply Z.div_unique with (r := 1); lia.
  - f_equal. apply Z.div_unique with (r := 0); lia.
  - reflexivity.
Qed.

(** The second shift of [binary_round_aux]: a mantissa of 53 digits stays,
    and [2^53] becomes [2^52] with the next exponent. *)
Lemma renormalize (M0 E : Z) :
  2 ^ 52 <= M0 <= 2 ^ 53 -> -1074 <= E <= 969 ->
  exists M i,
    (let '(mrs, e) := shr_fexp prec emax M0 E loc_Exact in
     match shr_m mrs with
     | 0 => S754_zero false
     | Z.pos m =>
         if e <=? emax - prec then S754_finite false m e else S754_infinity false
     | Z.neg _ => S754_nan
     end) = S754_finite false M (E + i) /\
    0 <= i <= 1 /\ 2 ^ 52 <= Z.pos M < 2 ^ 53 /\ Z.pos M * 2 ^ i = M0.
Proof.
  intros HM HE.
  destruct (Z.eq_dec M0 (2 ^ 53)) as [-> | Hne].
  - exists (4503599627370496%positive), 1.
    rewrite shr_fexp_54 by (try reflexivity; lia).
    cbv beta iota. change (shr_record_of_loc (2 ^ 53) loc_Exact)
      with {| shr_m := 2 ^ 53; shr_r := false; shr_s := false |}.
    rewrite shr_1_spec by reflexivity.
    cbn [shr_m]. change (2 ^ 53 / 2) with (Z.pos 4503599627370496).
    cbv beta iota. unfold emax, prec.
    destruct (Z.leb_spec (E + 1) (1024 - 53)); [| lia].
    repeat split; try reflexivity; lia.
  - destruct M0 as [|p|p]; try lia.
    exists p, 0.
    rewrite shr_fexp_53
      by (try lia; simpl Zdigits2; apply digits_unique; change (53 - 1) with 52; lia).
    cbv beta iota. cbn [shr_record_of_loc shr_m]. unfold emax, prec.
    destruct (Z.leb_spec E (1024 - 53)); [| lia].
    rewrite Z.add_0_r. repeat split; try lia.
Qed.

Lemma round_quotient (N D E : Z) :
  0 < D -> 2 ^ 52 * D <= N < 2 ^ 54 * D -> -1074 <= E <= 968 ->
  Binary64.rounded N D E
    (binary_round_aux prec emax false (N / D) E (new_location D (N mod D))).
Proof.
  intros HD HN HE.
  pose proof (Z.div_mod N D ltac:(lia)) as Hdm.
  pose proof (Z.mod_pos_bound N D HD) as Hr.
  pose proof (new_location_spec D (N mod D) HD Hr) as Hloc.
  set (q := N / D) in *. set (r := N mod D) in *.
  set (l := new_location D r) in *.
  assert (Hq : 2 ^ 52 <= q < 2 ^ 54) by (split; nia).
  destruct (loc_of_record_of_loc q l) as [Hl Hm].
  unfold binary_round_aux.
  destruct (Z.ltb_spec q (2 ^ 53)) as [Hlt | Hge].
  - (* 53 digits *)
    rewrite shr_fexp_53
      by (try lia; destruct q as [|p|p]; try lia; simpl Zdigits2;
          apply digits_unique; change (53 - 1) with 52; lia).
    cbv beta iota. rewrite Hl, Hm.
    set (M0 := round_nearest_even q l).
    assert (HM0 : 2 ^ 52 <= M0 <= 2 ^ 53 /\ Z.abs (2 * (M0 * D - N)) <= D).
    { unfold M0, round_nearest_even.
      destruct l as [|[]]; [| | | ]; try destruct (Z.even q); split; nia. }
    destruct HM0 as [HM0 Herr].
    destruct (renormalize M0 E HM0 ltac:(lia)) as (M & i & -> & Hi & HM & HMi).
    exists M, i. split; [reflexivity |]. split; [lia |]. split; [exact HM |].
    assert (Hi' : i = 0 \/ i = 1) by lia.
    destruct Hi' as [-> | ->]; change (2 ^ 0) with 1 in *; change (2 ^ 1) with 2 in *;
      nia.
  - (* 54 digits *)
    rewrite shr_fexp_54
      by (try lia; destruct q as [|p|p]; try lia; simpl Zdigits2;
          apply digits_unique; change (54 - 1) with 53; lia).
    cbv beta iota.
    assert (Hrec : shr_1 (shr_record_of_loc q l)
                   = {| shr_m := q / 2; shr_r := Z.odd q;
                        shr_s := match l with loc_Exact => false | _ => true end |}).
    { destruct l as [|[]]; cbn [shr_record_of_loc]; rewrite shr_1_spec by lia;
        reflexivity. }
    rewrite Hrec. cbn [shr_m].
    pose proof (Z.div_mod q 2 ltac:(lia)) as Hq2.
    pose proof (Zmod_odd q) as Hodd.
    set (m1 := q / 2) in *.
    set (l1 := loc_of_shr_record _).
    set (M0 := round_nearest_even m1 l1).
    assert (HM0 : 2 ^ 52 <= M0 <= 2 ^ 53 /\ Z.abs (2 * (M0 * 2 * D - N)) <= 2 * D).
    { unfold M0, round_nearest_even, l1, loc_of_shr_record.
      destruct (Z.odd q); destruct l as [|[]];
        try destruct (Z.even m1); split; nia. }
    destruct HM0 as [HM0 Herr].
    destruct (renormalize M0 (E + 1) HM0 ltac:(lia)) as (M & i & -> & Hi & HM & HMi).
    exists M, (1 + i). split; [f_equal; lia |]. split; [lia |]. split; [exact HM |].
    assert (Hi' : i = 0 \/ i = 1) by lia.
    destruct Hi' as [-> | ->]; change (2 ^ (1 + 0)) with 2; change (2 ^ (1 + 1)) with 4;
      change (2 ^ 0) with 1 in *; change (2 ^ 1) with 2 in *; nia.
Qed.

Lemma SFdiv_finite (mx my : positive) (ex ey : Z) :
  Z.pos (digits2_pos mx) = 53 -> Z.pos (digits2_pos my) = 53 ->
  -52 <= ex <= 0 -> -52 <= ey <= 0 ->
  Binary64.rounded (Z.pos mx * 2 ^ 53) (Z.pos my) (ex - ey - 53)
    (SFdiv prec emax (S754_finite false mx ex) (S754_finite false my ey)).
Proof.
  intros Hx Hy Hex Hey.
  pose proof (digits_bounds mx) as Bx. pose proof (digits_bounds my) as By.
  rewrite Hx in Bx. rewrite Hy in By. change (53 - 1) with 52 in *.
  unfold SFdiv, SFdiv_core_binary. simpl Zdigits2. rewrite Hx, Hy.
  rewrite fexp_val by lia.
  replace (Z.min (53 + ex - (53 + ey) - 53) (ex - ey)) with (ex - ey - 53) by lia.
  replace (ex - ey - (ex - ey - 53)) with 53 by lia.
  cbv beta iota zeta.
  rewrite Z.shiftl_mul_pow2 by lia.
  pose proof (Z.div_mod (Z.pos mx * 2 ^ 53) (Z.pos my) ltac:(lia)) as Hdm.
  unfold Z.div, Z.modulo in *.
  destruct (Z.div_eucl (Z.pos mx * 2 ^ 53) (Z.pos my)) as [q r] eqn:Eqr.
  cbn [fst snd] in *. cbn [xorb].
  pose proof (round_quotient (Z.pos mx * 2 ^ 53) (Z.pos my) (ex - ey - 53)) as R.
  unfold Z.div, Z.modulo in R. rewrite Eqr in R. cbn [fst snd] in R.
  apply R; lia.
Qed.

Lemma SFltb_finite (mt M : positive) (e : Z) :
  SFltb (S754_finite false mt (-52)) (S754_finite false M e)
  = if e <? -52 then false
    else if -52 <? e then true
    else Z.pos mt <? Z.pos M.
Proof.
  unfold SFltb, SFcompare.
  change (Pos.compare_cont Eq mt M) with (Z.pos mt ?= Z.pos M).
  destruct (Z.compare_spec (-52) e); destruct (Z.ltb_spec e (-52));
    destruct (Z.ltb_spec (-52) e); try lia; reflexivity.
Qed.

(** Comparing the binary64 quotient of two positive integers below [2^31]
    with the binary64 number [mt * 2^-52] that stands for [num / den] is
    comparing the exact quotient with [num / den]. *)
Lemma ltb_quotient (mt : positive) (num den w h : Z) :
  0 < den <= num -> num < 2 * den ->
  num * 2 ^ 53 < den * (2 * Z.pos mt + 1) <= num * 2 ^ 53 + 2 ^ 22 ->
  0 < w < 2 ^ 31 -> 0 < h < 2 ^ 31 ->
  SFltb (S754_finite false mt (-52))
    (SFdiv prec emax (binary_normalize prec emax w 0 false)
       (binary_normalize prec emax h 0 false))
  = (num * h <? den * w).
Proof.
  intros Hden Hnum Hmt Hw Hh.
  destruct w as [|pw|pw]; try lia. destruct h as [|ph|ph]; try lia.
  destruct (normalize_small pw ltac:(lia)) as (mx & A & -> & Hdx & HA & Hmx).
  destruct (normalize_small ph ltac:(lia)) as (my & B & -> & Hdy & HB & Hmy).
  destruct (SFdiv_finite mx my (- A) (- B) Hdx Hdy ltac:(lia) ltac:(lia))
    as (M & j & -> & Hj & HM & Herr).
  rewrite SFltb_finite.
  set (w := Z.pos pw) in *. set (h := Z.pos ph) in *.
  rewrite Hmx, Hmy in Herr.
  assert (HP : 0 < 2 ^ A) by (apply Z.pow_pos_nonneg; lia).
  assert (HQ : 0 < 2 ^ B) by (apply Z.pow_pos_nonneg; lia).
  assert (HJ : 0 < 2 ^ j) by (apply Z.pow_pos_nonneg; lia).
  set (P := 2 ^ A) in *. set (Q := 2 ^ B) in *. set (J := 2 ^ j) in *.
  assert (HMlo : 2 ^ 53 - 1 <= 2 * Z.pos M - 1) by lia.
  assert (HMhi : 2 * Z.pos M + 1 <= 2 ^ 54 - 1) by lia.
  assert (Hh0 : 0 <= h) by lia.
  destruct (Z.ltb_spec (- A - - B - 53 + j) (-52)) as [Hlow | Hnotlow];
    [| destruct (Z.ltb_spec (-52) (- A - - B - 53 + j)) as [Hhigh | Hnothigh]].
  - (* the quotient is below 1 *)
    assert (E : P = J * Q * 2 ^ (A - (j + B))).
    { unfold P, J, Q. rewrite <- !Z.pow_add_r by lia. f_equal. lia. }
    assert (HR : 1 <= 2 ^ (A - (j + B)))
      by (apply (Z.pow_le_mono_r 2 0); lia).
    set (R := 2 ^ (A - (j + B))) in *.
    assert (HK : 0 < J * Q) by (apply Z.mul_pos_pos; assumption).
    assert (H1 : J * Q * (2 ^ 54 * w * R) <= J * Q * ((2 * Z.pos M + 1) * h))
      by (rewrite E in Herr; lia).
    apply Z.mul_le_mono_pos_l in H1; [| exact HK].
    assert (H2 : (2 * Z.pos M + 1) * h <= (2 ^ 54 - 1) * h)
      by (apply Z.mul_le_mono_nonneg_r; assumption).
    assert (H3 : 2 ^ 54 * w * 1 <= 2 ^ 54 * w * R)
      by (apply Z.mul_le_mono_nonneg_l; lia).
    assert (Hwh : w < h) by lia.
    symmetry. apply Z.ltb_ge.
    assert (den * w <= den * h) by (apply Z.mul_le_mono_nonneg_l; lia).
    assert (den * h <= num * h) by (apply Z.mul_le_mono_nonneg_r; lia).
    lia.
  - (* the quotient is at least 2, up to the rounding *)
    assert (E : J * Q = P * 4 * 2 ^ (j + B - (A + 2))).
    { unfold P, J, Q. change 4 with (2 ^ 2). rewrite <- !Z.pow_add_r by lia.
      f_equal. lia. }
    assert (HR : 1 <= 2 ^ (j + B - (A + 2)))
      by (apply (Z.pow_le_mono_r 2 0); lia).
    set (R := 2 ^ (j + B - (A + 2))) in *.
    assert (E' : J * (h * Q) = P * (h * 4 * R))
      by (replace (J * (h * Q)) with (h * (J * Q)) by ring; rewrite E; ring).
    assert (E'' : Z.pos M * J * (h * Q) = P * (Z.pos M * (h * 4 * R)))
      by (replace (Z.pos M * J * (h * Q)) with (Z.pos M * (J * (h * Q))) by ring;
          rewrite E'; ring).
    rewrite E', E'' in Herr.
    assert (H1 : P * ((2 * Z.pos M - 1) * (h * 4 * R)) <= P * (2 ^ 54 * w)) by lia.
    apply Z.mul_le_mono_pos_l in H1; [| exact HP].
    assert (H2 : (2 ^ 53 - 1) * (h * 4 * R) <= (2 * Z.pos M - 1) * (h * 4 * R)).
    { apply Z.mul_le_mono_nonneg_r; [| exact HMlo].
      apply Z.mul_nonneg_nonneg; lia. }
    assert (H3 : h * 4 * 1 <= h * 4 * R) by (apply Z.mul_le_mono_nonneg_l; lia).
    assert (H4 : (2 ^ 53 - 1) * (h * 4 * 1) <= (2 ^ 53 - 1) * (h * 4 * R))
      by (apply Z.mul_le_mono_nonneg_l; lia).
    assert (Hwh : 2 * h <= w) by lia.
    symmetry. apply Z.ltb_lt.
    assert (den * (2 * h) <= den * w) by (apply Z.mul_le_mono_nonneg_l; lia).
    assert (num * h < 2 * den * h) by (apply Z.mul_lt_mono_pos_r; lia).
    lia.
  - (* the quotient is between 1 and 2: the mantissas decide *)
    assert (E : J * Q = P * 2 ^ 1).
    { unfold P, J, Q. rewrite <- !Z.pow_add_r by lia. f_equal. lia. }
    change (2 ^ 1) with 2 in E.
    assert (E' : J * (h * Q) = P * (2 * h))
      by (replace (J * (h * Q)) with (h * (J * Q)) by ring; rewrite E; ring).
    assert (E'' : Z.pos M * J * (h * Q) = P * (2 * (Z.pos M * h)))
      by (replace (Z.pos M * J * (h * Q)) with (Z.pos M * (J * (h * Q))) by ring;
          rewrite E'; ring).
    rewrite E', E'' in Herr.
    assert (H1 : P * ((2 * Z.pos M - 1) * h) <= P * (2 ^ 53 * w)) by lia.
    assert (H2 : P * (2 ^ 53 * w) <= P * ((2 * Z.pos M + 1) * h)) by lia.
    apply Z.mul_le_mono_pos_l in H1; [| exact HP].
    apply Z.mul_le_mono_pos_l in H2; [| exact HP].
    destruct (Z.ltb_spec (Z.pos mt) (Z.pos M)) as [Hgt | Hle]; symmetry.
    + apply Z.ltb_lt.
      assert (H3 : (2 * Z.pos mt + 1) * h <= (2 * Z.pos M - 1) * h)
        by (apply Z.mul_le_mono_nonneg_r; lia).
      assert (H4 : den * ((2 * Z.pos mt + 1) * h) <= den * (2 ^ 53 * w))
        by (apply Z.mul_le_mono_nonneg_l; lia).
      assert (H5 : (num * 2 ^ 53 + 1) * h <= den * (2 * Z.pos mt + 1) * h)
        by (apply Z.mul_le_mono_nonneg_r; lia).
      lia.
    + apply Z.ltb_ge.
      assert (H3 : (2 * Z.pos M + 1) * h <= (2 * Z.pos mt + 1) * h)
        by (apply Z.mul_le_mono_nonneg_r; lia).
      assert (H4 : den * (2 ^ 53 * w) <= den * ((2 * Z.pos mt + 1) * h))
        by (apply Z.mul_le_mono_nonneg_l; lia).
      assert (H5 : den * (2 * Z.pos mt + 1) * h <= (num * 2 ^ 53 + 2 ^ 22) * h)
        by (apply Z.mul_le_mono_nonneg_r; lia).
      lia.
Qed.

(** The two thresholds of the classifier, on sizes below [2^31]: the
    binary64 comparisons are the comparisons of the exact quotient with 3/2
    and with 6/5. *)
Lemma truediv_thresholds (width height : Z) :
  0 <= width < 2 ^ 31 -> 0 < height < 2 ^ 31 ->
  PrimFloat.ltb 1.5 (Py.truediv width height) = (3 * height <? 2 * width) /\
  PrimFloat.ltb 1.2 (Py.truediv width height) = (6 * height <? 5 * width).
Proof.
  intros Hw Hh. unfold Py.truediv, Py.float_of_Z.
  replace (width <? 0) with false by (symmetry; apply Z.ltb_ge; lia).
  replace (height <? 0) with false by (symmetry; apply Z.ltb_ge; lia).
  rewrite !FloatAxioms.ltb_spec, FloatAxioms.div_spec, !of_uint63_spec.
  rewrite !Uint63.of_Z_spec.
  rewrite !Z.mod_small by (change wB with (2 ^ 63); lia).
  change (Prim2SF 1.5) with (S754_finite false 6755399441055744 (-52)).
  change (Prim2SF 1.2) with (S754_finite false 5404319552844595 (-52)).
  unfold SF64div.
  destruct (Z.eq_dec width 0) as [-> | Hne].
  - destruct height as [|ph|ph]; try lia.
    destruct (normalize_small ph ltac:(lia)) as (my & B & -> & _).
    split; reflexivity.
  - split; apply ltb_quotient; lia.
Qed.

(** ** The classifier *)

Lemma name_test_suggests (file_name : option string) :
  existsb (fun keyword => Py.str_in keyword (Py.lower_or_empty file_name))
    App.seq_keywords = true
  <-> Spec.name_suggests file_name.
Proof.
  rewrite any_keyword_in. split.
  - intros (k & Hk & H). destruct file_name as [name|].
    + rewrite lower_or_empty_some in H. exists name, k. auto.
    + exfalso. destruct H as (a & b & E). simpl in E.
      destruct a; simpl in E;
        [| discriminate].
      destruct k; [| discriminate].
      repeat (destruct Hk as [Hk | Hk]; [discriminate |]). exact Hk.
  - intros (name & k & -> & Hk & H). exists k.
    rewrite lower_or_empty_some. auto.
Qed.

(** C4. A file name that is present and whose lower case contains one of the
    eight keywords makes the classifier answer positive with the reason
    "Filename suggests sequence diagram", for every image: neither the width
    nor the height is looked at. *)
Theorem filename_keyword_wins (image : App.Image) (file_name : option string) :
  Spec.name_suggests file_name ->
  App.detect_sequence_diagram image file_name
  = (true, Some "Filename suggests sequence diagram").
Proof.
  intros H. apply name_test_suggests in H.
  unfold App.detect_sequence_diagram. rewrite H. reflexivity.
Qed.

Lemma filename_keyword_wins_witness :
  Spec.name_suggests (Some "Login-Sequence.png") /\
  App.detect_sequence_diagram (Script.png 100 100) (Some "Login-Sequence.png")
  = (true, Some "Filename suggests sequence diagram").
Proof.
  assert (H : Spec.name_suggests (Some "Login-Sequence.png")).
  { exists "Login-Sequence.png", "sequence". split; [reflexivity |].
    split; [simpl; auto |]. exists "login-", ".png". reflexivity. }
  split; [exact H |].
  exact (filename_keyword_wins (Script.png 100 100) (Some "Login-Sequence.png") H).
Defined.

Lemma wide_test (width height : Z) :
  PrimFloat.ltb 1.5 (App.aspect_ratio width height) && (200 <? height) = true
  <-> Spec.wide_rule width height.
Proof.
  unfold Spec.wide_rule, App.aspect_ratio, Spec.aspectRatio.
  rewrite andb_true_iff, Z.ltb_lt.
  split; intros [R H]; split; try exact H;
    replace (0 <? height) with true in * by (symmetry; apply Z.ltb_lt; lia);
    replace (height =? 0) with false in * by (symmetry; apply Z.eqb_neq; lia);
    exact R.
Qed.

Lemma technical_test (width height : Z) :
  PrimFloat.ltb 1.2 (App.aspect_ratio width height) && (150 <? height) = true
  <-> Spec.technical_rule width height.
Proof.
  unfold Spec.technical_rule, App.aspect_ratio, Spec.aspectRatio.
  rewrite andb_true_iff, Z.ltb_lt.
  split; intros [R H]; split; try exact H;
    replace (0 <? height) with true in * by (symmetry; apply Z.ltb_lt; lia);
    replace (height =? 0) with false in * by (symmetry; apply Z.eqb_neq; lia);
    exact R.
Qed.

(** Without a keyword in the file name the answer is read off the size. *)
Lemma detect_by_shape (image : App.Image) (file_name : option string) (width height : Z) :
  App.size image = (width, height) ->
  ~ Spec.name_suggests file_name ->
  App.detect_sequence_diagram image file_name
  = if PrimFloat.ltb 1.5 (App.aspect_ratio width height) && (200 <? height)
    then (true, Some "Wide format typical of sequence diagrams")
    else if PrimFloat.ltb 1.2 (App.aspect_ratio width height) && (150 <? height)
    then (true, Some "Format suggests technical diagram")
    else (false, None).
Proof.
  intros Hsize Hname. unfold App.detect_sequence_diagram.
  destruct (existsb _ App.seq_keywords) eqn:E.
  - exfalso. apply Hname, name_test_suggests, E.
  - rewrite Hsize. reflexivity.
Qed.

Lemma aspect_ratio_as_specified (width height : Z) :
  0 <= height -> App.aspect_ratio width height = Spec.aspectRatio width height.
Proof.
  intros H. unfold App.aspect_ratio, Spec.aspectRatio.
  destruct (Z.eqb_spec height 0) as [-> | N]; [reflexivity |].
  replace (0 <? height) with true by (symmetry; apply Z.ltb_lt; lia).
  reflexivity.
Qed.

(** *** On the sizes of a decoded image *)

Lemma wide_rule_exact (width height : Z) :
  0 <= width < 2 ^ 31 -> 0 <= height < 2 ^ 31 ->
  Spec.wide_rule width height <-> 3 * height < 2 * width /\ 200 < height.
Proof.
  intros Hw Hh. unfold Spec.wide_rule, Spec.aspectRatio.
  destruct (Z.eqb_spec height 0) as [-> | Hne]; [lia |].
  destruct (truediv_thresholds width height Hw ltac:(lia)) as [-> _].
  rewrite Z.ltb_lt. reflexivity.
Qed.

Lemma technical_rule_exact (width height : Z) :
  0 <= width < 2 ^ 31 -> 0 <= height < 2 ^ 31 ->
  Spec.technical_rule width height <-> 6 * height < 5 * width /\ 150 < height.
Proof.
  intros Hw Hh. unfold Spec.technical_rule, Spec.aspectRatio.
  destruct (Z.eqb_spec height 0) as [-> | Hne]; [lia |].
  destruct (truediv_thresholds width height Hw ltac:(lia)) as [_ ->].
  rewrite Z.ltb_lt. reflexivity.
Qed.

(** For an image whose width and height are below [2^31], as those of every
    decoded image are, and without a keyword in the file name, the answer of
    the classifier is decided by integer comparisons: the ratio is above 1.5
    when [2 * width > 3 * height] and above 1.2 when
    [5 * width > 6 * height]. *)
Lemma detect_on_sizes (image : App.Image) (file_name : option string) (width height : Z) :
  App.size image = (width, height) ->
  0 <= width < 2 ^ 31 -> 0 <= height < 2 ^ 31 ->
  ~ Spec.name_suggests file_name ->
  App.detect_sequence_diagram image file_name
  = if (3 * height <? 2 * width) && (200 <? height)
    then (true, Some "Wide format typical of sequence diagrams")
    else if (6 * height <? 5 * width) && (150 <? height)
    then (true, Some "Format suggests technical diagram")
    else (false, None).
Proof.
  intros Hsize Hw Hh Hname.
  rewrite (detect_by_shape image file_name width height Hsize Hname).
  pose proof (wide_test width height) as W.
  pose proof (technical_test width height) as T.
  rewrite (wide_rule_exact width height Hw Hh) in W.
  rewrite (technical_rule_exact width height Hw Hh) in T.
  destruct (PrimFloat.ltb 1.5 _ && (200 <? height));
    destruct (PrimFloat.ltb 1.2 _ && (150 <? height));
    destruct (Z.ltb_spec (3 * height) (2 * width));
    destruct (Z.ltb_spec 200 height);
    destruct (Z.ltb_spec (6 * height) (5 * width));
    destruct (Z.ltb_spec 150 height);
    simpl; try reflexivity; exfalso;
    try (assert (true = true) as X by reflexivity; apply W in X; lia);
    try (assert (true = true) as X by reflexivity; apply T in X; lia);
    try (assert (false = true) as X by (apply W; lia); discriminate X);
    try (assert (false = true) as X by (apply T; lia); discriminate X).
Qed.

Example widths_at_height_201 :
  map (fun width => App.detect_sequence_diagram (Script.png width 201) None)
    [241; 242; 301; 302]
  = [(false, None);
     (true, Some "Format suggests technical diagram");
     (true, Some "Format suggests technical diagram");
     (true, Some "Wide format typical of sequence diagrams")].
Proof. reflexivity. Qed.

(** C5. With no keyword in the file name, the classifier computes the aspect
    ratio [width / height] (1 when the height is 0) and answers positive with
    "Wide format typical of sequence diagrams" exactly when the ratio is
    above 1.5 and the height above 200; failing that, positive with "Format
    suggests technical diagram" exactly when the ratio is above 1.2 and the
    height above 150; and negative otherwise.  Both height tests are strict:
    a height of 200 never gives the first answer, a height of 201 with a
    ratio above 1.5 does.  The ratio is a binary64 number; on sizes below
    [2^31] it is above 1.5 exactly when [2 * width > 3 * height] and above
    1.2 exactly when [5 * width > 6 * height]. *)
Theorem shape_rules (image : App.Image) (file_name : option string) (width height : Z) :
  App.size image = (width, height) ->
  ~ Spec.name_suggests file_name ->
  (0 <= height -> App.aspect_ratio width height = Spec.aspectRatio width height) /\
  (App.detect_sequence_diagram image file_name
     = (true, Some "Wide format typical of sequence diagrams")
   <-> Spec.wide_rule width height) /\
  (App.detect_sequence_diagram image file_name
     = (true, Some "Format suggests technical diagram")
   <-> ~ Spec.wide_rule width height /\ Spec.technical_rule width height) /\
  (App.detect_sequence_diagram image file_name = (false, None)
   <-> ~ Spec.wide_rule width height /\ ~ Spec.technical_rule width height) /\
  (height = 200 ->
   App.detect_sequence_diagram image file_name
     <> (true, Some "Wide format typical of sequence diagrams")) /\
  (height = 201 ->
   PrimFloat.ltb 1.5 (Spec.aspectRatio width height) = true ->
   App.detect_sequence_diagram image file_name
     = (true, Some "Wide format typical of sequence diagrams")) /\
  (0 <= width < 2 ^ 31 -> 0 <= height < 2 ^ 31 ->
   (Spec.wide_rule width height <-> 3 * height < 2 * width /\ 200 < height) /\
   (Spec.technical_rule width height <-> 6 * height < 5 * width /\ 150 < height)).
Proof.
  intros Hsize Hname.
  assert (Hexact : 0 <= width < 2 ^ 31 -> 0 <= height < 2 ^ 31 ->
                   (Spec.wide_rule width height
                    <-> 3 * height < 2 * width /\ 200 < height) /\
                   (Spec.technical_rule width height
                    <-> 6 * height < 5 * width /\ 150 < height)).
  { intros Hw Hh. split;
      [apply wide_rule_exact | apply technical_rule_exact]; assumption. }
  rewrite (detect_by_shape image file_name width height Hsize Hname).
  split; [apply aspect_ratio_as_specified |].
  match goal with
  | |- ?A /\ ?B /\ ?C /\ ?D /\ ?E /\ _ =>
      assert (Hmain : A /\ B /\ C /\ D /\ E);
      [| destruct Hmain as (? & ? & ? & ? & ?);
         repeat (split; [assumption |]); exact Hexact]
  end.
  clear Hexact. rewrite <- wide_test, <- technical_test.
  assert (H200 : height = 200 -> (200 <? height) = false)
    by (intros ->; reflexivity).
  assert (H201 : height = 201 ->
                 PrimFloat.ltb 1.5 (Spec.aspectRatio width height) = true ->
                 PrimFloat.ltb 1.5 (App.aspect_ratio width height) && (200 <? height) = true).
  { intros -> R. rewrite aspect_ratio_as_specified by lia. rewrite R. reflexivity. }
  destruct (PrimFloat.ltb 1.5 (App.aspect_ratio width height) && (200 <? height)) eqn:W;
    destruct (PrimFloat.ltb 1.2 (App.aspect_ratio width height) && (150 <? height)) eqn:T;
    repeat split; try congruence; try tauto;
    try (intros; rewrite andb_true_iff in W; destruct W as [_ W];
         rewrite H200 in W by assumption; discriminate);
    try (intros E R; specialize (H201 E R); discriminate);
    try (intros [? ?]; congruence).
Qed.

Lemma shape_rules_witness :
  ~ Spec.name_suggests None /\
  App.detect_sequence_diagram (Script.png 304 201) None
  = (true, Some "Wide format typical of sequence diagrams").
Proof.
  assert (Hname : ~ Spec.name_suggests None).
  { intros (name & keyword & E & _). discriminate E. }
  split; [exact Hname |].
  apply (shape_rules (Script.png 304 201) None 304 201 eq_refl Hname).
  - reflexivity.
  - reflexivity.
Defined.

Example wide_needs_height_above_200 :
  App.detect_sequence_diagram (Script.png 400 200) None
  = (true, Some "Format suggests technical diagram").
Proof. reflexivity. Qed.

Example wide_at_height_201 :
  App.detect_sequence_diagram (Script.png 302 201) None
  = (true, Some "Wide format typical of sequence diagrams").
Proof. reflexivity. Qed.

Example ratio_of_exactly_one_and_a_half :
  App.detect_sequence_diagram (Script.png 450 300) None
  = (true, Some "Format suggests technical diagram").
Proof. reflexivity. Qed.

Example ratio_of_exactly_six_fifths :
  App.detect_sequence_diagram (Script.png 240 200) None = (false, None).
Proof. reflexivity. Qed.

Example keyword_beats_square_image :
  App.detect_sequence_diagram (Script.png 100 100) (Some "sequence.png")
  = (true, Some "Filename suggests sequence diagram").
Proof. reflexivity. Qed.

Lemma no_name_suggests_nothing : ~ Spec.name_suggests None.
Proof. intros (name & keyword & E & _). discriminate E. Qed.

(** C8, as the program has it.  When no rule applies the classifier answers
    negative and gives no reason at all: the second component is [None], not
    a string. *)
Theorem unmatched_is_negative_without_reason (image : App.Image) (file_name : option string) :
  Spec.no_rule_matches image file_name ->
  App.detect_sequence_diagram image file_name = (false, None).
Proof.
  intros (Hname & Hwide & Htech).
  destruct (App.size image) as [width height] eqn:Hsize.
  rewrite (detect_by_shape image file_name width height Hsize Hname).
  simpl in Hwide, Htech.
  rewrite <- wide_test in Hwide. rewrite <- technical_test in Htech.
  destruct (PrimFloat.ltb 1.5 _ && _); [tauto |].
  destruct (PrimFloat.ltb 1.2 _ && _); [tauto | reflexivity].
Qed.

Lemma small_square_matches_no_rule : Spec.no_rule_matches (Script.png 100 100) None.
Proof.
  split; [exact no_name_suggests_nothing |].
  split; intros [_ H]; simpl in H; lia.
Qed.

Lemma unmatched_is_negative_without_reason_witness :
  Spec.no_rule_matches (Script.png 100 100) None /\
  App.detect_sequence_diagram (Script.png 100 100) None = (false, None).
Proof.
  split; [exact small_square_matches_no_rule |].
  exact (unmatched_is_negative_without_reason (Script.png 100 100) None
           small_square_matches_no_rule).
Defined.

(** C8 as stated fails: a 100 x 100 image without a file name matches no
    rule, and the reason returned is not the empty string. *)
Lemma unmatched_reason_is_not_the_empty_string :
  ~ (forall image file_name,
       Spec.no_rule_matches image file_name ->
       App.detect_sequence_diagram image file_name = (false, Some "")).
Proof.
  intros H. specialize (H (Script.png 100 100) None small_square_matches_no_rule).
  discriminate H.
Qed.

(** ** The prompt override *)

Lemma prompt_test_suggests (prompt : string) :
  App.prompt_suggests_seq prompt = true <-> Spec.prompt_suggests prompt.
Proof.
  unfold App.prompt_suggests_seq, Spec.prompt_suggests.
  rewrite any_keyword_in.
  destruct prompt; reflexivity.
Qed.

(** C6. The override only ever raises the answer.  A negative answer becomes
    positive, with the reason "User prompt suggests sequence diagram", when
    the lowercased prompt contains one of the eight keywords; a positive
    answer is kept together with its reason whatever the prompt says. *)
Theorem override_is_monotone (detected : bool * option string) (prompt : string) :
  (fst detected = false -> Spec.prompt_suggests prompt ->
   App.override_detection detected prompt
   = (true, Some "User prompt suggests sequence diagram")) /\
  (fst detected = true -> App.override_detection detected prompt = detected).
Proof.
  destruct detected as [is_sequence_diagram reason]. simpl.
  unfold App.override_detection.
  split.
  - intros -> H. apply prompt_test_suggests in H. rewrite H. reflexivity.
  - intros ->. rewrite andb_false_r. reflexivity.
Qed.

Lemma override_is_monotone_witness :
  Spec.prompt_suggests "Explain this Diagram" /\
  App.override_detection (false, None) "Explain this Diagram"
  = (true, Some "User prompt suggests sequence diagram") /\
  App.override_detection (true, Some "Format suggests technical diagram") "What is this?"
  = (true, Some "Format suggests technical diagram").
Proof.
  assert (H : Spec.prompt_suggests "Explain this Diagram").
  { exists "diagram". split; [simpl; tauto |]. exists "explain this ", "". reflexivity. }
  split; [exact H |]. split.
  - exact (proj1 (override_is_monotone (false, None) "Explain this Diagram") eq_refl H).
  - exact (proj2 (override_is_monotone (true, Some "Format suggests technical diagram")
                    "What is this?") eq_refl).
Defined.

(** ** The generic report *)

Lemma contains_skip (sub before s : string) :
  Spec.contains sub s -> Spec.contains sub (before +:+ s).
Proof.
  intros (a & b & ->). exists (before +:+ a), b. now rewrite append_assoc.
Qed.

Lemma contains_line (label value : string) (c : ascii) (next rest : string) :
  Spec.contains (label +:+ value +:+ String c "")
    (label +:+ value +:+ String c next +:+ rest).
Proof.
  exists "", (next +:+ rest).
  change ("" +:+ (label +:+ value +:+ String c "") +:+ next +:+ rest)
    with ((label +:+ value +:+ String c "") +:+ next +:+ rest).
  now rewrite !append_assoc.
Qed.

(** The report prints the size category on a line of its own. *)
Lemma report_shows_size_category (image : App.Image) (file_name : option string)
  (width height : Z) :
  App.size image = (width, height) ->
  Spec.contains
    (Spec.report_line "Size Category" (App.size_category (width * height)))
    (App.basic_analysis image file_name).
Proof.
  intros Hsize. unfold App.basic_analysis, App.report_head.
  rewrite Hsize. cbv beta iota. rewrite !append_assoc.
  do 10 apply contains_skip.
  exact (contains_line _ (App.size_category (width * height)) _
           "- **File Format**: " _).
Qed.

(** The report prints the file type on a line of its own. *)
Lemma report_shows_likely_type (image : App.Image) (file_name : option string) :
  Spec.contains
    (Spec.report_line "File Type" (App.likely_type file_name))
    (App.basic_analysis image file_name).
Proof.
  unfold App.basic_analysis, App.report_head.
  destruct (App.size image) as [width height].
  rewrite !append_assoc.
  do 16 apply contains_skip.
  apply contains_skip with (before := "

### 🎨 **Image Characteristics**").
  exact (contains_line "
- **File Type**: " (App.likely_type file_name) _ "- **Compression**: " _).
Qed.

(** C7. The size category of the generic report is read off the number of
    pixels [width * height], each bound being strict: Small below 307200,
    Medium from 307200 and below 2073600, Large from 2073600 and below
    4194304, Very Large from there on.  So 1920 x 1080 is Large and
    1919 x 1079 is Medium.  The report prints that category. *)
Theorem size_category_thresholds (width height : Z) :
  let pixels := width * height in
  (App.size_category pixels = "Small" <-> pixels < 307200) /\
  (App.size_category pixels = "Medium" <-> 307200 <= pixels < 2073600) /\
  (App.size_category pixels = "Large" <-> 2073600 <= pixels < 4194304) /\
  (App.size_category pixels = "Very Large" <-> 4194304 <= pixels) /\
  App.size_category (1920 * 1080) = "Large" /\
  App.size_category (1919 * 1079) = "Medium" /\
  forall image file_name,
    App.size image = (width, height) ->
    Spec.contains (Spec.report_line "Size Category" (App.size_category pixels))
      (App.basic_analysis image file_name).
Proof.
  intros pixels.
  assert (H : forall p,
             (App.size_category p = "Small" <-> p < 307200) /\
             (App.size_category p = "Medium" <-> 307200 <= p < 2073600) /\
             (App.size_category p = "Large" <-> 2073600 <= p < 4194304) /\
             (App.size_category p = "Very Large" <-> 4194304 <= p)).
  { intros p. unfold App.size_category.
    destruct (Z.ltb_spec p (640 * 480));
      [| destruct (Z.ltb_spec p (1920 * 1080));
         [| destruct (Z.ltb_spec p (4 * 1024 * 1024))]];
      repeat split; intros; try lia; try discriminate. }
  destruct (H pixels) as (S & M & L & V).
  split; [exact S |]. split; [exact M |]. split; [exact L |]. split; [exact V |].
  split; [reflexivity |]. split; [reflexivity |].
  intros image file_name Hsize.
  exact (report_shows_size_category image file_name width height Hsize).
Qed.

Example full_hd_is_large :
  Spec.contains (Spec.report_line "Size Category" "Large")
    (App.basic_analysis (Script.png 1920 1080) (Some "screen.png")).
Proof. apply str_in_contains. vm_compute. reflexivity. Qed.

Example just_below_full_hd_is_medium :
  Spec.contains (Spec.report_line "Size Category" "Medium")
    (App.basic_analysis (Script.png 1919 1079) (Some "screen.png")).
Proof. apply str_in_contains. vm_compute. reflexivity. Qed.

Lemma size_category_thresholds_witness :
  App.size (Script.png 1920 1080) = (1920, 1080) /\
  Spec.contains (Spec.report_line "Size Category" "Large")
    (App.basic_analysis (Script.png 1920 1080) (Some "screen.png")).
Proof.
  split; [reflexivity |].
  exact (proj2 (proj2 (proj2 (proj2 (proj2 (proj2
           (size_category_thresholds 1920 1080))))))
           (Script.png 1920 1080) (Some "screen.png") eq_refl).
Defined.

Lemma likely_type_of_other_names (file_name : option string) :
  ~ In (Py.lower_or_empty file_name) Spec.extension_strings ->
  App.likely_type file_name = "Image File".
Proof.
  intros H. unfold App.likely_type.
  repeat match goal with
  | |- context [Py.list_in ?x ?xs] =>
      let E := fresh "E" in
      destruct (Py.list_in x xs) eqn:E;
      [ exfalso; apply H; apply list_in_In in E; simpl in E |- *; tauto | ]
  end.
  reflexivity.
Qed.

Lemma likely_type_of_listed_names (file_name : option string) :
  In (Py.lower_or_empty file_name) Spec.extension_strings ->
  App.likely_type file_name <> "Image File".
Proof.
  intros H. unfold App.likely_type.
  set (name := Py.lower_or_empty file_name) in *.
  simpl in H.
  repeat (destruct H as [<- | H]; [discriminate |]).
  destruct H.
Qed.

(** C10. The file type of the generic report is found by looking up the
    whole lowercased file name, not its extension, in the lists of
    extension strings.  The type is "Photograph or Digital Image" only when
    the whole lowercased name is one of the five strings of the first list,
    and it is "Image File" exactly when the whole lowercased name is none of
    the listed strings, as for "photo.jpg"; the report then prints "Image
    File" on its line "File Type". *)
Theorem whole_name_is_compared (file_name : option string) :
  (App.likely_type file_name = "Photograph or Digital Image"
   <-> In (Py.lower_or_empty file_name) [".jpg"; ".jpeg"; ".png"; ".gif"; ".bmp"]) /\
  (App.likely_type file_name = "Image File"
   <-> ~ In (Py.lower_or_empty file_name) Spec.extension_strings) /\
  (~ In (Py.lower_or_empty file_name) Spec.extension_strings ->
   forall image,
     Spec.contains (Spec.report_line "File Type" "Image File")
       (App.basic_analysis image file_name)) /\
  App.likely_type (Some "photo.jpg") = "Image File".
Proof.
  split; [| split; [| split; [| reflexivity]]].
  - rewrite <- list_in_In. unfold App.likely_type.
    destruct (Py.list_in _ [".jpg"; ".jpeg"; ".png"; ".gif"; ".bmp"]).
    + tauto.
    + split; [| discriminate].
      repeat match goal with
      | |- context [if ?b then _ else _] => destruct b
      end; discriminate.
  - split.
    + intros E H. exact (likely_type_of_listed_names file_name H E).
    + apply likely_type_of_other_names.
  - intros H image.
    rewrite <- (likely_type_of_other_names file_name H).
    apply report_shows_likely_type.
Qed.

Lemma whole_name_is_compared_witness :
  ~ In (Py.lower_or_empty (Some "Holiday.JPG")) Spec.extension_strings /\
  Spec.contains (Spec.report_line "File Type" "Image File")
    (App.basic_analysis (Script.jpeg 4000 3000 (Some 8)) (Some "Holiday.JPG")).
Proof.
  assert (H : ~ In (Py.lower_or_empty (Some "Holiday.JPG")) Spec.extension_strings).
  { simpl. intros H. repeat (destruct H as [H | H]; [discriminate H |]). exact H. }
  split; [exact H |].
  exact (proj1 (proj2 (proj2 (whole_name_is_compared (Some "Holiday.JPG")))) H
           (Script.jpeg 4000 3000 (Some 8))).
Defined.

Example bare_extension_is_a_photograph :
  App.likely_type (Some ".JPG") = "Photograph or Digital Image".
Proof. reflexivity. Qed.

(** ** The loop over the candidate models *)

Lemma lower_append (a b : string) : Py.lower (a +:+ b) = Py.lower a +:+ Py.lower b.
Proof.
  induction a as [|c a IH]; [reflexivity |].
  rewrite append_cons. simpl. now rewrite IH.
Qed.

Lemma contains_append_l (sub a b : string) :
  Spec.contains sub a -> Spec.contains sub (a +:+ b).
Proof.
  intros (x & y & ->). exists x, (y +:+ b). now rewrite !append_assoc.
Qed.

Lemma models_called_app (events1 events2 : list App.event) :
  Spec.models_called (events1 ++ events2)
  = Spec.models_called events1 ++ Spec.models_called events2.
Proof.
  induction events1 as [|[m p d r| | |] events1 IH]; simpl; now rewrite ?IH.
Qed.

Lemma models_called_notices (events : list App.event) :
  Forall Spec.is_notice events -> Spec.models_called events = [].
Proof.
  induction 1 as [|e events He _ IH]; [reflexivity |].
  destruct e; simpl in *; [contradiction | exact IH ..].
Qed.

Lemma answer_among_refusals (events : list App.event) (m p : string)
  (d : App.payload) (text : string) :
  Forall Spec.is_refusal events ->
  ~ In (App.GenerateContent m p d (App.Done text)) events.
Proof.
  intros H Hin. rewrite List.Forall_forall in H.
  destruct (H _ Hin) as (? & ? & ? & ? & E). discriminate E.
Qed.

Lemma split_unique (b b' a a' : list string) (m : string) :
  List.NoDup (b ++ m :: a) -> b ++ m :: a = b' ++ m :: a' -> b = b' /\ a = a'.
Proof.
  revert b'. induction b as [|x b IH]; intros [|y b'] N E; simpl in *.
  - injection E as ->. auto.
  - injection E as -> ->. inversion N as [|? ? Hnot _]; subst.
    exfalso. apply Hnot. apply in_or_app. right. left. reflexivity.
  - injection E as -> <-. inversion N as [|? ? Hnot _]; subst.
    exfalso. apply Hnot. apply in_or_app. right. left. reflexivity.
  - injection E as -> E. inversion N as [|? ? _ N']; subst.
    destruct (IH b' N' E) as [-> ->]. auto.
Qed.

Lemma later_not_earlier (b a : list string) (m x : string) :
  List.NoDup (b ++ m :: a) -> In x a -> ~ In x (b ++ [m]).
Proof.
  induction b as [|y b IH]; simpl; intros N Ha Hb; inversion N as [|? ? Hnot N']; subst.
  - destruct Hb as [<- | []]. exact (Hnot Ha).
  - destruct Hb as [<- | Hb].
    + apply Hnot, in_or_app. right. right. exact Ha.
    + exact (IH N' Ha Hb).
Qed.

Lemma quota_message_mentions_quota (error : string) :
  App.api_error_mentions (Some (App.quota_message error)) "quota" "limit" = true.
Proof.
  unfold App.api_error_mentions, App.quota_message.
  apply andb_true_iff. split; [reflexivity |].
  apply orb_true_iff. left. rewrite lower_append.
  apply str_in_contains, contains_append_l, str_in_contains.
  vm_compute. reflexivity.
Qed.

(** ** The second [except] block *)

(** A quota error on the second request is terminal, like on the first. *)
Lemma second_handler_quota (model_name second_error : string) :
  Spec.contains "quota" (Py.lower second_error)
  \/ Spec.contains "limit" (Py.lower second_error) ->
  App.second_handler model_name second_error
  = App.Terminal (App.quota_message second_error).
Proof.
  intros H. unfold App.second_handler.
  destruct H as [H | H]; apply str_in_contains in H; rewrite H;
    rewrite ?orb_true_r; reflexivity.
Qed.

(** Nothing else is: whatever the message, without "quota" and "limit" the
    second block sends the loop on to the next model. *)
Lemma second_handler_passes (model_name second_error : string) :
  ~ Spec.contains "quota" (Py.lower second_error) ->
  ~ Spec.contains "limit" (Py.lower second_error) ->
  exists api_error,
    App.second_handler model_name second_error = App.Passing api_error.
Proof.
  intros Hq Hl. unfold App.second_handler.
  apply str_in_false in Hq, Hl. rewrite Hq, Hl. simpl.
  destruct (_ || _); eexists; reflexivity.
Qed.

Section Loop.

Variable World : Type.
Variable generate_content :
  string -> string -> App.payload -> World -> App.tried string * World.
Variable save_png : App.Image -> App.tried string.
Variable enhance : App.Image -> App.tried unit.

Variable image : App.Image.
Variable prompt : string.
Variable is_sequence_diagram : bool.

Local Abbreviation sent :=
  (if is_sequence_diagram then App.specialized_prompt else prompt).
Local Abbreviation try_model :=
  (App.try_model World generate_content save_png image prompt is_sequence_diagram).
Local Abbreviation try_models :=
  (App.try_models World generate_content save_png image prompt is_sequence_diagram).

(** Unfolding the loop by one candidate. *)
Lemma try_models_cons (model_name : string) (rest : list string)
  (api_error : option string) (w : World) :
  try_models (model_name :: rest) api_error w
  = let '(how, w1, events1) := try_model model_name w in
    match how with
    | App.Return text => (App.Returned text, w1, events1 ++ [])
    | App.Break e => (App.Broken (Some e), w1, events1 ++ [])
    | App.Continue e =>
        let '(exit, w2, events2) := try_models rest (Some e) w1 in
        (exit, w2, events1 ++ events2)
    end.
Proof.
  simpl. unfold App.bind.
  destruct (try_model model_name w) as [[how w1] events1].
  destruct how; reflexivity.
Qed.

(** The loop over [before ++ after] is the loop over [before] and, if that
    one came to the end of its list, the loop over [after]. *)
Lemma try_models_app (before after : list string) (api_error : option string) (w : World) :
  try_models (before ++ after) api_error w
  = let '(how, w1, events1) := try_models before api_error w in
    match how with
    | App.Exhausted api_error1 =>
        let '(exit, w2, events2) := try_models after api_error1 w1 in
        (exit, w2, events1 ++ events2)
    | _ => (how, w1, events1)
    end.
Proof.
  revert api_error w. induction before as [|m before IH]; intros api_error w.
  - simpl. unfold App.ret.
    destruct (try_models after api_error w) as [[exit w2] events2]. reflexivity.
  - change ((m :: before) ++ after) with (m :: (before ++ after)).
    rewrite !try_models_cons.
    destruct (try_model m w) as [[how w1] events1].
    destruct how as [text | e | e]; rewrite ?List.app_nil_r; try reflexivity.
    rewrite IH.
    destruct (try_models before (Some e) w1) as [[how1 w2] events2].
    destruct how1; try reflexivity.
    destruct (try_models after api_error0 w2) as [[exit w3] events3].
    now rewrite List.app_assoc.
Qed.

(** One iteration sends requests to its own model only; every request but
    the one that gives the text ends in an exception. *)
Lemma try_model_shape (model_name : string) (w w' : World) (how : App.step)
  (events : list App.event) :
  try_model model_name w = (how, w', events) ->
  incl (Spec.models_called events) [model_name] /\
  match how with
  | App.Return text =>
      exists earlier data,
        events = earlier ++ [App.GenerateContent model_name sent data (App.Done text)] /\
        Forall Spec.is_refusal earlier
  | _ => Forall Spec.is_refusal events
  end.
Proof.
  unfold App.try_model, App.bind, App.generate, App.ret.
  destruct (generate_content model_name sent (App.PILImage image) w)
    as [[text | first_error] w1].
  - intros [= <- <- <-]. split; [intros x [<- | []]; left; reflexivity |].
    exists [], (App.PILImage image). split; [reflexivity | constructor].
  - assert (R1 : Spec.is_refusal
                   (App.GenerateContent model_name sent (App.PILImage image)
                      (App.Raised first_error))) by (repeat eexists).
    destruct (App.first_handler model_name first_error) as [api_error | api_error].
    + intros [= <- <- <-]. split; [intros x [<- | []]; left; reflexivity |].
      repeat constructor. exact R1.
    + destruct (save_png image) as [img_bytes | message].
      * destruct (generate_content model_name sent (App.PNGBytes img_bytes) w1)
          as [[text | second_error] w2].
        -- intros [= <- <- <-].
           split; [intros x [<- | [<- | []]]; left; reflexivity |].
           exists [App.GenerateContent model_name sent (App.PILImage image)
                     (App.Raised first_error)], (App.PNGBytes img_bytes).
           split; [reflexivity | repeat constructor; exact R1].
        -- destruct (App.second_handler model_name second_error);
             intros [= <- <- <-];
             (split; [intros x [<- | [<- | []]]; left; reflexivity |]);
             repeat constructor; try exact R1; repeat eexists.
      * destruct (App.second_handler model_name message);
          intros [= <- <- <-];
          (split; [intros x [<- | []]; left; reflexivity |]);
          repeat constructor; exact R1.
Qed.

(** The events of a whole run of the loop.  A run that returns does so on
    the only request that was answered, which is the last event; a run that
    does not return saw every request end in an exception. *)
Lemma try_models_shape (models : list string) (api_error : option string)
  (w w' : World) (how : App.loop_exit) (events : list App.event) :
  try_models models api_error w = (how, w', events) ->
  match how with
  | App.Returned text =>
      exists before model_name after earlier data,
        models = before ++ model_name :: after /\
        events = earlier ++ [App.GenerateContent model_name sent data (App.Done text)] /\
        Forall Spec.is_refusal earlier /\
        incl (Spec.models_called events) (before ++ [model_name])
  | _ => Forall Spec.is_refusal events
  end.
Proof.
  revert api_error w w' how events.
  induction models as [|m models IH]; intros api_error w w' how events.
  - intros [= <- <- <-]. constructor.
  - rewrite try_models_cons.
    destruct (try_model m w) as [[step w1] events1] eqn:Hm.
    apply try_model_shape in Hm as [Hcalled Hstep].
    destruct step as [text | e | e].
    + intros [= <- <- <-]. rewrite List.app_nil_r.
      destruct Hstep as (earlier & data & -> & Hearlier).
      exists [], m, models, earlier, data. repeat split; assumption.
    + intros [= <- <- <-]. rewrite List.app_nil_r. exact Hstep.
    + destruct (try_models models (Some e) w1) as [[exit w2] events2] eqn:Hrest.
      intros [= <- <- <-]. specialize (IH _ _ _ _ _ Hrest).
      destruct exit as [text | a | a].
      * destruct IH as (before & model_name & after & earlier & data
                        & -> & -> & Hearlier & Hincl).
        exists (m :: before), model_name, after, (events1 ++ earlier), data.
        split; [reflexivity |]. split; [now rewrite List.app_assoc |].
        split; [apply Forall_app; split; assumption |].
        rewrite models_called_app. intros x Hx.
        apply in_app_or in Hx as [Hx | Hx].
        -- apply Hcalled in Hx as [<- | []]. left. reflexivity.
        -- right. apply Hincl, Hx.
      * apply Forall_app; split; assumption.
      * apply Forall_app; split; assumption.
Qed.

(** On a list without repetitions, an answered request ends the run: the
    loop returns its text, the request is the last event, and no model
    listed after the one that answered was sent anything. *)
Lemma answer_ends_loop (models : list string) (api_error : option string)
  (w w' : World) (how : App.loop_exit) (events : list App.event)
  (model_name request : string) (data : App.payload) (text : string) :
  List.NoDup models ->
  try_models models api_error w = (how, w', events) ->
  In (App.GenerateContent model_name request data (App.Done text)) events ->
  how = App.Returned text /\
  (exists earlier,
     events = earlier ++ [App.GenerateContent model_name request data (App.Done text)] /\
     Forall Spec.is_refusal earlier) /\
  forall before after later,
    models = before ++ model_name :: after ->
    In later after -> ~ In later (Spec.models_called events).
Proof.
  intros Hnodup Hrun Hin. apply try_models_shape in Hrun.
  destruct how as [text' | a | a];
    try (exfalso; exact (answer_among_refusals _ _ _ _ _ Hrun Hin)).
  destruct Hrun as (before' & m' & after' & earlier & data' & Hmodels & -> & Hearlier & Hincl).
  apply in_app_or in Hin as [Hin | [Hin | []]];
    [exfalso; exact (answer_among_refusals _ _ _ _ _ Hearlier Hin) |].
  injection Hin as -> <- -> ->.
  split; [reflexivity |].
  split; [exists earlier; split; [reflexivity | exact Hearlier] |].
  intros before after later Hsplit Hlater Hcalled.
  rewrite Hsplit in Hmodels, Hnodup.
  destruct (split_unique _ _ _ _ _ Hnodup Hmodels) as [<- <-].
  exact (later_not_earlier _ _ _ _ Hnodup Hlater (Hincl _ Hcalled)).
Qed.

(** Every iteration starts with a request that carries the image object. *)
Lemma try_model_first_event (model_name : string) (w : World) :
  exists how w' result rest,
    try_model model_name w
    = (how, w', App.GenerateContent model_name sent (App.PILImage image) result :: rest).
Proof.
  unfold App.try_model, App.bind, App.generate, App.ret.
  destruct (generate_content model_name sent (App.PILImage image) w) as [first w1].
  destruct first as [text | first_error]; [repeat eexists |].
  destruct (App.first_handler model_name first_error); [repeat eexists |].
  destruct (save_png image) as [img_bytes | message].
  - destruct (generate_content model_name sent (App.PNGBytes img_bytes) w1)
      as [[text | second_error] w2]; [repeat eexists |].
    destruct (App.second_handler model_name second_error); repeat eexists.
  - destruct (App.second_handler model_name message); repeat eexists.
Qed.

Lemma try_models_first_event (model_name : string) (rest : list string)
  (api_error : option string) (w : World) :
  exists exit w' result events,
    try_models (model_name :: rest) api_error w
    = (exit, w',
       App.GenerateContent model_name sent (App.PILImage image) result :: events).
Proof.
  rewrite try_models_cons.
  destruct (try_model_first_event model_name w) as (how & w1 & result & events1 & ->).
  destruct how as [text | e | e]; try (repeat eexists; fail).
  destruct (try_models rest (Some e) w1) as [[exit w2] events2].
  repeat eexists.
Qed.

(** C3 on the program.  The loop reaches a model; its first request fails
    with an error that is not terminal, the PNG bytes are produced, and the
    second request fails with a message that, lowercased, contains
    "permission" or "forbidden" (and neither "quota" nor "limit").  The
    loop is not left: the two failed requests are followed by a request to
    the next model of the list. *)
Theorem permission_on_second_attempt_goes_on (before : list string)
  (model_name next : string) (after : list string)
  (api_error api_error1 : option string) (w w1 w2 w3 : World)
  (events1 : list App.event)
  (first_error api_error2 img_bytes second_error : string) :
  try_models before api_error w = (App.Exhausted api_error1, w1, events1) ->
  generate_content model_name sent (App.PILImage image) w1
  = (App.Raised first_error, w2) ->
  App.first_handler model_name first_error = App.Passing api_error2 ->
  save_png image = App.Done img_bytes ->
  generate_content model_name sent (App.PNGBytes img_bytes) w2
  = (App.Raised second_error, w3) ->
  Spec.contains "permission" (Py.lower second_error)
  \/ Spec.contains "forbidden" (Py.lower second_error) ->
  ~ Spec.contains "quota" (Py.lower second_error) ->
  ~ Spec.contains "limit" (Py.lower second_error) ->
  exists exit w4 result events,
    try_models (before ++ model_name :: next :: after) api_error w
    = (exit, w4,
       events1
       ++ [App.GenerateContent model_name sent (App.PILImage image)
             (App.Raised first_error);
           App.GenerateContent model_name sent (App.PNGBytes img_bytes)
             (App.Raised second_error)]
       ++ App.GenerateContent next sent (App.PILImage image) result :: events).
Proof.
  intros Hbefore Hfirst Hhandler Hsave Hsecond _ Hquota Hlimit.
  rewrite try_models_app, Hbefore, try_models_cons.
  unfold App.try_model, App.bind, App.generate, App.ret.
  rewrite Hfirst, Hhandler, Hsave, Hsecond.
  destruct (second_handler_passes model_name second_error Hquota Hlimit)
    as [api_error3 ->].
  destruct (try_models_first_event next after (Some api_error3) w3)
    as (exit & w4 & result & events & ->).
  exists exit, w4, result, events. reflexivity.
Qed.

End Loop.

Lemma unavailable_notices_are_notices (is_sequence_diagram : bool)
  (reason api_error : option string) :
  Forall Spec.is_notice (App.unavailable_notices is_sequence_diagram reason api_error).
Proof.
  unfold App.unavailable_notices, App.quota_notices, App.permission_notices,
    App.providing_basic.
  destruct is_sequence_diagram;
    repeat match goal with
    | |- context [if ?b then _ else _] => destruct b
    end;
    repeat constructor.
Qed.

Section Caller.

Variable World : Type.
Variable generate_content :
  string -> string -> App.payload -> World -> App.tried string * World.
Variable save_png : App.Image -> App.tried string.
Variable enhance : App.Image -> App.tried unit.

Local Abbreviation try_models :=
  (App.try_models World generate_content save_png).
Local Abbreviation fall_back := (App.fall_back World enhance).
Local Abbreviation analyze_image :=
  (App.analyze_image World generate_content save_png enhance).

(** What follows the loop only puts notices on the page. *)
Lemma fall_back_notices (image : App.Image) (prompt : string)
  (file_name : option string) (is_sequence_diagram : bool)
  (reason api_error : option string) (w : World) :
  Forall Spec.is_notice
    (snd (fall_back image prompt file_name is_sequence_diagram reason api_error w)).
Proof.
  unfold App.fall_back, App.bind, App.emit, App.analyze_sequence_diagram, App.ret.
  pose proof (unavailable_notices_are_notices is_sequence_diagram reason api_error) as H.
  destruct is_sequence_diagram; [destruct (enhance image) |]; simpl;
    apply Forall_app; split; try exact H; repeat constructor.
Qed.

(** [analyze_image] is the detection, the loop over the six models and, if
    the loop did not return, what follows it. *)
Lemma analyze_image_run (image : App.Image) (prompt : string)
  (file_name : option string) (w : World) :
  analyze_image image prompt file_name w
  = let detected :=
      App.override_detection (App.detect_sequence_diagram image file_name) prompt in
    let '(how, w1, events1) :=
      try_models image prompt (fst detected) App.model_names_to_try None w in
    match how with
    | App.Returned text => (Some text, w1, events1 ++ [])
    | App.Broken api_error | App.Exhausted api_error =>
        let '(result, w2, events2) :=
          fall_back image prompt file_name (fst detected) (snd detected) api_error w1 in
        (result, w2, events1 ++ events2)
    end.
Proof.
  unfold App.analyze_image.
  destruct (App.override_detection _ prompt) as [is_sequence_diagram reason].
  unfold App.bind. simpl fst. simpl snd.
  destruct (try_models image prompt is_sequence_diagram App.model_names_to_try None w)
    as [[how w1] events1].
  destruct how; reflexivity.
Qed.

(** C1. Whenever a request of a run is answered with a text, [analyze_image]
    returns that text; the answered request is the last thing the run did,
    every request before it ended in an exception, and no model listed after
    the one that answered was sent a request of either kind. *)
Theorem answered_request_is_returned (image : App.Image) (prompt : string)
  (file_name : option string) (w w' : World) (result : option string)
  (events : list App.event)
  (model_name request : string) (data : App.payload) (text : string) :
  analyze_image image prompt file_name w = (result, w', events) ->
  In (App.GenerateContent model_name request data (App.Done text)) events ->
  result = Some text /\
  (exists earlier,
     events = earlier ++ [App.GenerateContent model_name request data (App.Done text)] /\
     Forall Spec.is_refusal earlier) /\
  forall before after later,
    App.model_names_to_try = before ++ model_name :: after ->
    In later after -> ~ In later (Spec.models_called events).
Proof.
  rewrite analyze_image_run. cbv zeta.
  set (is_seq := fst (App.override_detection _ prompt)).
  set (reason := snd (App.override_detection _ prompt)).
  destruct (try_models image prompt is_seq App.model_names_to_try None w)
    as [[how w1] events1] eqn:Hloop.
  assert (Hnodup : List.NoDup App.model_names_to_try).
  { unfold App.model_names_to_try.
    repeat (constructor; [simpl; intros H;
                          repeat (destruct H as [H | H]; [discriminate H |]);
                          exact H |]).
    constructor. }
  assert (Hno : forall api_error result0 w2 events2,
             fall_back image prompt file_name is_seq reason api_error w1
             = (result0, w2, events2) ->
             In (App.GenerateContent model_name request data (App.Done text))
               (events1 ++ events2) ->
             In (App.GenerateContent model_name request data (App.Done text)) events1).
  { intros api_error result0 w2 events2 Hfb Hin.
    apply in_app_or in Hin as [Hin | Hin]; [exact Hin |].
    pose proof (fall_back_notices image prompt file_name is_seq reason api_error w1) as N.
    rewrite Hfb in N. simpl in N. rewrite List.Forall_forall in N.
    destruct (N _ Hin). }
  destruct how as [text' | api_error | api_error].
  - intros [= <- <- <-] Hin. rewrite List.app_nil_r in *.
    destruct (answer_ends_loop _ _ _ _ _ _ _ _ _ _ _ _ _ _ _ _ Hnodup Hloop Hin)
      as ([= ->] & Hlast & Hlater).
    auto.
  - destruct (fall_back image prompt file_name is_seq reason api_error w1)
      as [[result0 w2] events2] eqn:Hfb.
    intros [= <- <- <-] Hin. apply (Hno _ _ _ _ Hfb) in Hin.
    destruct (answer_ends_loop _ _ _ _ _ _ _ _ _ _ _ _ _ _ _ _ Hnodup Hloop Hin)
      as (E & _). discriminate E.
  - destruct (fall_back image prompt file_name is_seq reason api_error w1)
      as [[result0 w2] events2] eqn:Hfb.
    intros [= <- <- <-] Hin. apply (Hno _ _ _ _ Hfb) in Hin.
    destruct (answer_ends_loop _ _ _ _ _ _ _ _ _ _ _ _ _ _ _ _ Hnodup Hloop Hin)
      as (E & _). discriminate E.
Qed.

(** C2. When the loop reaches a model whose first request fails with a
    message that, lowercased, contains "quota" or "limit", the loop is left
    at once: the request with the PNG bytes is not made, no later model is
    tried, [api_error] is the quota message, and the notices that follow
    start with those of an exceeded quota. *)
Theorem quota_on_first_attempt_aborts (image : App.Image) (prompt : string)
  (is_sequence_diagram : bool) (before : list string) (model_name : string)
  (after : list string) (api_error api_error1 : option string) (w w1 w2 : World)
  (events1 : list App.event) (first_error : string) :
  let sent := if is_sequence_diagram then App.specialized_prompt else prompt in
  try_models image prompt is_sequence_diagram before api_error w
  = (App.Exhausted api_error1, w1, events1) ->
  generate_content model_name sent (App.PILImage image) w1
  = (App.Raised first_error, w2) ->
  Spec.contains "quota" (Py.lower first_error)
  \/ Spec.contains "limit" (Py.lower first_error) ->
  try_models image prompt is_sequence_diagram (before ++ model_name :: after) api_error w
  = (App.Broken (Some (App.quota_message first_error)), w2,
     events1 ++ [App.GenerateContent model_name sent (App.PILImage image)
                   (App.Raised first_error)]) /\
  forall reason,
    exists more,
      App.unavailable_notices is_sequence_diagram reason
        (Some (App.quota_message first_error))
      = App.quota_notices ++ more.
Proof.
  intros sent Hbefore Hfirst Hquota. split.
  - rewrite try_models_app, Hbefore, try_models_cons.
    unfold App.try_model, App.bind, App.generate, App.ret. fold sent.
    rewrite Hfirst.
    assert (Hh : App.first_handler model_name first_error
                 = App.Terminal (App.quota_message first_error)).
    { unfold App.first_handler.
      destruct Hquota as [H | H]; apply str_in_contains in H; rewrite H;
        rewrite ?orb_true_r; reflexivity. }
    rewrite Hh. reflexivity.
  - intros reason. unfold App.unavailable_notices.
    rewrite quota_message_mentions_quota.
    destruct is_sequence_diagram; eexists; reflexivity.
Qed.

End Caller.

(** ** Runs against a scripted service *)

Lemma answered_request_is_returned_witness :
  Script.analyze_image (Script.png 100 100) "Describe this image" (Some "cat.png")
    Script.missing_twice_then_answer
  = (Some "A cat on a sofa", [],
     [App.GenerateContent "models/gemini-2.5-flash" "Describe this image"
        (App.PILImage (Script.png 100 100))
        (App.Raised "404 models/gemini-2.5-flash is not found");
      App.GenerateContent "models/gemini-2.5-flash" "Describe this image"
        (App.PNGBytes "PNG")
        (App.Raised "404 models/gemini-2.5-flash is not found");
      App.GenerateContent "models/gemini-2.5-pro" "Describe this image"
        (App.PILImage (Script.png 100 100))
        (App.Raised "404 models/gemini-2.5-pro is not found");
      App.GenerateContent "models/gemini-2.5-pro" "Describe this image"
        (App.PNGBytes "PNG")
        (App.Raised "404 models/gemini-2.5-pro is not found");
      App.GenerateContent "models/gemini-2.0-flash-exp" "Describe this image"
        (App.PILImage (Script.png 100 100))
        (App.Done "A cat on a sofa")]) /\
  forall later,
    In later ["models/gemini-2.0-flash"; "models/gemini-flash-latest";
              "models/gemini-pro-latest"] ->
    ~ In later
        (Spec.models_called
           (snd (Script.analyze_image (Script.png 100 100) "Describe this image"
                   (Some "cat.png") Script.missing_twice_then_answer))).
Proof.
  assert (Hrun :
    Script.analyze_image (Script.png 100 100) "Describe this image" (Some "cat.png")
      Script.missing_twice_then_answer
    = (Some "A cat on a sofa", [],
       [App.GenerateContent "models/gemini-2.5-flash" "Describe this image"
          (App.PILImage (Script.png 100 100))
          (App.Raised "404 models/gemini-2.5-flash is not found");
        App.GenerateContent "models/gemini-2.5-flash" "Describe this image"
          (App.PNGBytes "PNG")
          (App.Raised "404 models/gemini-2.5-flash is not found");
        App.GenerateContent "models/gemini-2.5-pro" "Describe this image"
          (App.PILImage (Script.png 100 100))
          (App.Raised "404 models/gemini-2.5-pro is not found");
        App.GenerateContent "models/gemini-2.5-pro" "Describe this image"
          (App.PNGBytes "PNG")
          (App.Raised "404 models/gemini-2.5-pro is not found");
        App.GenerateContent "models/gemini-2.0-flash-exp" "Describe this image"
          (App.PILImage (Script.png 100 100))
          (App.Done "A cat on a sofa")])) by reflexivity.
  split; [exact Hrun |].
  intros later Hlater. rewrite Hrun.
  refine (proj2 (proj2 (answered_request_is_returned
            Script.World Script.generate_content Script.save_png Script.enhance
            (Script.png 100 100) "Describe this image" (Some "cat.png")
            Script.missing_twice_then_answer [] (Some "A cat on a sofa") _
            "models/gemini-2.0-flash-exp" "Describe this image"
            (App.PILImage (Script.png 100 100)) "A cat on a sofa" Hrun _))
          ["models/gemini-2.5-flash"; "models/gemini-2.5-pro"]
          ["models/gemini-2.0-flash"; "models/gemini-flash-latest";
           "models/gemini-pro-latest"]
          later eq_refl Hlater).
  simpl. tauto.
Defined.

Lemma quota_on_first_attempt_aborts_witness :
  Script.try_models (Script.png 100 100) "Describe this image" false
    App.model_names_to_try None Script.missing_then_quota
  = (App.Broken
       (Some (App.quota_message "429 Resource exhausted: rate LIMIT reached")),
     [App.Done "A cat on a sofa"],
     [App.GenerateContent "models/gemini-2.5-flash" "Describe this image"
        (App.PILImage (Script.png 100 100))
        (App.Raised "404 models/gemini-2.5-flash is not found");
      App.GenerateContent "models/gemini-2.5-flash" "Describe this image"
        (App.PNGBytes "PNG")
        (App.Raised "404 models/gemini-2.5-flash is not found");
      App.GenerateContent "models/gemini-2.5-pro" "Describe this image"
        (App.PILImage (Script.png 100 100))
        (App.Raised "429 Resource exhausted: rate LIMIT reached")]).
Proof.
  refine (proj1 (quota_on_first_attempt_aborts
            Script.World Script.generate_content Script.save_png
            (Script.png 100 100) "Describe this image" false
            ["models/gemini-2.5-flash"] "models/gemini-2.5-pro"
            ["models/gemini-2.0-flash-exp"; "models/gemini-2.0-flash";
             "models/gemini-flash-latest"; "models/gemini-pro-latest"]
            None
            (Some "Model models/gemini-2.5-flash not available (404 error).")
            Script.missing_then_quota
            [App.Raised "429 Resource exhausted: rate LIMIT reached";
             App.Done "A cat on a sofa"]
            [App.Done "A cat on a sofa"]
            [App.GenerateContent "models/gemini-2.5-flash" "Describe this image"
               (App.PILImage (Script.png 100 100))
               (App.Raised "404 models/gemini-2.5-flash is not found");
             App.GenerateContent "models/gemini-2.5-flash" "Describe this image"
               (App.PNGBytes "PNG")
               (App.Raised "404 models/gemini-2.5-flash is not found")]
            "429 Resource exhausted: rate LIMIT reached"
            eq_refl eq_refl _)).
  right. exists "429 resource exhausted: rate ", " reached". reflexivity.
Defined.

(** The run of the specification: an exceeded quota on the first model.  The
    second outcome of the script is never asked for, and the page shows the
    quota notices before the generic report is returned. *)
Example quota_on_the_first_model :
  Script.analyze_image (Script.png 100 100) "Describe this image" (Some "cat.png")
    Script.quota_then_answer
  = (Some (App.basic_analysis (Script.png 100 100) (Some "cat.png")),
     [App.Done "A cat on a sofa"],
     [App.GenerateContent "models/gemini-2.5-flash" "Describe this image"
        (App.PILImage (Script.png 100 100))
        (App.Raised "429 Quota exceeded for metric generate_content")]
     ++ App.quota_notices ++ [App.providing_basic]).
Proof. vm_compute. reflexivity. Qed.

(** The two [except] blocks disagree on a refused permission: the first one
    leaves the loop, the second one goes on to the next model. *)
Lemma handlers_disagree_on_permission (model_name : string) :
  App.first_handler model_name "403 Permission denied"
  = App.Terminal App.permission_message /\
  App.second_handler model_name "403 Permission denied"
  = App.Passing ("Error with model " +:+ model_name +:+ ": 403 Permission denied").
Proof. split; reflexivity. Qed.

Lemma permission_on_second_attempt_goes_on_witness :
  exists exit w4 result events,
    Script.try_models (Script.png 100 100) "Describe this image" false
      App.model_names_to_try None Script.permission_on_second_attempt
    = (exit, w4,
       []
       ++ [App.GenerateContent "models/gemini-2.5-flash" "Describe this image"
             (App.PILImage (Script.png 100 100)) (App.Raised "500 Internal error");
           App.GenerateContent "models/gemini-2.5-flash" "Describe this image"
             (App.PNGBytes "PNG") (App.Raised "403 Permission denied")]
       ++ App.GenerateContent "models/gemini-2.5-pro" "Describe this image"
            (App.PILImage (Script.png 100 100)) result :: events).
Proof.
  refine (permission_on_second_attempt_goes_on
            Script.World Script.generate_content Script.save_png
            (Script.png 100 100) "Describe this image" false
            [] "models/gemini-2.5-flash" "models/gemini-2.5-pro"
            ["models/gemini-2.0-flash-exp"; "models/gemini-2.0-flash";
             "models/gemini-flash-latest"; "models/gemini-pro-latest"]
            None None Script.permission_on_second_attempt
            Script.permission_on_second_attempt
            [App.Raised "403 Permission denied"; App.Done "A cat on a sofa"]
            [App.Done "A cat on a sofa"] []
            "500 Internal error"
            "Error with model models/gemini-2.5-flash: 500 Internal error"
            "PNG" "403 Permission denied"
            eq_refl eq_refl eq_refl eq_refl eq_refl _ _ _).
  - left. exists "403 ", " denied". reflexivity.
  - apply str_in_false. reflexivity.
  - apply str_in_false. reflexivity.
Defined.

(** The same run in full: the answer of the second model is returned. *)
Example permission_denied_then_answer :
  Script.try_models (Script.png 100 100) "Describe this image" false
    App.model_names_to_try None Script.permission_on_second_attempt
  = (App.Returned "A cat on a sofa", [],
     [App.GenerateContent "models/gemini-2.5-flash" "Describe this image"
        (App.PILImage (Script.png 100 100)) (App.Raised "500 Internal error");
      App.GenerateContent "models/gemini-2.5-flash" "Describe this image"
        (App.PNGBytes "PNG") (App.Raised "403 Permission denied");
      App.GenerateContent "models/gemini-2.5-pro" "Describe this image"
        (App.PILImage (Script.png 100 100)) (App.Done "A cat on a sofa")]).
Proof. reflexivity. Qed.

(** ** The requests of a run *)

Lemma requests_app (events1 events2 : list App.event) :
  Trace.requests (events1 ++ events2)
  = Trace.requests events1 ++ Trace.requests events2.
Proof.
  induction events1 as [|[m p d r| | |] events1 IH]; simpl; now rewrite ?IH.
Qed.

Lemma requests_notices (events : list App.event) :
  Forall Spec.is_notice events -> Trace.requests events = [].
Proof.
  induction 1 as [|e events He _ IH]; [reflexivity |].
  destruct e; simpl in *; [contradiction | exact IH ..].
Qed.

Lemma in_order_length png image sent reqs models :
  Trace.in_order png image sent reqs models ->
  (length reqs <= 2 * length models)%nat.
Proof. induction 1; simpl; lia. Qed.

Section Requests.

Variable World : Type.
Variable generate_content :
  string -> string -> App.payload -> World -> App.tried string * World.
Variable save_png : App.Image -> App.tried string.
Variable enhance : App.Image -> App.tried unit.

Variable image : App.Image.
Variable prompt : string.
Variable is_sequence_diagram : bool.

Local Abbreviation sent :=
  (if is_sequence_diagram then App.specialized_prompt else prompt).
Local Abbreviation try_model :=
  (App.try_model World generate_content save_png image prompt is_sequence_diagram).
Local Abbreviation try_models :=
  (App.try_models World generate_content save_png image prompt is_sequence_diagram).

(** One iteration: the image object, and then the PNG bytes if it goes that
    far.  When the iteration ends on [continue] the events are all it takes
    to go on. *)
Lemma try_model_requests (model_name : string) (w : World) :
  Trace.requests (snd (try_model model_name w))
  = [(model_name, sent, App.PILImage image)]
  \/ exists img_bytes,
       save_png image = App.Done img_bytes /\
       Trace.requests (snd (try_model model_name w))
       = [(model_name, sent, App.PILImage image);
          (model_name, sent, App.PNGBytes img_bytes)].
Proof.
  unfold App.try_model, App.bind, App.generate, App.ret.
  destruct (generate_content model_name sent (App.PILImage image) w)
    as [[text | first_error] w1]; [left; reflexivity |].
  destruct (App.first_handler model_name first_error); [left; reflexivity |].
  destruct (save_png image) as [img_bytes | message] eqn:Hsave.
  - right. exists img_bytes. split; [reflexivity |].
    destruct (generate_content model_name sent (App.PNGBytes img_bytes) w1)
      as [[text | second_error] w2]; [reflexivity |].
    destruct (App.second_handler model_name second_error); reflexivity.
  - left. destruct (App.second_handler model_name message); reflexivity.
Qed.

Lemma try_models_in_order (models : list string) (api_error : option string) (w : World) :
  Trace.in_order (save_png image) image sent
    (Trace.requests (snd (try_models models api_error w))) models.
Proof.
  revert api_error w. induction models as [|m models IH]; intros api_error w.
  - constructor.
  - rewrite try_models_cons.
    pose proof (try_model_requests m w) as Hm.
    destruct (try_model m w) as [[how w1] events1]. cbn [snd] in Hm.
    assert (Hgo : forall tail,
               Trace.in_order (save_png image) image sent tail models ->
               Trace.in_order (save_png image) image sent
                 (Trace.requests events1 ++ tail) (m :: models)).
    { intros tail Htail. destruct Hm as [-> | (img_bytes & Hsave & ->)].
      - apply Trace.asked_once, Htail.
      - apply Trace.asked_twice with (1 := Hsave), Htail. }
    destruct how as [text | e | e].
    + cbn [snd]. rewrite requests_app. apply Hgo. constructor.
    + cbn [snd]. rewrite requests_app. apply Hgo. constructor.
    + specialize (IH (Some e) w1).
      destruct (try_models models (Some e) w1) as [[exit w2] events2].
      cbn [snd] in *. rewrite requests_app. apply Hgo, IH.
Qed.

End Requests.

Lemma in_order_prompts png image sent reqs models :
  Trace.in_order png image sent reqs models ->
  Forall (fun request => snd (fst request) = sent) reqs.
Proof. induction 1; repeat constructor; assumption. Qed.

Lemma in_order_models png image sent reqs models :
  Trace.in_order png image sent reqs models ->
  Forall (fun request => In (fst (fst request)) models) reqs.
Proof.
  induction 1; repeat constructor; simpl; auto;
    eapply Forall_impl; try eassumption; simpl; auto.
Qed.

Section Runs.

Variable World : Type.
Variable generate_content :
  string -> string -> App.payload -> World -> App.tried string * World.
Variable save_png : App.Image -> App.tried string.
Variable enhance : App.Image -> App.tried unit.

Local Abbreviation analyze_image :=
  (App.analyze_image World generate_content save_png enhance).

(** The requests of [analyze_image] are those of its loop. *)
Lemma analyze_image_requests (image : App.Image) (prompt : string)
  (file_name : option string) (w : World) :
  Trace.requests (snd (analyze_image image prompt file_name w))
  = Trace.requests
      (snd (App.try_models World generate_content save_png image prompt
              (Trace.classified image prompt file_name)
              App.model_names_to_try None w)).
Proof.
  rewrite analyze_image_run. cbv zeta. fold (Trace.classified image prompt file_name).
  destruct (App.try_models _ _ _ image prompt _ App.model_names_to_try None w)
    as [[how w1] events1].
  destruct how as [text | api_error | api_error]; cbn [snd].
  - now rewrite List.app_nil_r.
  - pose proof (fall_back_notices World enhance image prompt file_name
                  (Trace.classified image prompt file_name)
                  (snd (App.override_detection
                          (App.detect_sequence_diagram image file_name) prompt))
                  api_error w1) as N.
    destruct (App.fall_back _ _ _ _ _ _ _ _ _) as [[result w2] events2].
    cbn [snd] in *. now rewrite requests_app, (requests_notices _ N), List.app_nil_r.
  - pose proof (fall_back_notices World enhance image prompt file_name
                  (Trace.classified image prompt file_name)
                  (snd (App.override_detection
                          (App.detect_sequence_diagram image file_name) prompt))
                  api_error w1) as N.
    destruct (App.fall_back _ _ _ _ _ _ _ _ _) as [[result w2] events2].
    cbn [snd] in *. now rewrite requests_app, (requests_notices _ N), List.app_nil_r.
Qed.

(** X1. Whatever the remote service does, the requests of a run of
    [analyze_image] go down the list of the six models in order: each model
    is sent the image object first and its PNG bytes second, if at all, no
    model is asked again once the next one was, every request carries the
    same prompt, and there are never more than twelve requests. *)
Theorem requests_follow_the_list (image : App.Image) (prompt : string)
  (file_name : option string) (w : World) :
  Trace.in_order (save_png image) image (Trace.sent image prompt file_name)
    (Trace.requests (snd (analyze_image image prompt file_name w)))
    App.model_names_to_try /\
  (length (Trace.requests (snd (analyze_image image prompt file_name w))) <= 12)%nat.
Proof.
  rewrite analyze_image_requests.
  pose proof (try_models_in_order World generate_content save_png image prompt
                (Trace.classified image prompt file_name)
                App.model_names_to_try None w) as H.
  split; [exact H |].
  apply in_order_length in H. exact H.
Qed.

End Runs.

(** ** Which images count as sequence diagrams *)

Lemma classified_on_sizes (image : App.Image) (prompt : string)
  (file_name : option string) (width height : Z) :
  App.size image = (width, height) ->
  0 <= width < 2 ^ 31 -> 0 <= height < 2 ^ 31 ->
  Trace.classified image prompt file_name = true
  <-> Spec.name_suggests file_name \/ Spec.prompt_suggests prompt
      \/ (6 * height < 5 * width /\ 150 < height).
Proof.
  intros Hsize Hw Hh. unfold Trace.classified, App.override_detection.
  rewrite <- prompt_test_suggests.
  destruct (existsb (fun keyword => Py.str_in keyword (Py.lower_or_empty file_name))
              App.seq_keywords) eqn:Hname.
  - unfold App.detect_sequence_diagram. rewrite Hname.
    apply name_test_suggests in Hname.
    rewrite andb_false_r. simpl. tauto.
  - assert (Hno : ~ Spec.name_suggests file_name).
    { intros H. apply name_test_suggests in H. congruence. }
    rewrite (detect_on_sizes image file_name width height Hsize Hw Hh Hno).
    destruct (Z.ltb_spec (3 * height) (2 * width));
      destruct (Z.ltb_spec 200 height);
      destruct (Z.ltb_spec (6 * height) (5 * width));
      destruct (Z.ltb_spec 150 height);
      destruct (App.prompt_suggests_seq prompt); simpl;
      split; intros H'; try reflexivity; try discriminate; try tauto; try lia;
      try (destruct H' as [H' | [H' | H']]; [tauto | discriminate | lia]).
Qed.

(** X2. The pair [(is_sequence_diagram, reason)] that [analyze_image] works
    with is either negative without a reason, or positive with one of four
    texts: the warning of the fallback never has to print a missing
    reason. *)
Theorem positive_has_reason (image : App.Image) (prompt : string)
  (file_name : option string) :
  let detected :=
    App.override_detection (App.detect_sequence_diagram image file_name) prompt in
  (fst detected = false /\ snd detected = None) \/
  (fst detected = true /\
   In (snd detected)
     [Some "Filename suggests sequence diagram";
      Some "Wide format typical of sequence diagrams";
      Some "Format suggests technical diagram";
      Some "User prompt suggests sequence diagram"]).
Proof.
  unfold App.override_detection, App.detect_sequence_diagram.
  destruct (existsb _ App.seq_keywords); [right; simpl; rewrite andb_false_r; simpl; tauto |].
  destruct (App.size image) as [width height].
  destruct (PrimFloat.ltb 1.5 _ && _); [right; rewrite andb_false_r; simpl; tauto |].
  destruct (PrimFloat.ltb 1.2 _ && _); [right; rewrite andb_false_r; simpl; tauto |].
  destruct (App.prompt_suggests_seq prompt); simpl; [right | left]; tauto.
Qed.

Lemma answer_among_notices (events : list App.event) (m p : string)
  (d : App.payload) (text : string) :
  Forall Spec.is_notice events ->
  ~ In (App.GenerateContent m p d (App.Done text)) events.
Proof.
  intros H Hin. rewrite List.Forall_forall in H. exact (H _ Hin).
Qed.

Section Results.

Variable World : Type.
Variable generate_content :
  string -> string -> App.payload -> World -> App.tried string * World.
Variable save_png : App.Image -> App.tried string.
Variable enhance : App.Image -> App.tried unit.

Local Abbreviation analyze_image :=
  (App.analyze_image World generate_content save_png enhance).

Lemma fall_back_result (image : App.Image) (prompt : string)
  (file_name : option string) (is_sequence_diagram : bool)
  (reason api_error : option string) (w : World) :
  fst (fst (App.fall_back World enhance image prompt file_name is_sequence_diagram
              reason api_error w))
  = if is_sequence_diagram
    then match enhance image with
         | App.Done _ => Some (App.sequence_analysis image)
         | App.Raised _ => None
         end
    else Some (App.basic_analysis image file_name).
Proof.
  unfold App.fall_back, App.bind, App.emit, App.analyze_sequence_diagram, App.ret.
  destruct is_sequence_diagram; [destruct (enhance image) |]; reflexivity.
Qed.

Lemma first_request (image : App.Image) (prompt : string)
  (file_name : option string) (w : World) :
  exists rest,
    Trace.requests (snd (analyze_image image prompt file_name w))
    = ("models/gemini-2.5-flash", Trace.sent image prompt file_name,
       App.PILImage image) :: rest.
Proof.
  rewrite analyze_image_requests. unfold App.model_names_to_try.
  destruct (try_models_first_event World generate_content save_png image prompt
              (Trace.classified image prompt file_name)
              "models/gemini-2.5-flash"
              ["models/gemini-2.5-pro"; "models/gemini-2.0-flash-exp";
               "models/gemini-2.0-flash"; "models/gemini-flash-latest";
               "models/gemini-pro-latest"] None w)
    as (exit & w' & result & events & ->).
  cbn [snd Trace.requests]. eexists. reflexivity.
Qed.

(** X3. On an image whose sizes are below [2^31], the prompt of the user
    goes out only when nothing makes the image a sequence diagram: no
    keyword in the file name, none in the prompt, and a shape that is not
    both wider than 6:5 and higher than 150.  In every other case all the
    requests carry the fixed prompt about sequence diagrams instead.  The
    first model is always asked. *)
Theorem user_prompt_is_replaced (image : App.Image) (prompt : string)
  (file_name : option string) (w : World) (width height : Z) :
  App.size image = (width, height) ->
  0 <= width < 2 ^ 31 -> 0 <= height < 2 ^ 31 ->
  Trace.requests (snd (analyze_image image prompt file_name w)) <> [] /\
  (Spec.name_suggests file_name \/ Spec.prompt_suggests prompt
   \/ (6 * height < 5 * width /\ 150 < height) ->
   Forall (fun request => snd (fst request) = App.specialized_prompt)
     (Trace.requests (snd (analyze_image image prompt file_name w)))) /\
  (~ (Spec.name_suggests file_name \/ Spec.prompt_suggests prompt
      \/ (6 * height < 5 * width /\ 150 < height)) ->
   Forall (fun request => snd (fst request) = prompt)
     (Trace.requests (snd (analyze_image image prompt file_name w)))).
Proof.
  intros Hsize Hw Hh.
  pose proof (classified_on_sizes image prompt file_name width height Hsize Hw Hh) as C.
  split.
  { destruct (first_request image prompt file_name w) as [rest ->]. discriminate. }
  rewrite analyze_image_requests.
  pose proof (in_order_prompts _ _ _ _ _
                (try_models_in_order World generate_content save_png image prompt
                   (Trace.classified image prompt file_name)
                   App.model_names_to_try None w)) as P.
  split; intros H.
  - apply C in H. rewrite H in P. rewrite H. exact P.
  - destruct (Trace.classified image prompt file_name); [| exact P].
    exfalso. apply H, C. reflexivity.
Qed.

(** X4. What [analyze_image] returns.  If a request was answered, its text.
    If none was: the generic report for an image that is not taken for a
    sequence diagram, and for one that is, the text about sequence diagrams,
    or nothing at all when enhancing the image raised.  So the function
    returns nothing only for an image taken for a sequence diagram. *)
Theorem analyze_image_result (image : App.Image) (prompt : string)
  (file_name : option string) (w : World) :
  let run := analyze_image image prompt file_name w in
  (exists model_name request data text,
     In (App.GenerateContent model_name request data (App.Done text)) (snd run) /\
     fst (fst run) = Some text) \/
  ((forall model_name request data text,
      ~ In (App.GenerateContent model_name request data (App.Done text)) (snd run)) /\
   fst (fst run)
   = if Trace.classified image prompt file_name
     then match enhance image with
          | App.Done _ => Some (App.sequence_analysis image)
          | App.Raised _ => None
          end
     else Some (App.basic_analysis image file_name)).
Proof.
  cbv zeta. rewrite analyze_image_run. cbv zeta.
  fold (Trace.classified image prompt file_name).
  destruct (App.try_models _ _ _ image prompt _ App.model_names_to_try None w)
    as [[how w1] events1] eqn:Hloop.
  apply try_models_shape in Hloop.
  assert (Hfb : forall api_error,
             let '(result, w2, events2) :=
               App.fall_back World enhance image prompt file_name
                 (Trace.classified image prompt file_name)
                 (snd (App.override_detection
                         (App.detect_sequence_diagram image file_name) prompt))
                 api_error w1 in
             Forall Spec.is_notice events2 /\
             result = if Trace.classified image prompt file_name
                      then match enhance image with
                           | App.Done _ => Some (App.sequence_analysis image)
                           | App.Raised _ => None
                           end
                      else Some (App.basic_analysis image file_name)).
  { intros api_error.
    pose proof (fall_back_notices World enhance image prompt file_name
                  (Trace.classified image prompt file_name)
                  (snd (App.override_detection
                          (App.detect_sequence_diagram image file_name) prompt))
                  api_error w1) as N.
    pose proof (fall_back_result image prompt file_name
                  (Trace.classified image prompt file_name)
                  (snd (App.override_detection
                          (App.detect_sequence_diagram image file_name) prompt))
                  api_error w1) as R.
    destruct (App.fall_back _ _ _ _ _ _ _ _ _) as [[result w2] events2].
    cbn [fst snd] in N, R. split; assumption. }
  destruct how as [text | api_error | api_error].
  - left. destruct Hloop as (_ & model_name & _ & earlier & data & _ & -> & _).
    exists model_name,
      (if Trace.classified image prompt file_name then App.specialized_prompt else prompt),
      data, text.
    split; [| reflexivity]. cbn [snd].
    apply in_or_app. left. apply in_or_app. right. left. reflexivity.
  - right. specialize (Hfb api_error).
    destruct (App.fall_back _ _ _ _ _ _ _ _ _) as [[result w2] events2].
    destruct Hfb as [N ->]. split; [| reflexivity].
    intros m p d t Hin. cbn [snd] in Hin. apply in_app_or in Hin as [Hin | Hin].
    + exact (answer_among_refusals _ _ _ _ _ Hloop Hin).
    + exact (answer_among_notices _ _ _ _ _ N Hin).
  - right. specialize (Hfb api_error).
    destruct (App.fall_back _ _ _ _ _ _ _ _ _) as [[result w2] events2].
    destruct Hfb as [N ->]. split; [| reflexivity].
    intros m p d t Hin. cbn [snd] in Hin. apply in_app_or in Hin as [Hin | Hin].
    + exact (answer_among_refusals _ _ _ _ _ Hloop Hin).
    + exact (answer_among_notices _ _ _ _ _ N Hin).
Qed.

End Results.


(** ** Why the loop ends as it does *)

Lemma quota_test (error : string) :
  Py.str_in "quota" (Py.lower error) || Py.str_in "limit" (Py.lower error) = true
  <-> Trace.quota_like error.
Proof. unfold Trace.quota_like. now rewrite orb_true_iff, !str_in_contains. Qed.

Lemma not_found_test (error : string) :
  Py.str_in "404" (Py.lower error) || Py.str_in "not found" (Py.lower error) = true
  <-> Trace.not_found_like error.
Proof. unfold Trace.not_found_like. now rewrite orb_true_iff, !str_in_contains. Qed.

Lemma permission_test (error : string) :
  Py.str_in "permission" (Py.lower error) || Py.str_in "forbidden" (Py.lower error) = true
  <-> Trace.permission_like error.
Proof. unfold Trace.permission_like. now rewrite orb_true_iff, !str_in_contains. Qed.

Lemma first_handler_verdict (model_name error : string) :
  match App.first_handler model_name error with
  | App.Terminal api_error =>
      (Trace.quota_like error /\ api_error = App.quota_message error) \/
      (Trace.denied error /\ api_error = App.permission_message)
  | App.Passing _ => Trace.transient error
  end.
Proof.
  unfold App.first_handler, Trace.transient, Trace.denied. cbv zeta.
  pose proof (quota_test error) as Q. pose proof (not_found_test error) as N.
  pose proof (permission_test error) as P.
  destruct (Py.str_in "quota" _ || _); [left; split; [now apply Q | reflexivity] |].
  destruct (Py.str_in "404" _ || _).
  { split; [intros H; apply Q in H; discriminate | left; now apply N]. }
  destruct (Py.str_in "permission" _ || _).
  { right. split; [| reflexivity].
    split; [intros H; apply Q in H; discriminate |].
    split; [intros H; apply N in H; discriminate | now apply P]. }
  split; [intros H; apply Q in H; discriminate |].
  right. intros H; apply P in H; discriminate.
Qed.

Lemma second_handler_verdict (model_name error : string) :
  match App.second_handler model_name error with
  | App.Terminal api_error =>
      Trace.quota_like error /\ api_error = App.quota_message error
  | App.Passing api_error =>
      ~ Trace.quota_like error /\
      (api_error = "Model " +:+ model_name +:+ " not available (404 error)."
       \/ api_error = "Error with model " +:+ model_name +:+ ": " +:+ error)
  end.
Proof.
  unfold App.second_handler. cbv zeta.
  pose proof (quota_test error) as Q.
  destruct (Py.str_in "quota" _ || _); [split; [now apply Q | reflexivity] |].
  destruct (Py.str_in "404" _ || _);
    (split; [intros H; apply Q in H; discriminate | auto]).
Qed.

Lemma transient_not_denied (error : string) :
  Trace.transient error -> Trace.denied error -> False.
Proof. intros [_ [H | H]] (_ & N & P); auto. Qed.

Lemma quota_raised_app png image (events1 events2 : list App.event) :
  Trace.quota_raised png image (events1 ++ events2)
  <-> Trace.quota_raised png image events1 \/ Trace.quota_raised png image events2.
Proof.
  unfold Trace.quota_raised. split.
  - intros [(m & p & d & e & Hin & Q) | (m & p & e & msg & Hin & T & S & Q)];
      apply in_app_or in Hin as [Hin | Hin].
    + left. left. eauto 8.
    + right. left. eauto 8.
    + left. right. eauto 10.
    + right. right. eauto 10.
  - intros [[(m & p & d & e & Hin & Q) | (m & p & e & msg & Hin & T & S & Q)]
           | [(m & p & d & e & Hin & Q) | (m & p & e & msg & Hin & T & S & Q)]].
    + left. exists m, p, d, e. split; [apply in_or_app; left; exact Hin | exact Q].
    + right. exists m, p, e, msg. split; [apply in_or_app; left; exact Hin | auto].
    + left. exists m, p, d, e. split; [apply in_or_app; right; exact Hin | exact Q].
    + right. exists m, p, e, msg. split; [apply in_or_app; right; exact Hin | auto].
Qed.

Lemma quota_raised_notices png image (events : list App.event) :
  Forall Spec.is_notice events -> ~ Trace.quota_raised png image events.
Proof.
  intros N. rewrite List.Forall_forall in N.
  intros [(m & p & d & e & Hin & _) | (m & p & e & msg & Hin & _)];
    exact (N _ Hin).
Qed.

Lemma neutral_models : Forall Trace.neutral App.model_names_to_try.
Proof.
  repeat constructor; intros error; unfold App.api_error_mentions;
    rewrite !lower_append; reflexivity.
Qed.

Lemma permission_message_mentions :
  App.api_error_mentions (Some App.permission_message) "quota" "limit" = false /\
  App.api_error_mentions (Some App.permission_message) "permission" "forbidden" = true.
Proof. split; vm_compute; reflexivity. Qed.

Section Causes.

Variable World : Type.
Variable generate_content :
  string -> string -> App.payload -> World -> App.tried string * World.
Variable save_png : App.Image -> App.tried string.

Variable image : App.Image.
Variable prompt : string.
Variable is_sequence_diagram : bool.

Local Abbreviation sent :=
  (if is_sequence_diagram then App.specialized_prompt else prompt).
Local Abbreviation try_model :=
  (App.try_model World generate_content save_png image prompt is_sequence_diagram).
Local Abbreviation try_models :=
  (App.try_models World generate_content save_png image prompt is_sequence_diagram).
Local Abbreviation quota_raised := (Trace.quota_raised (save_png image) image).

(** What [api_error] says about the quota after one iteration is what
    happened in it. *)
Lemma try_model_cause (model_name : string) (w w' : World) (how : App.step)
  (events : list App.event) :
  Trace.neutral model_name ->
  try_model model_name w = (how, w', events) ->
  match how with
  | App.Return _ => ~ quota_raised events
  | App.Break api_error =>
      quota_raised events
      <-> App.api_error_mentions (Some api_error) "quota" "limit" = true
  | App.Continue api_error =>
      ~ quota_raised events /\
      App.api_error_mentions (Some api_error) "quota" "limit" = false
  end.
Proof.
  intros [N404 Nerr].
  unfold App.try_model, App.bind, App.generate, App.ret.
  destruct (generate_content model_name sent (App.PILImage image) w)
    as [[text | first_error] w1].
  { intros [= <- <- <-].
    intros [(m & p & d & e & [Hin | []] & _) | (m & p & e & msg & [Hin | []] & _)];
      discriminate Hin. }
  pose proof (first_handler_verdict model_name first_error) as V1.
  destruct (App.first_handler model_name first_error) as [api_error | api_error].
  { intros [= <- <- <-].
    destruct V1 as [[Q ->] | [D ->]].
    - split; [intros _; apply quota_message_mentions_quota |].
      intros _. left. exists model_name, sent, (App.PILImage image), first_error.
      split; [left; reflexivity | exact Q].
    - split; [| intros H; rewrite (proj1 permission_message_mentions) in H; discriminate].
      intros [(m & p & d & e & [Hin | []] & Q) | (m & p & e & msg & [Hin | []] & T & _)].
      + injection Hin as <- <- <- <-. exfalso. exact (proj1 D Q).
      + injection Hin as <- <- <-. exfalso. exact (transient_not_denied _ T D). }
  destruct (save_png image) as [img_bytes | message] eqn:Hsave.
  - destruct (generate_content model_name sent (App.PNGBytes img_bytes) w1)
      as [[text | second_error] w2].
    + intros [= <- <- <-].
      intros [(m & p & d & e & [Hin | [Hin | []]] & Q) | (m & p & e & msg & _ & _ & S & _)];
        try discriminate.
      injection Hin as <- <- <- <-. exact (proj1 V1 Q).
    + pose proof (second_handler_verdict model_name second_error) as V2.
      destruct (App.second_handler model_name second_error) as [a | a];
        intros [= <- <- <-].
      * destruct V2 as [Q ->].
        split; [intros _; apply quota_message_mentions_quota |].
        intros _. left. exists model_name, sent, (App.PNGBytes img_bytes), second_error.
        split; [right; left; reflexivity | exact Q].
      * destruct V2 as [NQ Ha]. split.
        -- intros [(m & p & d & e & [Hin | [Hin | []]] & Q) | (m & p & e & msg & _ & _ & S & _)];
             try discriminate; injection Hin as <- <- <- <-; auto.
           exact (proj1 V1 Q).
        -- destruct Ha as [-> | ->]; [exact N404 |].
           rewrite Nerr. apply not_true_is_false. intros H. apply quota_test in H. auto.
  - pose proof (second_handler_verdict model_name message) as V2.
    destruct (App.second_handler model_name message) as [a | a];
      intros [= <- <- <-].
    + destruct V2 as [Q ->].
      split; [intros _; apply quota_message_mentions_quota |].
      intros _. right. exists model_name, sent, first_error, message.
      split; [left; reflexivity | auto].
    + destruct V2 as [NQ Ha]. split.
      * intros [(m & p & d & e & [Hin | []] & Q) | (m & p & e & msg & _ & _ & S & Q)].
        -- injection Hin as <- <- <- <-. exact (proj1 V1 Q).
        -- injection S as <-. auto.
      * destruct Ha as [-> | ->]; [exact N404 |].
        rewrite Nerr. apply not_true_is_false. intros H. apply quota_test in H. auto.
Qed.

Lemma try_models_cause (models : list string) (api_error : option string)
  (w w' : World) (how : App.loop_exit) (events : list App.event) :
  Forall Trace.neutral models ->
  App.api_error_mentions api_error "quota" "limit" = false ->
  try_models models api_error w = (how, w', events) ->
  match how with
  | App.Returned _ => ~ quota_raised events
  | App.Broken a | App.Exhausted a =>
      quota_raised events <-> App.api_error_mentions a "quota" "limit" = true
  end.
Proof.
  revert api_error w w' how events.
  induction models as [|m models IH]; intros api_error w w' how events Hn Hapi.
  - intros [= <- <- <-]. rewrite Hapi. split; [| discriminate].
    intros H. exfalso. revert H. apply quota_raised_notices. constructor.
  - inversion Hn as [|? ? Hm Hrest]; subst.
    rewrite try_models_cons.
    destruct (try_model m w) as [[step w1] events1] eqn:Hstep.
    apply (try_model_cause _ _ _ _ _ Hm) in Hstep.
    destruct step as [text | e | e].
    + intros [= <- <- <-]. now rewrite List.app_nil_r.
    + intros [= <- <- <-]. now rewrite List.app_nil_r.
    + destruct Hstep as [Hnot He].
      destruct (try_models models (Some e) w1) as [[exit w2] events2] eqn:Hloop.
      intros [= <- <- <-].
      specialize (IH _ _ _ _ _ Hrest He Hloop).
      destruct exit; rewrite quota_raised_app; tauto.
Qed.

(** A first request that is refused for want of permission is the last
    thing the loop does. *)
Lemma try_model_denied (model_name : string) (w w' : World) (how : App.step)
  (events : list App.event) (m p e : string) :
  try_model model_name w = (how, w', events) ->
  In (App.GenerateContent m p (App.PILImage image) (App.Raised e)) events ->
  Trace.denied e ->
  how = App.Break App.permission_message /\
  events = [App.GenerateContent m p (App.PILImage image) (App.Raised e)].
Proof.
  unfold App.try_model, App.bind, App.generate, App.ret.
  destruct (generate_content model_name sent (App.PILImage image) w)
    as [[text | first_error] w1].
  { intros [= <- <- <-] [Hin | []]. discriminate Hin. }
  pose proof (first_handler_verdict model_name first_error) as V1.
  destruct (App.first_handler model_name first_error) as [api_error | api_error].
  { intros [= <- <- <-] [Hin | []] D. injection Hin as <- <- <-.
    destruct V1 as [[Q _] | [_ ->]]; [exfalso; exact (proj1 D Q) |].
    split; reflexivity. }
  intros Hrun Hin D. exfalso.
  assert (Hfirst : App.GenerateContent m p (App.PILImage image) (App.Raised e)
                   = App.GenerateContent model_name sent (App.PILImage image)
                       (App.Raised first_error)).
  { destruct (save_png image) as [img_bytes | message].
    - destruct (generate_content model_name sent (App.PNGBytes img_bytes) w1)
        as [[text | second_error] w2];
        [| destruct (App.second_handler model_name second_error)];
        injection Hrun as <- <- <-;
        destruct Hin as [Hin | [Hin | []]]; try discriminate Hin; now symmetry.
    - destruct (App.second_handler model_name message);
        injection Hrun as <- <- <-;
        destruct Hin as [Hin | []]; now symmetry. }
  injection Hfirst as -> -> ->. exact (transient_not_denied _ V1 D).
Qed.

Lemma try_models_denied (models : list string) (api_error : option string)
  (w w' : World) (how : App.loop_exit) (events : list App.event) (m p e : string) :
  try_models models api_error w = (how, w', events) ->
  In (App.GenerateContent m p (App.PILImage image) (App.Raised e)) events ->
  Trace.denied e ->
  how = App.Broken (Some App.permission_message) /\
  exists earlier,
    events = earlier ++ [App.GenerateContent m p (App.PILImage image) (App.Raised e)] /\
    Forall Spec.is_refusal earlier.
Proof.
  revert api_error w w' how events.
  induction models as [|model_name models IH]; intros api_error w w' how events.
  - intros [= <- <- <-] [].
  - rewrite try_models_cons.
    destruct (try_model model_name w) as [[step w1] events1] eqn:Hstep.
    pose proof (try_model_denied _ _ _ _ _ m p e Hstep) as D1.
    apply try_model_shape in Hstep as [_ Hshape].
    destruct step as [text | a | a].
    + intros [= <- <- <-] Hin D. rewrite List.app_nil_r in Hin.
      destruct (D1 Hin D) as [[=] _].
    + intros [= <- <- <-] Hin D. rewrite List.app_nil_r in *.
      destruct (D1 Hin D) as [[= ->] ->].
      split; [reflexivity |]. exists []. split; [reflexivity | constructor].
    + destruct (try_models models (Some a) w1) as [[exit w2] events2] eqn:Hloop.
      intros [= <- <- <-] Hin D.
      apply in_app_or in Hin as [Hin | Hin]; [destruct (D1 Hin D) as [[=] _] |].
      destruct (IH _ _ _ _ _ Hloop Hin D) as [-> (earlier & -> & Hearlier)].
      split; [reflexivity |]. exists (events1 ++ earlier).
      split; [now rewrite List.app_assoc |].
      apply Forall_app; split; assumption.
Qed.

End Causes.

Lemma quota_error_in_notices (is_sequence_diagram : bool)
  (reason api_error : option string) :
  In Trace.quota_error (App.unavailable_notices is_sequence_diagram reason api_error)
  <-> App.api_error_mentions api_error "quota" "limit" = true.
Proof.
  unfold App.unavailable_notices, Trace.quota_error.
  destruct is_sequence_diagram;
    destruct (App.api_error_mentions api_error "quota" "limit");
    try destruct (App.api_error_mentions api_error "permission" "forbidden");
    simpl; split; intros H; try reflexivity; try discriminate; auto;
    repeat (destruct H as [H | H]; [discriminate H |]); destruct H.
Qed.

Lemma permission_error_in_notices (is_sequence_diagram : bool)
  (reason api_error : option string) :
  In Trace.permission_error
    (App.unavailable_notices is_sequence_diagram reason api_error)
  <-> is_sequence_diagram = false /\
      App.api_error_mentions api_error "quota" "limit" = false /\
      App.api_error_mentions api_error "permission" "forbidden" = true.
Proof.
  unfold App.unavailable_notices, Trace.permission_error.
  destruct is_sequence_diagram;
    destruct (App.api_error_mentions api_error "quota" "limit");
    try destruct (App.api_error_mentions api_error "permission" "forbidden");
    simpl; split; intros H; try (repeat split; reflexivity); auto;
    try (destruct H as (? & ? & ?); discriminate);
    repeat (destruct H as [H | H]; [discriminate H |]); destruct H.
Qed.

Lemma refusals_are_requests (events : list App.event) (e : App.event) :
  Forall Spec.is_refusal events -> In e events -> ~ Spec.is_notice e.
Proof.
  intros H Hin. rewrite List.Forall_forall in H.
  destruct (H _ Hin) as (? & ? & ? & ? & ->). auto.
Qed.

Section Notices.

Variable World : Type.
Variable generate_content :
  string -> string -> App.payload -> World -> App.tried string * World.
Variable save_png : App.Image -> App.tried string.
Variable enhance : App.Image -> App.tried unit.

Local Abbreviation analyze_image :=
  (App.analyze_image World generate_content save_png enhance).

(** The events of [fall_back]: the notices for [api_error], followed by the
    error of [analyze_sequence_diagram] if there is one. *)
Lemma fall_back_events (image : App.Image) (prompt : string)
  (file_name : option string) (is_sequence_diagram : bool)
  (reason api_error : option string) (w : World) :
  snd (App.fall_back World enhance image prompt file_name is_sequence_diagram
         reason api_error w)
  = App.unavailable_notices is_sequence_diagram reason api_error
    ++ (if is_sequence_diagram
        then match enhance image with
             | App.Done _ => []
             | App.Raised message =>
                 [App.StError ("Error analyzing sequence diagram: " +:+ message)]
             end
        else []).
Proof.
  unfold App.fall_back, App.bind, App.emit, App.analyze_sequence_diagram, App.ret.
  destruct is_sequence_diagram; [destruct (enhance image) |]; reflexivity.
Qed.

(** X5. The notice "Google AI API Quota Exceeded" is on the page exactly
    when something of the run was taken for a quota problem: a request that
    raised with a message containing "quota" or "limit", or the conversion
    of the image to PNG that raised with such a message. *)
Theorem quota_notice_iff_quota_raised (image : App.Image) (prompt : string)
  (file_name : option string) (w : World) :
  In Trace.quota_error (snd (analyze_image image prompt file_name w))
  <-> Trace.quota_raised (save_png image) image
        (snd (analyze_image image prompt file_name w)).
Proof.
  rewrite analyze_image_run. cbv zeta.
  set (c := fst (App.override_detection _ prompt)).
  set (reason := snd (App.override_detection _ prompt)).
  destruct (App.try_models _ _ _ image prompt c App.model_names_to_try None w)
    as [[how w1] events1] eqn:Hloop.
  pose proof (try_models_shape _ _ _ _ _ _ _ _ _ _ _ _ Hloop) as Hshape.
  pose proof (try_models_cause _ _ _ _ _ _ _ None _ _ _ _
                neutral_models eq_refl Hloop) as Hcause.
  assert (Hfb : forall api_error,
             (Trace.quota_raised (save_png image) image events1
              <-> App.api_error_mentions api_error "quota" "limit" = true) ->
             Forall Spec.is_refusal events1 ->
             In Trace.quota_error
               (events1 ++ snd (App.fall_back World enhance image prompt file_name c
                                  reason api_error w1))
             <-> Trace.quota_raised (save_png image) image
                   (events1 ++ snd (App.fall_back World enhance image prompt file_name c
                                      reason api_error w1))).
  { intros api_error Hc Hr.
    pose proof (fall_back_notices World enhance image prompt file_name c reason
                  api_error w1) as N.
    rewrite quota_raised_app, in_app_iff.
    pose proof (quota_raised_notices (save_png image) image _ N) as Hno.
    rewrite fall_back_events in *. rewrite in_app_iff.
    rewrite quota_error_in_notices.
    assert (H1 : ~ In Trace.quota_error events1).
    { intros Hin. exact (refusals_are_requests _ _ Hr Hin I). }
    assert (H2 : ~ In Trace.quota_error
                   (if c
                    then match enhance image with
                         | App.Done _ => []
                         | App.Raised message =>
                             [App.StError ("Error analyzing sequence diagram: "
                                           +:+ message)]
                         end
                    else [])).
    { destruct c; [destruct (enhance image) |]; simpl; try tauto.
      intros [H | []]. discriminate H. }
    tauto. }
  destruct how as [text | api_error | api_error].
  - cbn [snd]. rewrite List.app_nil_r.
    destruct Hshape as (_ & m & _ & earlier & data & _ & -> & Hearlier & _).
    split; [| intros H; contradiction].
    intros Hin. exfalso. apply in_app_or in Hin as [Hin | [Hin | []]].
    + exact (refusals_are_requests _ _ Hearlier Hin I).
    + discriminate Hin.
  - specialize (Hfb api_error Hcause Hshape).
    destruct (App.fall_back _ _ _ _ _ _ _ _ _) as [[result w2] events2]. exact Hfb.
  - specialize (Hfb api_error Hcause Hshape).
    destruct (App.fall_back _ _ _ _ _ _ _ _ _) as [[result w2] events2]. exact Hfb.
Qed.

(** X6. A first request that is refused with a message about permission
    (one that contains "permission" or "forbidden" and none of "quota",
    "limit", "404", "not found") ends the run: it is the last request, and
    the image is not sent as PNG bytes.  For an image that is not taken for
    a sequence diagram the permission notice follows and the generic report
    is returned; for one that is, the page never shows the permission
    notice at all. *)
Theorem permission_refusal_ends_run (image : App.Image) (prompt : string)
  (file_name : option string) (w : World) (model_name request error : string) :
  In (App.GenerateContent model_name request (App.PILImage image) (App.Raised error))
    (snd (analyze_image image prompt file_name w)) ->
  Trace.denied error ->
  (exists earlier notices,
     snd (analyze_image image prompt file_name w)
     = earlier
       ++ [App.GenerateContent model_name request (App.PILImage image)
             (App.Raised error)]
       ++ notices /\
     Forall Spec.is_refusal earlier /\ Forall Spec.is_notice notices /\
     (Trace.classified image prompt file_name = false ->
      notices = App.permission_notices ++ [App.providing_basic] /\
      fst (fst (analyze_image image prompt file_name w))
      = Some (App.basic_analysis image file_name))) /\
  (Trace.classified image prompt file_name = true ->
   ~ In Trace.permission_error (snd (analyze_image image prompt file_name w))).
Proof.
  intros Hin D. revert Hin. rewrite analyze_image_run. cbv zeta.
  fold (Trace.classified image prompt file_name).
  set (reason := snd (App.override_detection _ prompt)).
  destruct (App.try_models _ _ _ image prompt _ App.model_names_to_try None w)
    as [[how w1] events1] eqn:Hloop.
  pose proof (try_models_shape _ _ _ _ _ _ _ _ _ _ _ _ Hloop) as Hshape.
  pose proof (try_models_denied _ _ _ _ _ _ _ _ _ _ _ _
                model_name request error Hloop) as Hden.
  assert (Hin1 : forall events2,
             Forall Spec.is_notice events2 ->
             In (App.GenerateContent model_name request (App.PILImage image)
                   (App.Raised error)) (events1 ++ events2) ->
             In (App.GenerateContent model_name request (App.PILImage image)
                   (App.Raised error)) events1).
  { intros events2 N Hin. apply in_app_or in Hin as [Hin | Hin]; [exact Hin |].
    rewrite List.Forall_forall in N. destruct (N _ Hin). }
  destruct how as [text | api_error | api_error].
  - cbn [snd fst]. intros Hin. apply (Hin1 [] (List.Forall_nil _)) in Hin.
    destruct (Hden Hin D) as [[=] _].
  - pose proof (fall_back_notices World enhance image prompt file_name
                  (Trace.classified image prompt file_name) reason api_error w1) as N.
    pose proof (fall_back_events image prompt file_name
                  (Trace.classified image prompt file_name) reason api_error w1) as E.
    pose proof (fall_back_result World enhance image prompt file_name
                  (Trace.classified image prompt file_name) reason api_error w1) as R.
    destruct (App.fall_back _ _ _ _ _ _ _ _ _) as [[result w2] events2].
    cbn [fst snd] in *. intros Hin. apply (Hin1 _ N) in Hin.
    destruct (Hden Hin D) as [[= ->] (earlier & -> & Hearlier)].
    split.
    + exists earlier, events2. split; [now rewrite <- List.app_assoc |].
      split; [exact Hearlier |]. split; [exact N |].
      intros C. rewrite C in E, R. split; [| exact R].
      rewrite E, List.app_nil_r. unfold App.unavailable_notices.
      rewrite (proj1 permission_message_mentions), (proj2 permission_message_mentions).
      reflexivity.
    + intros C Hperm. apply in_app_or in Hperm as [Hperm | Hperm].
      * exact (refusals_are_requests _ _ Hshape Hperm I).
      * rewrite E, C in Hperm. apply in_app_or in Hperm as [Hperm | Hperm].
        -- apply permission_error_in_notices in Hperm as [[=] _].
        -- destruct (enhance image); [destruct Hperm |].
           destruct Hperm as [Hperm | []]. discriminate Hperm.
  - cbn [snd fst].
    pose proof (fall_back_notices World enhance image prompt file_name
                  (Trace.classified image prompt file_name) reason api_error w1) as N.
    destruct (App.fall_back _ _ _ _ _ _ _ _ _) as [[result w2] events2].
    cbn [fst snd] in *. intros Hin. apply (Hin1 _ N) in Hin.
    destruct (Hden Hin D) as [[=] _].
Qed.

End Notices.

(** ** A service that is down *)

Section Down.

Variable World : Type.
Variable generate_content :
  string -> string -> App.payload -> World -> App.tried string * World.
Variable save_png : App.Image -> App.tried string.
Variable enhance : App.Image -> App.tried unit.

Variable image : App.Image.
Variable img_bytes : string.

Hypothesis png_is_made : save_png image = App.Done img_bytes.

(** Every request raises; the error of a first request lets the program go
    on, and the error of a second one does not speak of the quota. *)
Hypothesis down :
  forall model_name request data w,
  exists error w',
    generate_content model_name request data w = (App.Raised error, w') /\
    match data with
    | App.PILImage _ => Trace.transient error
    | App.PNGBytes _ => ~ Trace.quota_like error
    end.

Lemma try_model_down (prompt : string) (is_sequence_diagram : bool)
  (model_name : string) (w : World) :
  exists api_error w' events,
    App.try_model World generate_content save_png image prompt is_sequence_diagram
      model_name w
    = (App.Continue api_error, w', events) /\
    Trace.requests events
    = Trace.all_requests image
        (if is_sequence_diagram then App.specialized_prompt else prompt)
        img_bytes [model_name] /\
    ~ Trace.quota_raised (save_png image) image events.
Proof.
  unfold App.try_model, App.bind, App.generate, App.ret.
  set (sent := if is_sequence_diagram then App.specialized_prompt else prompt).
  destruct (down model_name sent (App.PILImage image) w) as (e1 & w1 & -> & T1).
  pose proof (first_handler_verdict model_name e1) as V1.
  destruct (App.first_handler model_name e1) as [a | a].
  { exfalso. destruct V1 as [[Q _] | [D _]].
    - exact (proj1 T1 Q).
    - exact (transient_not_denied _ T1 D). }
  rewrite png_is_made.
  destruct (down model_name sent (App.PNGBytes img_bytes) w1) as (e2 & w2 & -> & T2).
  pose proof (second_handler_verdict model_name e2) as V2.
  destruct (App.second_handler model_name e2) as [a2 | a2].
  { exfalso. exact (T2 (proj1 V2)). }
  eexists _, _, _. split; [reflexivity |]. split; [reflexivity |].
  intros [(m & p & d & e & [Hin | [Hin | []]] & Q) | (m & p & e & msg & _ & _ & S & _)];
    try discriminate; injection Hin as <- <- <- <-; auto.
  exact (proj1 T1 Q).
Qed.

Lemma try_models_down (prompt : string) (is_sequence_diagram : bool)
  (models : list string) (api_error : option string) (w : World) :
  exists api_error' w' events,
    App.try_models World generate_content save_png image prompt is_sequence_diagram
      models api_error w
    = (App.Exhausted api_error', w', events) /\
    Trace.requests events
    = Trace.all_requests image
        (if is_sequence_diagram then App.specialized_prompt else prompt)
        img_bytes models /\
    ~ Trace.quota_raised (save_png image) image events.
Proof.
  revert api_error w. induction models as [|m models IH]; intros api_error w.
  - eexists _, _, _. split; [reflexivity |]. split; [reflexivity |].
    apply quota_raised_notices. constructor.
  - rewrite try_models_cons.
    destruct (try_model_down prompt is_sequence_diagram m w)
      as (a & w1 & events1 & -> & R1 & Q1).
    destruct (IH (Some a) w1) as (a' & w2 & events2 & -> & R2 & Q2).
    exists a', w2, (events1 ++ events2). split; [reflexivity |].
    split; [rewrite requests_app, R1, R2; reflexivity |].
    rewrite quota_raised_app. tauto.
Qed.

(** X7. When the service is down (every request raises, with an error that
    is no reason to give up) and the image can be converted to PNG, a run
    asks each of the six models twice, in the order of the list, first with
    the image object and then with the PNG bytes: twelve requests.  It then
    returns what it returns without the service, and the page does not
    speak of a quota. *)
Theorem outage_asks_every_model_twice (prompt : string) (file_name : option string)
  (w : World) :
  let run := App.analyze_image World generate_content save_png enhance
               image prompt file_name w in
  Trace.requests (snd run)
  = Trace.all_requests image (Trace.sent image prompt file_name) img_bytes
      App.model_names_to_try /\
  length (Trace.requests (snd run)) = 12%nat /\
  ~ In Trace.quota_error (snd run) /\
  fst (fst run)
  = if Trace.classified image prompt file_name
    then match enhance image with
         | App.Done _ => Some (App.sequence_analysis image)
         | App.Raised _ => None
         end
    else Some (App.basic_analysis image file_name).
Proof.
  cbv zeta.
  assert (Hreq :
    Trace.requests
      (snd (App.analyze_image World generate_content save_png enhance
              image prompt file_name w))
    = Trace.all_requests image (Trace.sent image prompt file_name) img_bytes
        App.model_names_to_try).
  { rewrite analyze_image_requests.
    destruct (try_models_down prompt (Trace.classified image prompt file_name)
                App.model_names_to_try None w) as (a & w1 & events1 & -> & R & _).
    exact R. }
  split; [exact Hreq |]. split; [rewrite Hreq; reflexivity |].
  rewrite analyze_image_run. cbv zeta.
  fold (Trace.classified image prompt file_name).
  set (reason := snd (App.override_detection _ prompt)).
  destruct (try_models_down prompt (Trace.classified image prompt file_name)
              App.model_names_to_try None w) as (a & w1 & events1 & Hloop & R & Hnone).
  rewrite Hloop.
  pose proof (try_models_shape _ _ _ _ _ _ _ _ _ _ _ _ Hloop) as Hshape.
  pose proof (try_models_cause _ _ _ _ _ _ _ None _ _ _ _
                neutral_models eq_refl Hloop) as Hcause.
  cbv beta iota in Hshape, Hcause.
  pose proof (fall_back_events World enhance image prompt file_name
                (Trace.classified image prompt file_name) reason a w1) as E.
  pose proof (fall_back_result World enhance image prompt file_name
                (Trace.classified image prompt file_name) reason a w1) as Hres.
  destruct (App.fall_back _ _ _ _ _ _ _ _ _) as [[result w2] events2].
  cbn [fst snd] in *. split; [| exact Hres].
  intros Hin. apply in_app_or in Hin as [Hin | Hin].
  - exact (refusals_are_requests _ _ Hshape Hin I).
  - rewrite E in Hin. apply in_app_or in Hin as [Hin | Hin].
    + apply quota_error_in_notices in Hin. apply Hcause in Hin. exact (Hnone Hin).
    + destruct (Trace.classified image prompt file_name); [| destruct Hin].
      destruct (enhance image); [destruct Hin |].
      destruct Hin as [Hin | []]. discriminate Hin.
Qed.

End Down.

Lemma outage_is_down (model_name request : string) (data : App.payload)
  (w : Outage.World) :
  exists error w',
    Outage.generate_content model_name request data w = (App.Raised error, w') /\
    match data with
    | App.PILImage _ => Trace.transient error
    | App.PNGBytes _ => ~ Trace.quota_like error
    end.
Proof.
  exists "503 service unavailable", w. split; [reflexivity |].
  assert (Q : ~ Trace.quota_like "503 service unavailable").
  { intros H. apply quota_test in H. vm_compute in H. discriminate H. }
  destruct data; [| exact Q].
  split; [exact Q |]. right.
  intros H. apply permission_test in H. vm_compute in H. discriminate H.
Qed.

Lemma outage_asks_every_model_twice_witness :
  Trace.requests
    (snd (Outage.analyze_image (Script.png 100 100) "Describe this image" None tt))
  = Trace.all_requests (Script.png 100 100) "Describe this image" "PNG"
      App.model_names_to_try.
Proof.
  exact (proj1 (outage_asks_every_model_twice Outage.World Outage.generate_content
                  Script.save_png Script.enhance (Script.png 100 100) "PNG"
                  eq_refl outage_is_down "Describe this image" None tt)).
Defined.

Lemma user_prompt_is_replaced_witness :
  Forall (fun request => snd (fst request) = "Describe this image")
    (Trace.requests
       (snd (Script.analyze_image (Script.png 100 100) "Describe this image"
               (Some "cat.png") Script.missing_twice_then_answer))).
Proof.
  refine (proj2 (proj2 (user_prompt_is_replaced Script.World Script.generate_content
                          Script.save_png Script.enhance (Script.png 100 100)
                          "Describe this image" (Some "cat.png")
                          Script.missing_twice_then_answer 100 100 eq_refl _ _)) _).
  - lia.
  - lia.
  - intros [H | [H | H]].
    + apply name_test_suggests in H. vm_compute in H. discriminate H.
    + apply prompt_test_suggests in H. vm_compute in H. discriminate H.
    + lia.
Defined.

Lemma permission_refusal_ends_run_witness :
  exists earlier notices,
    snd (Script.analyze_image (Script.png 100 100) "Describe this image" None
           [App.Raised "403 Permission denied"; App.Done "A cat on a sofa"])
    = earlier
      ++ [App.GenerateContent "models/gemini-2.5-flash" "Describe this image"
            (App.PILImage (Script.png 100 100)) (App.Raised "403 Permission denied")]
      ++ notices /\
    Forall Spec.is_refusal earlier /\ Forall Spec.is_notice notices /\
    (Trace.classified (Script.png 100 100) "Describe this image" None = false ->
     notices = App.permission_notices ++ [App.providing_basic] /\
     fst (fst (Script.analyze_image (Script.png 100 100) "Describe this image" None
                 [App.Raised "403 Permission denied"; App.Done "A cat on a sofa"]))
     = Some (App.basic_analysis (Script.png 100 100) None)).
Proof.
  assert (D : Trace.denied "403 Permission denied").
  { split; [| split].
    - intros H. apply quota_test in H. vm_compute in H. discriminate H.
    - intros H. apply not_found_test in H. vm_compute in H. discriminate H.
    - apply permission_test. vm_compute. reflexivity. }
  assert (Hin :
    In (App.GenerateContent "models/gemini-2.5-flash" "Describe this image"
          (App.PILImage (Script.png 100 100)) (App.Raised "403 Permission denied"))
      (snd (Script.analyze_image (Script.png 100 100) "Describe this image" None
              [App.Raised "403 Permission denied"; App.Done "A cat on a sofa"]))).
  { vm_compute. left. reflexivity. }
  exact (proj1 (permission_refusal_ends_run Script.World Script.generate_content
                  Script.save_png Script.enhance (Script.png 100 100)
                  "Describe this image" None
                  [App.Raised "403 Permission denied"; App.Done "A cat on a sofa"]
                  "models/gemini-2.5-flash" "Describe this image"
                  "403 Permission denied" Hin D)).
Defined.

(** ** The report and the classifier together *)

Lemma wide_ratio_test (width height : Z) :
  0 <= width < 2 ^ 31 -> 0 <= height < 2 ^ 31 ->
  PrimFloat.ltb 1.5 (App.aspect_ratio width height) = true
  <-> 0 < height /\ 3 * height < 2 * width.
Proof.
  intros Hw Hh. unfold App.aspect_ratio.
  destruct (Z.ltb_spec 0 height) as [Hpos | Hzero].
  - rewrite (proj1 (truediv_thresholds width height Hw ltac:(lia))).
    rewrite Z.ltb_lt. tauto.
  - split; [intros H; vm_compute in H; discriminate H | lia].
Qed.

(** X8. On an image whose sizes are below [2^31], the generic report has
    the line "Wide panoramic format" exactly when the height is positive
    and the width is more than one and a half times the height.  The report
    then calls the image a landscape, good for wide displays, and, as the
    report is only written for an image that is not taken for a sequence
    diagram, the image is at most 150 pixels high. *)
Theorem wide_report_only_for_low_images (image : App.Image) (prompt : string)
  (file_name : option string) (width height : Z) :
  App.size image = (width, height) ->
  0 <= width < 2 ^ 31 -> 0 <= height < 2 ^ 31 ->
  (In "Wide panoramic format"
     (App.recommendations image (App.aspect_ratio width height))
   <-> 0 < height /\ 3 * height < 2 * width) /\
  (In "Wide panoramic format"
     (App.recommendations image (App.aspect_ratio width height)) ->
   App.orientation width height = "Landscape" /\
   App.great_for (App.aspect_ratio width height)
   = "Great for wallpapers/wide displays" /\
   (Trace.classified image prompt file_name = false -> height <= 150)).
Proof.
  intros Hsize Hw Hh.
  pose proof (wide_ratio_test width height Hw Hh) as T.
  assert (Hiff : In "Wide panoramic format"
                   (App.recommendations image (App.aspect_ratio width height))
                 <-> 0 < height /\ 3 * height < 2 * width).
  { rewrite <- T. unfold App.recommendations. rewrite in_app_iff. split.
    - intros [H | H].
      + exfalso.
        destruct (String.eqb (App.mode image) "RGBA");
          [| destruct (String.eqb (App.mode image) "L");
             [| destruct (String.eqb (App.mode image) "CMYK")]];
          simpl in H; try tauto; destruct H as [H | []]; discriminate H.
      + destruct (PrimFloat.ltb 1.5 _); [reflexivity |]. exfalso.
        destruct (PrimFloat.ltb _ 0.7); [| destruct (_ && _)];
          simpl in H; try tauto; destruct H as [H | []]; discriminate H.
    - intros ->. right. left. reflexivity. }
  split; [exact Hiff |].
  intros H. apply Hiff in H. destruct H as [Hpos Hwide].
  split; [| split].
  - unfold App.orientation.
    destruct (Z.ltb_spec height width); [reflexivity | lia].
  - unfold App.great_for. now rewrite (proj2 T (conj Hpos Hwide)).
  - intros C. destruct (Z.le_gt_cases height 150) as [Hle | Hgt]; [exact Hle |].
    exfalso.
    assert (C' : Trace.classified image prompt file_name = true).
    { apply (classified_on_sizes image prompt file_name width height Hsize Hw Hh).
      right. right. lia. }
    congruence.
Qed.

Lemma wide_report_only_for_low_images_witness :
  In "Wide panoramic format"
    (App.recommendations (Script.png 300 100) (App.aspect_ratio 300 100))
  <-> 0 < 100 /\ 3 * 100 < 2 * 300.
Proof.
  refine (proj1 (wide_report_only_for_low_images (Script.png 300 100)
                   "Describe this image" None 300 100 eq_refl _ _)); lia.
Defined.


(** ** [main] *)

Lemma show_result_requests (result : option string) (name : string)
  (e : App.event) :
  ~ In (Main.Analysis e) (Main.show_result result name).
Proof.
  unfold Main.show_result. destruct result as [text |]; [| intros []].
  destruct (Py.truthy text); [| intros []].
  intros [H | [H | [H | []]]]; discriminate H.
Qed.

Lemma truthy_nonempty (s : string) : Py.truthy s = true <-> s <> "".
Proof. destruct s; simpl; split; intros H; congruence. Qed.

Section Page.

Variable World : Type.
Variable generate_content :
  string -> string -> App.payload -> World -> App.tried string * World.
Variable save_png : App.Image -> App.tried string.
Variable enhance : App.Image -> App.tried unit.

Local Abbreviation analyze_image :=
  (App.analyze_image World generate_content save_png enhance).
Local Abbreviation analyze_clicked :=
  (Main.analyze_clicked World generate_content save_png enhance).

(** A run in which a request was answered returns the answer and puts
    nothing on the page. *)
Lemma answer_is_result (image : App.Image) (prompt : string)
  (file_name : option string) (w : World) (m p : string) (d : App.payload)
  (text : string) :
  In (App.GenerateContent m p d (App.Done text))
    (snd (analyze_image image prompt file_name w)) ->
  fst (fst (analyze_image image prompt file_name w)) = Some text /\
  Forall (fun e => ~ Spec.is_notice e) (snd (analyze_image image prompt file_name w)).
Proof.
  rewrite analyze_image_run. cbv zeta.
  destruct (App.try_models _ _ _ image prompt _ App.model_names_to_try None w)
    as [[how w1] events1] eqn:Hloop.
  apply try_models_shape in Hloop.
  destruct how as [text' | api_error | api_error].
  - cbn [fst snd]. rewrite List.app_nil_r.
    destruct Hloop as (_ & m' & _ & earlier & data & _ & -> & Hearlier & _).
    intros Hin. apply in_app_or in Hin as [Hin | [Hin | []]].
    + exfalso. exact (answer_among_refusals _ _ _ _ _ Hearlier Hin).
    + injection Hin as _ _ _ ->. split; [reflexivity |].
      apply Forall_app. split.
      * rewrite List.Forall_forall. intros e He.
        exact (refusals_are_requests _ _ Hearlier He).
      * repeat constructor. auto.
  - pose proof (fall_back_notices World enhance image prompt file_name
                  (fst (App.override_detection
                          (App.detect_sequence_diagram image file_name) prompt))
                  (snd (App.override_detection
                          (App.detect_sequence_diagram image file_name) prompt))
                  api_error w1) as N.
    destruct (App.fall_back _ _ _ _ _ _ _ _ _) as [[result w2] events2].
    cbn [fst snd] in *. intros Hin. exfalso.
    apply in_app_or in Hin as [Hin | Hin].
    + exact (answer_among_refusals _ _ _ _ _ Hloop Hin).
    + exact (answer_among_notices _ _ _ _ _ N Hin).
  - pose proof (fall_back_notices World enhance image prompt file_name
                  (fst (App.override_detection
                          (App.detect_sequence_diagram image file_name) prompt))
                  (snd (App.override_detection
                          (App.detect_sequence_diagram image file_name) prompt))
                  api_error w1) as N.
    destruct (App.fall_back _ _ _ _ _ _ _ _ _) as [[result w2] events2].
    cbn [fst snd] in *. intros Hin. exfalso.
    apply in_app_or in Hin as [Hin | Hin].
    + exact (answer_among_refusals _ _ _ _ _ Hloop Hin).
    + exact (answer_among_notices _ _ _ _ _ N Hin).
Qed.

Lemma analyze_clicked_events (image : App.Image) (prompt name : string) (w : World) :
  snd (analyze_clicked image prompt name w)
  = map Main.Analysis (snd (analyze_image image prompt (Some name) w))
    ++ Main.show_result (fst (fst (analyze_image image prompt (Some name) w))) name.
Proof.
  unfold Main.analyze_clicked.
  destruct (analyze_image image prompt (Some name) w) as [[result w'] events].
  reflexivity.
Qed.

(** X9. The page shows a result exactly when [analyze_image] returned a
    text that is not empty, and then it shows that text and offers the same
    text for download.  In particular an empty answer of a model is lost
    without a word: the requests are all there is, no result and no notice
    of any kind. *)
Theorem empty_answer_shows_nothing (image : App.Image) (prompt name : string)
  (w : World) :
  let result := fst (fst (analyze_image image prompt (Some name) w)) in
  let page := snd (analyze_clicked image prompt name w) in
  (forall text,
     In (Main.StWrite text) page <-> result = Some text /\ text <> "") /\
  (forall label data file_name mime,
     In (Main.StDownloadButton label data file_name mime) page ->
     In (Main.StWrite data) page /\
     file_name = "image_analysis_" +:+ name +:+ ".txt") /\
  (forall model_name request data,
     In (Main.Analysis
           (App.GenerateContent model_name request data (App.Done ""))) page ->
     Forall (fun e => exists m p d r, e = Main.Analysis (App.GenerateContent m p d r))
       page).
Proof.
  cbv zeta. rewrite analyze_clicked_events.
  set (run := analyze_image image prompt (Some name) w).
  assert (Hmap : forall e, In e (map Main.Analysis (snd run)) ->
                           exists a, e = Main.Analysis a /\ In a (snd run)).
  { intros e He. apply in_map_iff in He as (a & <- & Ha). eauto. }
  split; [| split].
  - intros text. rewrite in_app_iff. split.
    + intros [H | H]; [apply Hmap in H as (a & E & _); discriminate E |].
      unfold Main.show_result in H.
      destruct (fst (fst run)) as [text' |]; [| destruct H].
      destruct (Py.truthy text') eqn:T; [| destruct H].
      destruct H as [H | [H | [H | []]]]; try discriminate H.
      injection H as ->. split; [reflexivity | now apply truthy_nonempty].
    + intros [-> Hne]. right. unfold Main.show_result.
      apply truthy_nonempty in Hne. rewrite Hne. right. left. reflexivity.
  - intros label data file_name mime H.
    apply in_app_or in H as [H | H]; [apply Hmap in H as (a & E & _); discriminate E |].
    unfold Main.show_result in *.
    destruct (fst (fst run)) as [text' |]; [| destruct H].
    destruct (Py.truthy text') eqn:T; [| destruct H].
    destruct H as [H | [H | [H | []]]]; try discriminate H.
    injection H as _ -> -> _. split; [| reflexivity].
    apply in_or_app. right. right. left. reflexivity.
  - intros m p d H.
    apply in_app_or in H as [H | H]; [| exfalso; exact (show_result_requests _ _ _ H)].
    apply Hmap in H as (a & E & Ha). injection E as <-.
    destruct (answer_is_result image prompt (Some name) w m p d "" Ha) as [R Hreq].
    fold run in R, Hreq. rewrite R. cbn [Main.show_result Py.truthy].
    rewrite List.app_nil_r. rewrite List.Forall_forall in *.
    intros e He. apply Hmap in He as (a & -> & Ha').
    specialize (Hreq a Ha'). destruct a; simpl in Hreq; try tauto.
    repeat eexists.
Qed.

End Page.

Lemma prompt_override_classifies (image : App.Image) (prompt : string)
  (file_name : option string) :
  App.prompt_suggests_seq prompt = true ->
  Trace.classified image prompt file_name = true.
Proof.
  intros H. unfold Trace.classified, App.override_detection. rewrite H.
  destruct (App.detect_sequence_diagram image file_name) as [[|] reason]; reflexivity.
Qed.

(** X10. Of the eleven prompts of the selection box, the last three, and
    only they, contain a keyword of the override.  Selecting one of them
    makes every image a sequence diagram, whatever its name and shape, and
    the selected text is then not sent at all: every request carries the
    fixed prompt about sequence diagrams. *)
Theorem diagram_prompts_are_never_sent (World : Type)
  (generate_content : string -> string -> App.payload -> World -> App.tried string * World)
  (save_png : App.Image -> App.tried string) (enhance : App.Image -> App.tried unit)
  (image : App.Image) (name prompt_option custom_prompt : string) (w : World) :
  In prompt_option Main.predefined_prompts ->
  let prompt := Main.choose_prompt prompt_option custom_prompt in
  prompt = prompt_option /\
  (App.prompt_suggests_seq prompt = true
   <-> In prompt_option (skipn 8 Main.predefined_prompts)) /\
  (In prompt_option (skipn 8 Main.predefined_prompts) ->
   prompt <> App.specialized_prompt /\
   Forall (fun request => snd (fst request) = App.specialized_prompt)
     (Trace.requests
        (snd (App.analyze_image World generate_content save_png enhance
                image prompt (Some name) w)))).
Proof.
  intros Hin. cbv zeta.
  assert (E : Main.choose_prompt prompt_option custom_prompt = prompt_option).
  { unfold Main.predefined_prompts in Hin. simpl in Hin.
    repeat (destruct Hin as [<- | Hin]; [reflexivity |]). destruct Hin. }
  rewrite E.
  assert (Hiff : App.prompt_suggests_seq prompt_option = true
                 <-> In prompt_option (skipn 8 Main.predefined_prompts)).
  { unfold Main.predefined_prompts in *. cbn [skipn].
    simpl in Hin.
    repeat (destruct Hin as [<- | Hin];
            [split;
             [intros H; vm_compute in H; first [discriminate H | simpl; tauto]
             | intros H; first [reflexivity
                               | simpl in H;
                                 repeat (destruct H as [H | H]; [discriminate H |]);
                                 destruct H]] |]).
    destruct Hin. }
  split; [reflexivity |]. split; [exact Hiff |].
  intros Hlast. split.
  - unfold Main.predefined_prompts in Hlast. cbn [skipn] in Hlast.
    repeat (destruct Hlast as [<- | Hlast]; [discriminate |]). destruct Hlast.
  - apply Hiff in Hlast.
    rewrite analyze_image_requests.
    pose proof (in_order_prompts _ _ _ _ _
                  (try_models_in_order World generate_content save_png image
                     prompt_option
                     (Trace.classified image prompt_option (Some name))
                     App.model_names_to_try None w)) as P.
    rewrite (prompt_override_classifies image prompt_option (Some name) Hlast) in *.
    exact P.
Qed.

Lemma diagram_prompts_are_never_sent_witness :
  Forall (fun request => snd (fst request) = App.specialized_prompt)
    (Trace.requests
       (snd (Script.analyze_image (Script.png 100 100)
               "Extract all text and labels from this diagram" (Some "cat.png")
               Script.missing_twice_then_answer))).
Proof.
  refine (proj2 (proj2 (proj2
            (diagram_prompts_are_never_sent Script.World Script.generate_content
               Script.save_png Script.enhance (Script.png 100 100) "cat.png"
               "Extract all text and labels from this diagram" ""
               Script.missing_twice_then_answer _)) _)).
  - simpl. tauto.
  - simpl. tauto.
Defined.

(** ** The image that [main] hands over *)

Section Prepared.

Variable flatten : App.Image -> App.tried App.Image.
Variable convert_rgb : App.Image -> App.tried App.Image.

(** What the library promises of the images it makes: the mode asked for,
    the size of the original, and no format. *)
Hypothesis flatten_makes :
  forall image made,
    flatten image = App.Done made ->
    App.mode made = "RGB" /\ App.size made = App.size image /\ App.format made = None.
Hypothesis convert_makes :
  forall image made,
    convert_rgb image = App.Done made ->
    App.mode made = "RGB" /\ App.size made = App.size image /\ App.format made = None.

(** X11. The image that [main] passes to [analyze_image] has mode RGB or L
    and the size of the upload.  So the generic report never has the lines
    "Has transparent background" and "Optimized for printing", and never
    says "Unknown mode"; and for an upload of any mode other than RGB and L
    the image has lost its format: the report calls the format "Unknown"
    and the compression "Lossy", also for a PNG file. *)
Theorem prepared_image_modes (opened : App.tried App.Image)
  (original image : App.Image) (ratio : float) :
  opened = App.Done original ->
  Main.prepare flatten convert_rgb opened = App.Done image ->
  (App.mode image = "RGB" \/ App.mode image = "L") /\
  App.size image = App.size original /\
  (App.color_info image = "Color image (Red, Green, Blue)"
   \/ App.color_info image = "Grayscale (Black and White)") /\
  ~ In "Has transparent background" (App.recommendations image ratio) /\
  ~ In "Optimized for printing" (App.recommendations image ratio) /\
  (App.mode original <> "RGB" -> App.mode original <> "L" ->
   App.format_or_unknown image = "Unknown" /\
   App.format_in image ["PNG"; "BMP"; "TIFF"] = false /\
   App.perfect_for image = "General use").
Proof.
  intros -> Hprep.
  assert (Hcases :
    (image = original /\ (App.mode original = "RGB" \/ App.mode original = "L")) \/
    (App.mode image = "RGB" /\ App.size image = App.size original /\
     App.format image = None)).
  { unfold Main.prepare in Hprep.
    destruct (String.eqb (App.mode original) "RGBA") eqn:Ergba.
    - right. exact (flatten_makes _ _ Hprep).
    - destruct (Py.list_in (App.mode original) ["RGB"; "L"]) eqn:Elist; simpl in Hprep.
      + left. injection Hprep as <-. split; [reflexivity |].
        apply list_in_In in Elist.
        destruct Elist as [E | [E | []]]; rewrite <- E; auto.
      + right. exact (convert_makes _ _ Hprep). }
  assert (Hmode : App.mode image = "RGB" \/ App.mode image = "L").
  { destruct Hcases as [[-> H] | [H _]]; [exact H | left; exact H]. }
  assert (Hsize : App.size image = App.size original).
  { destruct Hcases as [[-> _] | [_ [H _]]]; [reflexivity | exact H]. }
  split; [exact Hmode |]. split; [exact Hsize |].
  split; [| split; [| split]].
  - unfold App.color_info.
    destruct Hmode as [-> | ->]; [left | right]; vm_compute; reflexivity.
  - unfold App.recommendations. rewrite in_app_iff.
    intros [H | H].
    + destruct Hmode as [E | E]; rewrite E in H; simpl in H;
        [destruct H | destruct H as [H | []]; discriminate H].
    + destruct (PrimFloat.ltb 1.5 ratio); [| destruct (PrimFloat.ltb ratio 0.7);
        [| destruct (_ && _)]]; simpl in H; try tauto;
        destruct H as [H | []]; discriminate H.
  - unfold App.recommendations. rewrite in_app_iff.
    intros [H | H].
    + destruct Hmode as [E | E]; rewrite E in H; simpl in H;
        [destruct H | destruct H as [H | []]; discriminate H].
    + destruct (PrimFloat.ltb 1.5 ratio); [| destruct (PrimFloat.ltb ratio 0.7);
        [| destruct (_ && _)]]; simpl in H; try tauto;
        destruct H as [H | []]; discriminate H.
  - intros Hrgb Hl.
    destruct Hcases as [[_ [H | H]] | (_ & _ & Hformat)]; try contradiction.
    unfold App.format_or_unknown, App.perfect_for, App.format_in.
    rewrite Hformat. repeat split.
Qed.

End Prepared.

Lemma prepared_image_modes_witness :
  App.format_or_unknown
    (Pillow.new_rgb (800, 600)) = "Unknown".
Proof.
  refine (proj1 ((proj2 (proj2 (proj2 (proj2 (proj2
            (prepared_image_modes Pillow.flatten Pillow.convert_rgb _ _
               (App.Done {| App.size := (800, 600); App.mode := "RGBA";
                            App.format := Some "PNG"; App.bits := None |})
               {| App.size := (800, 600); App.mode := "RGBA";
                  App.format := Some "PNG"; App.bits := None |}
               (Pillow.new_rgb (800, 600)) 1.5%float eq_refl eq_refl)))))) _ _)).
  - intros image made [= <-]. repeat split.
  - intros image made [= <-]. repeat split.
  - discriminate.
  - discriminate.
Defined.

(** ** The setup test *)

Lemma key_is_set_test (m : Setup.Machine) :
  Setup.key_is_set m
  <-> match Setup.api_key m with
      | Some key => Py.truthy key && negb (String.eqb key "your_google_api_key_here") = true
      | None => False
      end.
Proof.
  unfold Setup.key_is_set. destruct (Setup.api_key m) as [key |].
  - rewrite andb_true_iff, negb_true_iff, String.eqb_neq, truthy_nonempty. split.
    + intros (k & [= <-] & H1 & H2). auto.
    + intros [H1 H2]. exists key. auto.
  - split; [intros (k & E & _); discriminate E | intros []].
Qed.

(** X12. How the setup test ends.  It exits with 0 exactly when the four
    packages can be imported, the file [.env] exists and the key is set to
    something other than the empty string and the placeholder.  It ends in
    a traceback, before the summary is printed, exactly when [.env] exists
    and python-dotenv is missing.  In every other case it exits with 1. *)
Theorem setup_test_ending (m : Setup.Machine) :
  (fst (Setup.script m) = Setup.Exit 0
   <-> Setup.has_streamlit m = true /\ Setup.has_genai m = true /\
       Setup.has_pil m = true /\ Setup.has_dotenv m = true /\
       Setup.env_file m = true /\ Setup.key_is_set m) /\
  (fst (Setup.script m) = Setup.Traceback "No module named 'dotenv'"
   <-> Setup.env_file m = true /\ Setup.has_dotenv m = false) /\
  (fst (Setup.script m) = Setup.Traceback "No module named 'dotenv'" ->
   forall line, In line (snd (Setup.script m)) ->
                String.prefix "✗ Some checks failed" line = false /\
                String.prefix "✓ All checks passed" line = false) /\
  (fst (Setup.script m) = Setup.Exit 0
   \/ fst (Setup.script m) = Setup.Exit 1
   \/ fst (Setup.script m) = Setup.Traceback "No module named 'dotenv'").
Proof.
  pose proof (key_is_set_test m) as K.
  destruct m as [s g p d e key]. cbn [Setup.api_key] in K.
  unfold Setup.script, Setup.main, Setup.check_imports, Setup.check_env_file.
  cbn [Setup.has_streamlit Setup.has_genai Setup.has_pil Setup.has_dotenv
       Setup.env_file Setup.api_key].
  destruct e; cycle 1.
  { (* no .env file *)
    destruct s, g, p, d; cbn [negb fst snd andb];
      (split; [split; [discriminate | intros (_ & _ & _ & _ & H & _); discriminate H] |]);
      (split; [split; [discriminate | intros [H _]; discriminate H] |]);
      (split; [discriminate | auto]). }
  destruct d; cycle 1.
  { (* .env is there, python-dotenv is not *)
    destruct s, g, p; cbn [negb fst snd andb];
      (split; [split; [discriminate | intros (_ & _ & _ & H & _); discriminate H] |]);
      (split; [split; [auto | reflexivity] |]);
      (split; [| auto]);
      intros _ line Hin; simpl in Hin;
      repeat (destruct Hin as [<- | Hin]; [split; reflexivity |]);
      destruct Hin. }
  cbn [negb].
  assert (Hkey :
    match key with
    | Some k => Py.truthy k && negb (String.eqb k "your_google_api_key_here")
    | None => false
    end = true <-> Setup.key_is_set
                     {| Setup.has_streamlit := s; Setup.has_genai := g;
                        Setup.has_pil := p; Setup.has_dotenv := true;
                        Setup.env_file := true; Setup.api_key := key |}).
  { rewrite K. destruct key; [reflexivity | split; [discriminate | intros []]]. }
  destruct key as [k |];
    [destruct (Py.truthy k && negb (String.eqb k "your_google_api_key_here")) |];
    destruct s, g, p; cbn [negb fst snd andb];
    (split; [split; [first [discriminate | intros _; repeat split; apply Hkey; reflexivity]
                    | first [reflexivity
                            | intros (H1 & H2 & H3 & _ & _ & H6);
                              first [discriminate H1 | discriminate H2 | discriminate H3
                                    | apply Hkey in H6; discriminate H6]]] |]);
    (split; [split; [discriminate | intros [_ H]; discriminate H] |]);
    (split; [discriminate | auto]).
Qed.

(** X13. [check_imports] answers yes exactly when the four packages are
    there, and it stops at the first one that is missing: whatever else is
    missing, one failure is reported, and nothing is said of the packages
    after it. *)
Theorem imports_report_first_failure (m : Setup.Machine) :
  fst (Setup.check_imports m)
  = Setup.has_streamlit m && Setup.has_genai m && Setup.has_pil m
    && Setup.has_dotenv m /\
  length (filter Setup.is_failure (snd (Setup.check_imports m)))
  = (if fst (Setup.check_imports m) then 0 else 1)%nat /\
  (exists checked,
     snd (Setup.check_imports m) = "Checking imports..." :: checked /\
     length checked
     = (if negb (Setup.has_streamlit m) then 1
        else if negb (Setup.has_genai m) then 2
        else if negb (Setup.has_pil m) then 3
        else 4)%nat).
Proof.
  destruct m as [s g p d e key]. unfold Setup.check_imports.
  cbn [Setup.has_streamlit Setup.has_genai Setup.has_pil Setup.has_dotenv].
  destruct s, g, p, d; cbn [negb fst snd andb];
    (split; [reflexivity |]); (split; [vm_compute; reflexivity |]);
    eexists; (split; [reflexivity | reflexivity]).
Qed.

(** X14. The setup test and the application read the same key but do not
    ask the same of it.  A machine that passes the setup test gets past
    [configure_genai] without a notice.  The other way round, with the
    packages and the file [.env] in place, the application accepts a key
    that the setup test rejects in one case only: the placeholder. *)
Theorem setup_test_is_stricter_than_app (m : Setup.Machine) :
  (fst (Setup.script m) = Setup.Exit 0 ->
   Config.configure_genai (Setup.api_key m) = (true, [])) /\
  (Setup.has_streamlit m = true -> Setup.has_genai m = true ->
   Setup.has_pil m = true -> Setup.has_dotenv m = true ->
   Setup.env_file m = true ->
   (fst (Config.configure_genai (Setup.api_key m)) = true /\
    fst (Setup.script m) = Setup.Exit 1
    <-> Setup.api_key m = Some "your_google_api_key_here")).
Proof.
  destruct m as [s g p d e key]. split.
  - unfold Setup.script, Setup.main, Setup.check_imports, Setup.check_env_file,
      Config.configure_genai.
    cbn [Setup.has_streamlit Setup.has_genai Setup.has_pil Setup.has_dotenv
         Setup.env_file Setup.api_key].
    destruct e; [destruct d |]; cycle 1.
    + destruct s, g, p; cbn [negb fst snd andb]; discriminate.
    + destruct s, g, p, d; cbn [negb fst snd andb]; discriminate.
    + cbn [negb]. destruct key as [k |].
      * destruct (Py.truthy k); cbn [andb]; [reflexivity |].
        destruct s, g, p; cbn [negb fst snd andb]; discriminate.
      * destruct s, g, p; cbn [negb fst snd andb]; discriminate.
  - cbn [Setup.has_streamlit Setup.has_genai Setup.has_pil Setup.has_dotenv
         Setup.env_file Setup.api_key].
    intros -> -> -> -> ->.
    unfold Setup.script, Setup.main, Setup.check_imports, Setup.check_env_file,
      Config.configure_genai.
    cbn [Setup.has_streamlit Setup.has_genai Setup.has_pil Setup.has_dotenv
         Setup.env_file Setup.api_key negb].
    destruct key as [k |]; [| cbn [fst]; split; [intros [H _] | intros H]; discriminate H].
    destruct (Py.truthy k) eqn:T; cbn [andb].
    + destruct (String.eqb_spec k "your_google_api_key_here") as [-> | Hne];
        cbn [negb fst snd andb].
      * split; [reflexivity | split; reflexivity].
      * split; [intros [_ H]; discriminate H | intros [= H]; contradiction].
    + cbn [fst]. split; [intros [H _]; discriminate H |].
      intros [= ->]. discriminate T.
Qed.

Lemma setup_test_is_stricter_than_app_witness :
  Config.configure_genai (Some "AIzaSyExampleKey") = (true, []).
Proof.
  refine (proj1 (setup_test_is_stricter_than_app
                   {| Setup.has_streamlit := true; Setup.has_genai := true;
                      Setup.has_pil := true; Setup.has_dotenv := true;
                      Setup.env_file := true;
                      Setup.api_key := Some "AIzaSyExampleKey" |}) _).
  reflexivity.
Defined.

(** ** The probe of the models *)

Lemma probe_requests_app (events1 events2 : list Probe.event) :
  Probe.requests (events1 ++ events2)
  = Probe.requests events1 ++ Probe.requests events2.
Proof.
  induction events1 as [|[line | m r] events1 IH]; simpl; now rewrite ?IH.
Qed.

Lemma listed_lines_requests (models : list Probe.Listed) :
  Probe.requests (Probe.listed_lines models) = [].
Proof.
  unfold Probe.listed_lines.
  induction (filter _ models) as [|m ms IH]; [reflexivity | exact IH].
Qed.

Section Probing.

Variable World : Type.
Variable configure : string -> App.tried unit.
Variable listing : list Probe.Listed * option string.
Variable generate_content : string -> World -> App.tried string * World.

Local Abbreviation probe := (Probe.probe World generate_content).
Local Abbreviation script := (Probe.script World configure listing generate_content).

(** The loop asks the models of a prefix of its list, one request each;
    all the requests but the last raised, and the last one raised only if
    the list is used up. *)
Lemma probe_requests (models : list string) (w : World) :
  exists left_out,
    models = map fst (Probe.requests (snd (probe models w))) ++ left_out /\
    ((Forall Probe.raised (Probe.requests (snd (probe models w))) /\ left_out = [])
     \/ exists earlier model_name text,
          Probe.requests (snd (probe models w))
          = earlier ++ [(model_name, App.Done text)] /\
          Forall Probe.raised earlier).
Proof.
  revert w. induction models as [|m models IH]; intros w.
  - exists []. split; [reflexivity |]. left. split; constructor.
  - cbn [Probe.probe].
    destruct (generate_content m w) as [[text | message] w1].
    + exists models. split; [reflexivity |].
      right. exists [], m, text. split; [reflexivity | constructor].
    + specialize (IH w1). destruct (probe models w1) as [w2 events].
      cbn [snd] in *. destruct IH as (left_out & Hsplit & Hshape).
      exists left_out. cbn [Probe.requests app map fst].
      split; [now rewrite Hsplit at 1 |].
      assert (R : Probe.raised (m, App.Raised message)) by (eexists; reflexivity).
      destruct Hshape as [[Hall ->] | (earlier & m' & text & -> & Hearlier)].
      * left. split; [constructor; assumption | reflexivity].
      * right. exists ((m, App.Raised message) :: earlier), m', text.
        split; [reflexivity | constructor; assumption].
Qed.

Lemma probe_first_request (model_name : string) (models : list string) (w : World) :
  Probe.requests (snd (probe (model_name :: models) w)) <> [].
Proof.
  cbn [Probe.probe].
  destruct (generate_content model_name w) as [[text | message] w1]; [discriminate |].
  destruct (probe models w1) as [w2 events]. discriminate.
Qed.

(** The requests of the script are those of its loop, if it comes to it. *)
Lemma script_requests (api_key : option string) (w : World) :
  Probe.requests (snd (script api_key w))
  = match api_key with
    | Some key =>
        if Py.truthy key
        then match configure key, snd listing with
             | App.Done _, None => Probe.requests (snd (probe Probe.model_names w))
             | _, _ => []
             end
        else []
    | None => []
    end.
Proof.
  unfold Probe.script.
  destruct api_key as [key |]; [| reflexivity].
  destruct (Py.truthy key); [| reflexivity].
  destruct (configure key) as [[] | message]; [| reflexivity].
  destruct (snd listing) as [message |].
  - cbn [snd]. rewrite !probe_requests_app, listed_lines_requests. reflexivity.
  - destruct (probe Probe.model_names w) as [w' events]. cbn [snd].
    rewrite !probe_requests_app, listed_lines_requests. reflexivity.
Qed.

(** X15. The probe stops at the first model that answers.  The models that
    are sent a request are the first ones of the list of five, in its
    order and once each; a request that was answered is the last one, and
    every request before it raised. *)
Theorem probe_stops_at_first_answer (api_key : option string) (w : World) :
  let sent := Probe.requests (snd (script api_key w)) in
  (exists left_out, Probe.model_names = map fst sent ++ left_out) /\
  (length sent <= 5)%nat /\
  (forall earlier model_name text later,
     sent = earlier ++ (model_name, App.Done text) :: later ->
     later = [] /\ Forall Probe.raised earlier).
Proof.
  cbv zeta. rewrite script_requests.
  assert (Hnone :
    (exists left_out, Probe.model_names = map fst (@nil (string * App.tried string)) ++ left_out) /\
    (length (@nil (string * App.tried string)) <= 5)%nat /\
    (forall earlier model_name text later,
       @nil (string * App.tried string) = earlier ++ (model_name, App.Done text) :: later ->
       later = [] /\ Forall Probe.raised earlier)).
  { split; [exists Probe.model_names; reflexivity |]. split; [simpl; lia |].
    intros [|? ?] ? ? ? H; discriminate H. }
  destruct api_key as [key |]; [| exact Hnone].
  destruct (Py.truthy key); [| exact Hnone].
  destruct (configure key) as [[] | message]; [| exact Hnone].
  destruct (snd listing) as [message |]; [exact Hnone |].
  destruct (probe_requests Probe.model_names w) as (left_out & Hsplit & Hshape).
  split; [exists left_out; exact Hsplit |].
  split.
  { apply (f_equal (@length string)) in Hsplit.
    rewrite length_app, length_map in Hsplit.
    change (length Probe.model_names) with 5%nat in Hsplit. lia. }
  intros earlier m text later E.
  assert (Hno : forall rs, Forall Probe.raised rs -> ~ In (m, App.Done text) rs).
  { intros rs Hrs Hin. rewrite List.Forall_forall in Hrs.
    destruct (Hrs _ Hin) as [message H]. discriminate H. }
  destruct Hshape as [[Hall _] | (earlier' & m' & text' & E' & Hearlier)].
  - exfalso. apply (Hno _ Hall). rewrite E. apply in_or_app. right. left. reflexivity.
  - rewrite E' in E.
    destruct later as [|l later].
    + apply app_inj_tail in E as [<- _]. split; [reflexivity | exact Hearlier].
    + exfalso. apply (Hno _ Hearlier).
      assert (E2 : earlier' ++ [(m', App.Done text')]
                   = (earlier ++ (m, App.Done text) :: List.removelast (l :: later))
                     ++ [List.last (l :: later) l]).
      { rewrite E, <- List.app_assoc. f_equal. cbn [app]. f_equal.
        apply List.app_removelast_last. discriminate. }
      apply app_inj_tail in E2 as [-> _].
      apply in_or_app. right. left. reflexivity.
Qed.

(** X16. The script sends a request only when there is a key that is not
    empty, [genai.configure] accepts it and the models can be listed to the
    end; and then it sends at least one.  In particular no model is probed
    when listing the models fails. *)
Theorem probe_needs_key_and_listing (api_key : option string) (w : World) :
  Probe.requests (snd (script api_key w)) <> []
  <-> exists key,
        api_key = Some key /\ key <> "" /\ configure key = App.Done tt /\
        snd listing = None.
Proof.
  rewrite script_requests. split.
  - destruct api_key as [key |]; [| intros H; contradiction].
    destruct (Py.truthy key) eqn:T; [| intros H; contradiction].
    destruct (configure key) as [[] | message] eqn:C; [| intros H; contradiction].
    destruct (snd listing) as [message |] eqn:L; [intros H; contradiction |].
    intros _. exists key.
    split; [reflexivity |]. split; [now apply truthy_nonempty |].
    split; [exact C | reflexivity].
  - intros (key & -> & Hne & -> & ->).
    apply truthy_nonempty in Hne. rewrite Hne.
    apply probe_first_request.
Qed.

End Probing.

(** ** The classifier and the fallback as functions of their inputs *)

Lemma same_descriptor_same_image (decoder_bits : option string -> option Z)
  (image1 image2 : App.Image) :
  Spec.same_descriptor image1 image2 ->
  Spec.decoded_by decoder_bits image1 -> Spec.decoded_by decoder_bits image2 ->
  image1 = image2.
Proof.
  destruct image1 as [size1 mode1 format1 bits1], image2 as [size2 mode2 format2 bits2].
  unfold Spec.same_descriptor, Spec.decoded_by. cbn.
  intros (-> & -> & ->) -> ->. reflexivity.
Qed.

Section Unanswered.

Variable World : Type.
Variable generate_content :
  string -> string -> App.payload -> World -> App.tried string * World.
Variable save_png : App.Image -> App.tried string.
Variable enhance : App.Image -> App.tried unit.

(** A run without an answer returns what follows the loop. *)
Lemma unanswered_result (image : App.Image) (prompt : string)
  (file_name : option string) (w : World) :
  Spec.unanswered
    (snd (App.analyze_image World generate_content save_png enhance
            image prompt file_name w)) ->
  fst (fst (App.analyze_image World generate_content save_png enhance
              image prompt file_name w))
  = if Trace.classified image prompt file_name
    then match enhance image with
         | App.Done _ => Some (App.sequence_analysis image)
         | App.Raised _ => None
         end
    else Some (App.basic_analysis image file_name).
Proof.
  rewrite analyze_image_run. cbv zeta.
  fold (Trace.classified image prompt file_name).
  destruct (App.try_models _ _ _ image prompt _ App.model_names_to_try None w)
    as [[how w1] events1] eqn:Hloop.
  apply try_models_shape in Hloop.
  destruct how as [text | api_error | api_error].
  - intros U. exfalso.
    destruct Hloop as (_ & model_name & _ & earlier & data & _ & -> & _).
    apply (U model_name
             (if Trace.classified image prompt file_name
              then App.specialized_prompt else prompt) data text).
    cbn [snd]. apply in_or_app. left. apply in_or_app. right. left. reflexivity.
  - intros _.
    pose proof (fall_back_result World enhance image prompt file_name
                  (Trace.classified image prompt file_name)
                  (snd (App.override_detection
                          (App.detect_sequence_diagram image file_name) prompt))
                  api_error w1) as R.
    destruct (App.fall_back _ _ _ _ _ _ _ _ _) as [[result w2] events2]. exact R.
  - intros _.
    pose proof (fall_back_result World enhance image prompt file_name
                  (Trace.classified image prompt file_name)
                  (snd (App.override_detection
                          (App.detect_sequence_diagram image file_name) prompt))
                  api_error w1) as R.
    destruct (App.fall_back _ _ _ _ _ _ _ _ _) as [[result w2] events2]. exact R.
Qed.

End Unanswered.

(** C9.  The classifier is a function of the file name, the width and the
    height: the colour mode, the format and the rest of the image play no
    part.

    The fallback is a function of the descriptor of the image (width,
    height, colour mode, format, file name) and of the answer of the
    classifier.  Take two runs on images with the same descriptor, as the
    library decodes them, and let everything else differ: the remote
    service and its state, the prompt, the reason, the last error, the
    enhancement.  For an image that is not taken for a sequence diagram
    both return the same report, and never nothing.  For one that is, the
    text is the same whenever both have one, and they return the same
    whenever the enhancement ends alike in both.  The same holds of two
    whole runs of [analyze_image] in which no request is answered and the
    classifier, with the prompt, gives the same answer.

    The report prints [bits], which is no part of the descriptor; it is
    the decoder that sets it, from the file format alone, and this is what
    [Spec.decoded_by] asks of the two images. *)
Theorem same_inputs_same_outputs :
  (forall image1 image2 file_name,
     App.size image1 = App.size image2 ->
     App.detect_sequence_diagram image1 file_name
     = App.detect_sequence_diagram image2 file_name) /\
  (forall decoder_bits image1 image2 file_name is_sequence_diagram
          World1 World2 enhance1 enhance2 prompt1 prompt2
          reason1 reason2 api_error1 api_error2 w1 w2,
     Spec.same_descriptor image1 image2 ->
     Spec.decoded_by decoder_bits image1 -> Spec.decoded_by decoder_bits image2 ->
     let result1 :=
       fst (fst (App.fall_back World1 enhance1 image1 prompt1 file_name
                   is_sequence_diagram reason1 api_error1 w1)) in
     let result2 :=
       fst (fst (App.fall_back World2 enhance2 image2 prompt2 file_name
                   is_sequence_diagram reason2 api_error2 w2)) in
     (is_sequence_diagram = false -> result1 = result2 /\ result1 <> None) /\
     (Spec.same_ending (enhance1 image1) (enhance2 image2) -> result1 = result2) /\
     (forall text1 text2,
        result1 = Some text1 -> result2 = Some text2 -> text1 = text2)) /\
  (forall decoder_bits image1 image2 file_name prompt1 prompt2
          World1 World2 generate_content1 generate_content2 save_png1 save_png2
          enhance1 enhance2 w1 w2,
     Spec.same_descriptor image1 image2 ->
     Spec.decoded_by decoder_bits image1 -> Spec.decoded_by decoder_bits image2 ->
     Trace.classified image1 prompt1 file_name
     = Trace.classified image2 prompt2 file_name ->
     let run1 := App.analyze_image World1 generate_content1 save_png1 enhance1
                   image1 prompt1 file_name w1 in
     let run2 := App.analyze_image World2 generate_content2 save_png2 enhance2
                   image2 prompt2 file_name w2 in
     Spec.unanswered (snd run1) -> Spec.unanswered (snd run2) ->
     Spec.same_ending (enhance1 image1) (enhance2 image2) ->
     fst (fst run1) = fst (fst run2)).
Proof.
  split; [| split].
  - intros image1 image2 file_name H. unfold App.detect_sequence_diagram.
    rewrite H. reflexivity.
  - intros decoder_bits image1 image2 file_name is_sequence_diagram
      World1 World2 enhance1 enhance2 prompt1 prompt2
      reason1 reason2 api_error1 api_error2 w1 w2 Hdesc Hd1 Hd2.
    rewrite <- (same_descriptor_same_image decoder_bits image1 image2 Hdesc Hd1 Hd2).
    cbv zeta. rewrite !fall_back_result.
    destruct is_sequence_diagram.
    + split; [discriminate |]. split.
      * unfold Spec.same_ending.
        destruct (enhance1 image1), (enhance2 image1);
          intros H; first [reflexivity | contradiction].
      * intros text1 text2.
        destruct (enhance1 image1), (enhance2 image1);
          intros [= <-] [= <-]; reflexivity.
    + split; [intros _; split; [reflexivity | discriminate] |].
      split; [reflexivity |].
      intros text1 text2 [= <-] [= <-]. reflexivity.
  - intros decoder_bits image1 image2 file_name prompt1 prompt2
      World1 World2 generate_content1 generate_content2 save_png1 save_png2
      enhance1 enhance2 w1 w2 Hdesc Hd1 Hd2.
    rewrite <- (same_descriptor_same_image decoder_bits image1 image2 Hdesc Hd1 Hd2).
    intros Hclass. cbv zeta. intros U1 U2 Hend.
    rewrite (unanswered_result _ _ _ _ _ _ _ _ U1),
      (unanswered_result _ _ _ _ _ _ _ _ U2), Hclass.
    destruct (Trace.classified image1 prompt2 file_name); [| reflexivity].
    unfold Spec.same_ending in Hend.
    destruct (enhance1 image1), (enhance2 image1);
      first [reflexivity | contradiction].
Qed.

(** Two runs on a portrait photograph: one with the service down, one cut
    short by the quota, and with different prompts.  Both return the
    generic report, the same. *)
Lemma same_inputs_same_outputs_witness :
  fst (fst (Outage.analyze_image (Script.jpeg 600 800 (Some 8))
              "Describe this image" (Some "cat.jpg") tt))
  = fst (fst (Script.analyze_image (Script.jpeg 600 800 (Some 8))
                "What is the main subject of this image?" (Some "cat.jpg")
                Script.quota_then_answer)).
Proof.
  assert (Hdesc : Spec.same_descriptor (Script.jpeg 600 800 (Some 8))
                    (Script.jpeg 600 800 (Some 8))) by (repeat split).
  assert (Hdec : Spec.decoded_by Pillow.decoder_bits (Script.jpeg 600 800 (Some 8)))
    by reflexivity.
  refine (proj2 (proj2 same_inputs_same_outputs) Pillow.decoder_bits
            (Script.jpeg 600 800 (Some 8)) (Script.jpeg 600 800 (Some 8))
            (Some "cat.jpg") "Describe this image"
            "What is the main subject of this image?"
            Outage.World Script.World Outage.generate_content Script.generate_content
            Script.save_png Script.save_png Script.enhance Script.enhance
            tt Script.quota_then_answer Hdesc Hdec Hdec _ _ _ _).
  - vm_compute. reflexivity.
  - intros model_name prompt data text H. vm_compute in H.
    repeat (destruct H as [H | H]; [discriminate H |]). destruct H.
  - intros model_name prompt data text H. vm_compute in H.
    repeat (destruct H as [H | H]; [discriminate H |]). destruct H.
  - exact I.
Defined.

(** Why the theorem speaks of the decoder: the line "Bit Depth" of the
    report is printed from [bits], so that an image object with the format
    of a JPEG file and without the attribute, which no decoder makes, would
    get another text than a decoded one. *)
Example report_prints_bits :
  App.basic_analysis (Script.jpeg 600 800 (Some 8)) (Some "cat.jpg")
  <> App.basic_analysis (Script.jpeg 600 800 None) (Some "cat.jpg").
Proof.
  intros H. apply String.eqb_eq in H. vm_compute in H. discriminate H.
Qed.
